(** * SFTA data preparation: [prepare_eclipse_messages.py] and
      [prepare_mozilla_messages.py]

    A shallow embedding of the two preparation scripts and the properties
    of their record-selection and split pipeline.

    Definitions:
    - [Float53]: the binary64 arithmetic behind [int(n * 0.80)];
    - [PyStr]: Python [str] values, [str.strip] and the [{:,}] format;
    - [Frame]: the fragment of [pandas.DataFrame] the scripts use;
    - [World]: exceptions, the trace of a run, and the [Host] that stands
      for pandas, numpy, json, os and [config_messages];
    - [Eclipse], [Mozilla]: the functions of the two scripts;
    - [Spec]: the properties in the words of the specification;
    - [Toy]: one concrete [Host], on which the statements are run;
    - [Behaviour], [Inputs]: notions and inputs for the properties beyond
      the claims.

    Facts: one module per part of the pipeline, then [Claims] with the
    numbered claims, then [ExtraFacts] and [Extras] with further
    properties of the two scripts. *)

From Stdlib Require Import ZArith NArith List String Ascii Lia Bool.
From Stdlib Require Import Permutation Sorted DecimalString.
From stdpp Require Import base list gmap strings.

(* ===================================================================== *)
(** ** Binary64 arithmetic for the slice sizes *)
(* ===================================================================== *)

(** [n_train = int(n * 0.80)] multiplies in binary64: [n] is converted to
    the nearest double, the product is rounded to nearest-even on a 53-bit
    significand, and [int] truncates.  Only non-negative finite values
    far from the exponent limits occur, so a value is a significand and
    an exponent, [mant * 2 ^ expo]. *)
Module Float53.
Local Open Scope Z_scope.

Record binary64 := B64 { mant : Z; expo : Z }.

(** Round [m * 2^e] ([0 <= m]) to 53 significant bits, ties to even. *)
Definition round53 (m e : Z) : binary64 :=
  let k := Z.log2 m + 1 in
  if k <=? 53 then B64 m e
  else
    let s := k - 53 in
    let q := Z.shiftr m s in
    let r := Z.land m (Z.ones s) in
    let half := Z.shiftl 1 (s - 1) in
    let up := (half <? r) || ((r =? half) && Z.odd q) in
    B64 (if up then q + 1 else q) (e + s).

(** [float(n)] for an [int] [0 <= n]. *)
Definition float_of_int (n : Z) : binary64 := round53 n 0.

(** [x * y] on doubles. *)
Definition fmul (x y : binary64) : binary64 :=
  round53 (mant x * mant y) (expo x + expo y).

(** [int(x)] for [0 <= x]: truncation. *)
Definition int_of_float (x : binary64) : Z :=
  if 0 <=? expo x then Z.shiftl (mant x) (expo x)
  else Z.shiftr (mant x) (- expo x).

(** The literals [0.80] and [0.10]: [0x1.999999999999ap-1] and
    [0x1.999999999999ap-4]. *)
Definition lit_0_80 : binary64 := B64 7205759403792794 (-53).
Definition lit_0_10 : binary64 := B64 7205759403792794 (-56).

(** [int(n * c)] for an [int] [n] and a double literal [c]. *)
Definition int_mul (n : Z) (c : binary64) : Z :=
  int_of_float (fmul (float_of_int n) c).

End Float53.

(* ===================================================================== *)
(** ** Python strings *)
(* ===================================================================== *)

(** A Python [str] is a sequence of code points. *)
Module PyStr.

Definition pystr := list N.

(** An ASCII literal as a [str]. *)
Definition lit (s : string) : pystr :=
  map N_of_ascii (list_ascii_of_string s).

(** [str.isspace] on one character: the code points CPython's
    [_PyUnicode_IsWhitespace] accepts. *)
Definition isspace (c : N) : bool :=
  ((9 <=? c) && (c <=? 13) || (28 <=? c) && (c <=? 32) ||
   (c =? 133) || (c =? 160) || (c =? 5760) ||
   (8192 <=? c) && (c <=? 8202) || (c =? 8232) || (c =? 8233) ||
   (c =? 8239) || (c =? 8287) || (c =? 12288))%N.

Fixpoint lstrip (s : pystr) : pystr :=
  match s with
  | c :: s' => if isspace c then lstrip s' else s
  | [] => []
  end.

Definition rstrip (s : pystr) : pystr := rev (lstrip (rev s)).

(** [s.strip()]: the leading run of whitespace is skipped, then the
    trailing one. *)
Definition strip (s : pystr) : pystr := rstrip (lstrip s).

(** Truth value of a [str]: non-empty. *)
Definition truthy (s : pystr) : bool :=
  match s with [] => false | _ => true end.

(** Decimal digits of a natural number, [str(n)] for [0 <= n]. *)
Definition digits (n : N) : pystr :=
  lit (NilZero.string_of_uint (N.to_uint n)).

(** Insert a comma before every group of three characters, counting from
    the head; [k] characters remain in the current group. *)
Fixpoint group3 (k : nat) (ds : pystr) : pystr :=
  match ds with
  | [] => []
  | d :: ds' =>
      match k with
      | O => 44%N :: d :: group3 2 ds'
      | S k' => d :: group3 k' ds'
      end
  end.

Definition sign (z : Z) : pystr :=
  if (z <? 0)%Z then [45%N] else [].

(** [f"{z}"] for an [int]. *)
Definition fmt_int (z : Z) : pystr := sign z ++ digits (Z.abs_N z).

(** [f"{z:,}"] for an [int]: thousands separated by commas. *)
Definition fmt_thousands (z : Z) : pystr :=
  sign z ++ rev (group3 3 (rev (digits (Z.abs_N z)))).

End PyStr.

(* ===================================================================== *)
(** ** Data frames *)
(* ===================================================================== *)

(** The fragment of pandas the scripts use.  A frame is its column labels
    and its rows in order; a row maps column labels to cells.  Row labels
    are not kept: the scripts only use them to align a frame with itself,
    and [reset_index(drop=True)] discards them. *)
Module Frame.
Import PyStr.

(** A cell is missing ([NaN], [None], [NaT]), a timestamp (an instant on
    the UTC time line, in the unit of the host's clock), or any other
    scalar, held as the text [str()] gives for it. *)
Inductive cell :=
  | NA
  | Str (s : pystr)
  | Stamp (t : Z).

Record DataFrame := mkDF {
  columns : list string;
  rows : list (gmap string cell)
}.

(** [len(df)] *)
Definition len (df : DataFrame) : Z := Z.of_nat (length (rows df)).

(** [c in df.columns] *)
Definition has_column (c : string) (df : DataFrame) : bool :=
  bool_decide (c ∈ columns df).

(** The cell of row [r] in column [c]. *)
Definition col_get (r : gmap string cell) (c : string) : cell :=
  default NA (r !! c).

(** [df[c]], the column as a series. *)
Definition series (df : DataFrame) (c : string) : list cell :=
  map (fun r => col_get r c) (rows df).

(** [df[c] = s]: the column is replaced, or appended when new. *)
Definition set_column (df : DataFrame) (c : string) (s : list cell)
  : DataFrame :=
  mkDF (if has_column c df then columns df else columns df ++ [c])
       (zip_with (fun r v => <[c := v]> r) (rows df) s).

(** [df[c] = v] for a scalar [v]. *)
Definition set_scalar (df : DataFrame) (c : string) (v : cell) : DataFrame :=
  set_column df c (map (fun _ => v) (rows df)).

(** [pd.isna(x)], [Series.notna()] *)
Definition isna (c : cell) : bool :=
  match c with NA => true | _ => false end.

Definition notna (c : cell) : bool := negb (isna c).

(** [s.fillna(other)] for a series [other] of the same frame. *)
Definition fillna_series (s other : list cell) : list cell :=
  zip_with (fun a b => if isna a then b else a) s other.

(** [s.fillna(v)] for a scalar [v]. *)
Definition fillna (s : list cell) (v : cell) : list cell :=
  map (fun a => if isna a then v else a) s.

(** [df[mask]], [df.loc[mask]]: the rows at which the mask holds. *)
Fixpoint select {A} (mask : list bool) (l : list A) : list A :=
  match mask, l with
  | b :: mask', x :: l' =>
      if b then x :: select mask' l' else select mask' l'
  | _, _ => []
  end.

Definition loc_mask (df : DataFrame) (mask : list bool) : DataFrame :=
  mkDF (columns df) (select mask (rows df)).

(** [df.take(positions)]: the rows at the given positions, in that
    order. *)
Definition take_rows {A} (positions : list nat) (l : list A) : list A :=
  omap (fun i => l !! i) positions.

Definition take_frame (df : DataFrame) (positions : list nat) : DataFrame :=
  mkDF (columns df) (take_rows positions (rows df)).

(** [df.head(n)]: the first [n] rows; all but the last [-n] for a
    negative [n]. *)
Definition head (df : DataFrame) (n : Z) : DataFrame :=
  mkDF (columns df)
       (if (0 <=? n)%Z then take (Z.to_nat n) (rows df)
        else take (length (rows df) - Z.to_nat (- n)) (rows df)).

(** [df.iloc[a:b]], [df.iloc[:b]] and [df.iloc[a:]] for [0 <= a, b]. *)
Definition iloc (df : DataFrame) (a b : Z) : DataFrame :=
  mkDF (columns df)
       (take (Z.to_nat b - Z.to_nat a) (drop (Z.to_nat a) (rows df))).

Definition iloc_to (df : DataFrame) (b : Z) : DataFrame :=
  mkDF (columns df) (take (Z.to_nat b) (rows df)).

Definition iloc_from (df : DataFrame) (a : Z) : DataFrame :=
  mkDF (columns df) (drop (Z.to_nat a) (rows df)).

(** Sort key of a datetime cell: [None] for [NaT], which sorts last. *)
Definition stamp_of (c : cell) : option Z :=
  match c with Stamp t => Some t | _ => None end.

(** The order of [sort_values] on datetimes, [NaT] last. *)
Definition key_le (a b : option Z) : Prop :=
  match a, b with
  | Some x, Some y => (x <= y)%Z
  | _, None => True
  | None, Some _ => False
  end.

(** Comparison of a datetime cell with a timestamp; [NaT] compares
    false. *)
Definition cell_ge (c : cell) (s : Z) : bool :=
  match c with Stamp t => (s <=? t)%Z | _ => false end.

Definition cell_le (c : cell) (e : Z) : bool :=
  match c with Stamp t => (t <=? e)%Z | _ => false end.

(** [is_datetime64_any_dtype(s)]: the column holds datetimes, no other
    scalar.  (A column of missing values only is read the same way: its
    conversion is itself.) *)
Definition is_datetime64_any_dtype (s : list cell) : bool :=
  forallb (fun c => match c with Str _ => false | _ => true end) s.

End Frame.

(* ===================================================================== *)
(** ** The world outside the scripts *)
(* ===================================================================== *)

Module World.
Import PyStr Frame.

(** Exceptions the scripts raise, catch or let through. *)
Inductive exn :=
  | FileNotFoundError (msg : pystr)
  | KeyError (msg : pystr)
  | ValueError (msg : pystr)
  | UnicodeDecodeError
  | OSError (msg : pystr)
  | OtherError (msg : pystr).

(** What a run does to the outside: lines on standard output, and the
    directories and files it creates and writes. *)
Inductive event :=
  | Print (line : pystr)
  | MakeDirs (path : pystr)
  | OpenW (path : pystr) (encoding : string)
  | WriteTo (path : pystr) (text : pystr).

(** A computation: the events so far, and a value or the exception that
    ended it. *)
Definition M (A : Type) : Type := list event * (exn + A).

Definition ret {A} (a : A) : M A := ([], inr a).

Definition raise {A} (e : exn) : M A := ([], inl e).

Definition bind {A B} (m : M A) (k : A -> M B) : M B :=
  match m with
  | (t, inl e) => (t, inl e)
  | (t, inr a) => let '(t', r) := k a in (t ++ t', r)
  end.

Definition emit (ev : event) : M unit := ([ev], inr tt).

Notation "x <~ m ;; k" := (bind m (fun x => k))
  (at level 100, m at next level, right associativity).
Notation "m ;;; k" := (bind m (fun _ => k))
  (at level 100, right associativity).

Definition print (line : pystr) : M unit := emit (Print line).

(** A [for] loop whose body may raise. *)
Fixpoint for_each {A} (l : list A) (body : A -> M unit) : M unit :=
  match l with
  | [] => ret tt
  | x :: l' => body x ;;; for_each l' body
  end.

(** Lift a call that returns or raises. *)
Definition call {A} (r : exn + A) : M A := ([], r).

(** The files a trace opens for writing, in order. *)
Definition opened_files (t : list event) : list pystr :=
  omap (fun ev => match ev with OpenW p _ => Some p | _ => None end) t.

(** The events that touch the file system. *)
Definition is_fs_event (ev : event) : bool :=
  match ev with Print _ => false | _ => true end.

Definition fs_events (t : list event) : list event :=
  List.filter is_fs_event t.

(** The text a trace leaves in the file at [path]: opening for writing
    truncates, writing appends. *)
Fixpoint file_text (path : pystr) (t : list event) (acc : option pystr)
  : option pystr :=
  match t with
  | [] => acc
  | OpenW p _ :: t' =>
      file_text path t' (if bool_decide (p = path) then Some [] else acc)
  | WriteTo p s :: t' =>
      file_text path t'
        (if bool_decide (p = path) then Some (default [] acc ++ s) else acc)
  | _ :: t' => file_text path t' acc
  end.

(** pandas, numpy, json, os and the module [config_messages], as far as
    the scripts call them. *)
Record Host := {
  (** [os.path.exists], [os.path.abspath], [os.path.join],
      [os.path.dirname] *)
  path_exists : pystr -> bool;
  abspath : pystr -> pystr;
  path_join : pystr -> pystr -> pystr;
  dirname : pystr -> pystr;
  (** [os.makedirs(p, exist_ok=True)] and [open(p, "w", ...)]: the
      exception, if any *)
  os_makedirs : pystr -> option exn;
  os_open_w : pystr -> option exn;
  (** [repr] of a [str] *)
  repr_str : pystr -> pystr;
  (** [str] of a [pd.Timestamp] *)
  str_Timestamp : Z -> pystr;
  (** [pd.read_csv(path, encoding=..., low_memory=False)] *)
  pd_read_csv : pystr -> pystr -> exn + DataFrame;
  (** [pd.to_datetime(column, errors="coerce", utc=True)] on the scalars
      of a column: the instant each one parses to, if any.  The answer
      for one scalar may depend on the column (format inference). *)
  pd_parse : list cell -> list (option Z);
  (** [pd.Timestamp(text)] *)
  pd_Timestamp : pystr -> exn + Z;
  (** The order [sort_values] puts the keys in: positions into the key
      list.  pandas sorts with quicksort by default, which fixes no
      order between equal keys. *)
  pd_argsort : list (option Z) -> list nat;
  (** numpy generators: [RandomState(seed)], which refuses seeds outside
      its range, and [RandomState.permutation(n)] *)
  rng : Type;
  RandomState : Z -> exn + rng;
  rng_permutation : rng -> nat -> list nat;
  (** [json.dumps({"messages": [{"role": r, "content": c}, ...]},
      ensure_ascii=False)] from the (role, content) pairs *)
  json_dumps_messages : list (pystr * pystr) -> pystr;
  (** [DataFrame.to_csv(..., index=False)] of records under the given
      columns: with or without header line, with [QUOTE_ALL] or minimal
      quoting *)
  df_to_csv : bool -> bool -> list string -> list (list cell) -> pystr;
  (** [template.format(title=..., body=...)] *)
  str_format : pystr -> pystr -> pystr -> pystr;
  (** [config_messages] *)
  SYSTEM_PROMPT : pystr;
  USER_PROMPT_TEMPLATE : pystr
}.

(** What the scripts rely on from the libraries. *)
Class HostLaws (H : Host) : Prop := {
  (** a permutation of [range(n)] *)
  rng_permutation_perm :
    forall st n, Permutation (rng_permutation H st n) (seq 0 n);
  (** a permutation of the positions that puts the keys in order *)
  pd_argsort_perm :
    forall ks, Permutation (pd_argsort H ks) (seq 0 (length ks));
  pd_argsort_sorted :
    forall ks, Sorted key_le (take_rows (pd_argsort H ks) ks)
}.

Section Calls.
Context (H : Host).

Definition makedirs (p : pystr) : M unit :=
  match os_makedirs H p with
  | Some e => raise e
  | None => emit (MakeDirs p)
  end.

Definition open_w (p : pystr) (encoding : string) : M unit :=
  match os_open_w H p with
  | Some e => raise e
  | None => emit (OpenW p encoding)
  end.

Definition write (p : pystr) (text : pystr) : M unit := emit (WriteTo p text).

(** [str(x)] of a cell.  A missing cell is never rendered by the scripts;
    pandas would print [nan]. *)
Definition py_str (c : cell) : pystr :=
  match c with
  | NA => lit "nan"
  | Str s => s
  | Stamp t => str_Timestamp H t
  end.

(** [s.astype(str)] *)
Definition astype_str (s : list cell) : list cell :=
  map (fun c => Str (py_str c)) s.

(** [pd.to_datetime(s, errors="coerce", utc=True)]: missing stays missing,
    a timestamp stays, any other scalar becomes the instant it parses to
    or [NaT]. *)
Definition to_datetime (s : list cell) : list cell :=
  imap (fun i c =>
          match c with
          | NA => NA
          | Stamp t => Stamp t
          | Str _ =>
              match pd_parse H s !! i with
              | Some (Some t) => Stamp t
              | _ => NA
              end
          end) s.

(** [df.sort_values(c)] on a datetime column. *)
Definition sort_values (df : DataFrame) (c : string) : DataFrame :=
  take_frame df (pd_argsort H (map stamp_of (series df c))).

(** [df.sample(frac=1.0, random_state=...)]: with an integer the rows are
    permuted by a fresh generator seeded with it, without one by numpy's
    global generator [g]. *)
Definition sample_all (random_state : option Z) (g : rng H)
    (df : DataFrame) : M DataFrame :=
  st <~ match random_state with
        | Some seed => call (RandomState H seed)
        | None => ret g
        end ;;
  ret (take_frame df (rng_permutation H st (length (rows df)))).

End Calls.
End World.

(* ===================================================================== *)
(** ** [prepare_eclipse_messages.py] *)
(* ===================================================================== *)

Module Eclipse.
Import PyStr Frame World.

Definition DEFAULT_START : pystr := lit "2007-11-01".
Definition DEFAULT_END : pystr := lit "2015-11-30".
Definition DEFAULT_TARGET : Z := 16106.

(** The parsed command line. *)
Record Args := {
  eclipse_csv : pystr;
  out_dir : pystr;
  seed : Z;
  encoding : pystr;
  start : pystr;
  end_ : pystr;
  target_exact : Z;
  allow_below_target : bool
}.

Section Script.
Context (H : Host).

Definition read_csv_with_fallback (path encoding : pystr)
  : M (DataFrame * pystr) :=
  match pd_read_csv H path encoding with
  | inr df => ret (df, lit "utf-8")
  | inl UnicodeDecodeError =>
      print (lit "Warning: could not decode " ++ repr_str H path ++
             lit " with " ++ encoding ++ lit ", retrying latin-1") ;;;
      df <~ call (pd_read_csv H path (lit "latin-1")) ;;
      ret (df, lit "latin-1")
  | inl e => raise e
  end.

Definition ensure_datetime_col (df : DataFrame) (col : string)
  : M DataFrame :=
  if negb (has_column col df) then
    raise (KeyError (lit "CSV must contain '" ++ lit col ++ lit "'."))
  else
    let df :=
      if negb (is_datetime64_any_dtype (series df col))
      then set_column df col (to_datetime H (series df col))
      else df in
    ret (loc_mask df (map notna (series df col))).

Definition filter_window (df : DataFrame) (start end_ : pystr)
  : M DataFrame :=
  df <~ ensure_datetime_col df "creation_time" ;;
  s <~ call (pd_Timestamp H (start ++ lit "T00:00:00Z")) ;;
  e <~ call (pd_Timestamp H (end_ ++ lit "T23:59:59Z")) ;;
  ret (loc_mask df
         (map (fun c => cell_ge c s && cell_le c e)
              (series df "creation_time"))).

Definition add_assignee_column (df : DataFrame) : DataFrame :=
  let df :=
    if has_column "assigned_to_detail.email" df then
      let df := set_column df "assignee"
                  (series df "assigned_to_detail.email") in
      if has_column "assigned_to" df then
        set_column df "assignee"
          (fillna_series (series df "assignee") (series df "assigned_to"))
      else df
    else if has_column "assigned_to" df then
      set_column df "assignee" (series df "assigned_to")
    else
      set_scalar df "assignee" (Str []) in
  set_column df "assignee"
    (astype_str H (fillna (series df "assignee") (Str []))).

(** The argument is [None] (no such label in the row) or a cell. *)
Definition _str_or_empty (x : option cell) : pystr :=
  match x with
  | None => []
  | Some c => if isna c then [] else py_str H c
  end.

Fixpoint _coalesce_text (candidates : list (option cell)) : pystr :=
  match candidates with
  | [] => []
  | c :: rest =>
      let s := strip (_str_or_empty c) in
      if truthy s then s else _coalesce_text rest
  end.

(** The line [to_jsonl] writes for one row. *)
Definition jsonl_line (system_prompt user_tmpl : pystr)
    (r : gmap string cell) : pystr :=
  let title := _coalesce_text [r !! "summary_update"; r !! "summary"] in
  let body :=
    _coalesce_text [r !! "description_update"; r !! "description"] in
  let assignee := _str_or_empty (r !! "assignee") in
  let msgs := [ (lit "system", system_prompt);
                (lit "user", str_format H user_tmpl title body);
                (lit "assistant", assignee) ] in
  json_dumps_messages H msgs ++ lit (String "010" EmptyString).

Definition to_jsonl (rows_df : DataFrame)
    (out_path system_prompt user_tmpl : pystr) : M unit :=
  makedirs H (dirname H out_path) ;;;
  open_w H out_path "utf-8" ;;;
  for_each (rows rows_df)
    (fun r => write out_path (jsonl_line system_prompt user_tmpl r)) ;;;
  print (lit "Wrote " ++ fmt_int (len rows_df) ++ lit " examples to " ++
         out_path).

Definition to_title_body_assignee_csv (rows_df : DataFrame)
    (out_path : pystr) : M unit :=
  makedirs H (dirname H out_path) ;;;
  let title_series :=
    map (fun r => _coalesce_text [r !! "summary_update"; r !! "summary"])
        (rows rows_df) in
  let body_series :=
    map (fun r =>
           _coalesce_text [r !! "description_update"; r !! "description"])
        (rows rows_df) in
  let assignee_series :=
    if has_column "assignee" rows_df
    then map (fun c => _str_or_empty (Some c)) (series rows_df "assignee")
    else map (fun _ => []) (rows rows_df) in
  let out_df :=
    zip_with (fun t ba => [Str t; Str ba.1; Str ba.2]) title_series
             (zip body_series assignee_series) in
  open_w H out_path "utf-8-sig" ;;;
  write out_path (lit ("title,body,assignee" ++ String "010" EmptyString)) ;;;
  write out_path
    (df_to_csv H false true ["title"; "body"; "assignee"] out_df) ;;;
  print (lit "Wrote " ++ fmt_int (Z.of_nat (length out_df)) ++
         lit " rows to " ++ out_path ++
         lit " (unquoted header; QUOTE_ALL data)").

(** [main], lines 130-137: the source file, or its fallback. *)
Definition main_source (args : Args) : M pystr :=
  let csv_path := eclipse_csv args in
  if negb (path_exists H csv_path) then
    let fallback := lit "eclipse_my.csv" in
    if path_exists H fallback then
      print ([8594%N] ++ lit " " ++ csv_path ++
             lit " not found; using " ++ fallback) ;;;
      ret fallback
    else
      raise (FileNotFoundError
               (lit "Neither " ++ eclipse_csv args ++
                lit " nor eclipse_my.csv exists."))
  else ret csv_path.

(** [main], lines 145-155: the in-window frame against the target. *)
Definition main_reconcile (args : Args) (df_span : DataFrame)
  : M DataFrame :=
  let n_before := len df_span in
  if negb (target_exact args =? 0)%Z && (target_exact args <=? n_before)%Z
  then
    let df_span :=
      head (sort_values H df_span "creation_time") (target_exact args) in
    print (lit "  In-window rows: " ++ fmt_thousands n_before ++
           lit " " ++ [8594%N] ++ lit " trimmed to exact " ++
           fmt_thousands (len df_span)) ;;;
    ret df_span
  else if negb (target_exact args =? 0)%Z && (n_before <? target_exact args)%Z
  then
    let msg :=
      lit "Only " ++ fmt_thousands n_before ++
      lit " rows in window (< target " ++
      fmt_thousands (target_exact args) ++ lit "). " ++
      (if allow_below_target args then lit "Continuing"
       else lit "Re-run after augmenting or use --allow_below_target") ++
      lit "." in
    if allow_below_target args then
      print (lit "  " ++ msg) ;;; ret df_span
    else raise (ValueError msg)
  else ret df_span.

(** [main], lines 159-168: the 80/10/10 split. *)
Definition n_train (n : Z) : Z := Float53.int_mul n Float53.lit_0_80.
Definition n_val (n : Z) : Z := Float53.int_mul n Float53.lit_0_10.
Definition n_test (n : Z) : Z := (n - n_train n - n_val n)%Z.

Definition main_split (seed : Z) (g : rng H) (df_span : DataFrame)
  : M (DataFrame * DataFrame * DataFrame) :=
  let n := len df_span in
  df_shuf <~ sample_all H (Some seed) g df_span ;;
  let train_df := iloc_to df_shuf (n_train n) in
  let val_df := iloc df_shuf (n_train n) (n_train n + n_val n) in
  let test_df := iloc_from df_shuf (n_train n + n_val n) in
  ret (train_df, val_df, test_df).

(** [main], lines 170-179: the three files and the summary. *)
Definition main_emit (args : Args) (csv_path enc : pystr) (n : Z)
    (train_df val_df test_df : DataFrame) : M unit :=
  makedirs H (out_dir args) ;;;
  to_jsonl train_df (path_join H (out_dir args) (lit "train_all.jsonl"))
    (SYSTEM_PROMPT H) (USER_PROMPT_TEMPLATE H) ;;;
  to_jsonl val_df (path_join H (out_dir args) (lit "valid_all.jsonl"))
    (SYSTEM_PROMPT H) (USER_PROMPT_TEMPLATE H) ;;;
  let test_csv_path := path_join H (out_dir args) (lit "test_all.csv") in
  to_title_body_assignee_csv test_df test_csv_path ;;;
  print (lit "SUMMARY: total_in_window=" ++ fmt_int n ++
         lit "  train=" ++ fmt_int (len train_df) ++
         lit "  valid=" ++ fmt_int (len val_df) ++
         lit "  test=" ++ fmt_int (len test_df)) ;;;
  print (lit "Span: " ++ start args ++ lit " .. " ++ end_ args ++
         lit "  |  Source CSV: " ++ csv_path ++
         lit " (encoding=" ++ enc ++ lit ")").

(** [main], lines 130-155: the source is found, loaded, cut to the
    window and reconciled with the target. *)
Definition main_select (args : Args) : M (pystr * pystr * DataFrame) :=
  csv_path <~ main_source args ;;
  print ([8594%N] ++ lit " Loading CSV: " ++ abspath H csv_path) ;;;
  loaded <~ read_csv_with_fallback csv_path (encoding args) ;;
  let df_raw := loaded.1 in
  let enc := loaded.2 in
  df_raw <~ ensure_datetime_col df_raw "creation_time" ;;
  df_span <~ filter_window df_raw (start args) (end_ args) ;;
  df_span <~ main_reconcile args df_span ;;
  ret (csv_path, enc, df_span).

(** [main], after [parse_args].  [g] is the state of numpy's global
    generator when the script starts. *)
Definition main (args : Args) (g : rng H) : M unit :=
  sel <~ main_select args ;;
  let csv_path := sel.1.1 in
  let enc := sel.1.2 in
  let df_span := add_assignee_column sel.2 in
  let n := len df_span in
  parts <~ main_split (seed args) g df_span ;;
  main_emit args csv_path enc n parts.1.1 parts.1.2 parts.2.

End Script.
End Eclipse.

(* ===================================================================== *)
(** ** [prepare_mozilla_messages.py] *)
(* ===================================================================== *)

Module Mozilla.
Import PyStr Frame World.

Definition DEFAULT_START : pystr := lit "1999-06-01".
Definition DEFAULT_END : pystr := lit "2021-02-28".
Definition DEFAULT_SEED : Z := 3407.
Definition DEFAULT_EXPECT : Z := 110467.

Record Args := {
  mozilla_csv : pystr;
  out_dir : pystr;
  encoding : pystr;
  seed : Z;
  start : pystr;
  end_ : pystr;
  expect_count : Z;
  no_strict_count : bool
}.

Section Script.
Context (H : Host).

Definition read_csv_with_fallback (path encoding : pystr)
  : M (DataFrame * pystr) :=
  match pd_read_csv H path encoding with
  | inr df => ret (df, lit "utf-8")
  | inl UnicodeDecodeError =>
      print (lit "Warning: could not decode " ++ repr_str H path ++
             lit " with " ++ encoding ++ lit ", retrying latin-1") ;;;
      df <~ call (pd_read_csv H path (lit "latin-1")) ;;
      ret (df, lit "latin-1")
  | inl e => raise e
  end.

Definition _str_or_empty (x : option cell) : pystr :=
  match x with
  | None => []
  | Some c => if isna c then [] else py_str H c
  end.

Fixpoint coalesce (vals : list (option cell)) : pystr :=
  match vals with
  | [] => []
  | v :: rest =>
      let s := strip (_str_or_empty v) in
      if truthy s then s else coalesce rest
  end.

Definition add_assignee (df : DataFrame) : DataFrame :=
  let df :=
    if has_column "assigned_to_detail.email" df then
      let df := set_column df "assignee"
                  (series df "assigned_to_detail.email") in
      if has_column "assigned_to" df then
        set_column df "assignee"
          (fillna_series (series df "assignee") (series df "assigned_to"))
      else df
    else if has_column "assigned_to" df then
      set_column df "assignee" (series df "assigned_to")
    else
      set_scalar df "assignee" (Str []) in
  set_column df "assignee"
    (astype_str H (fillna (series df "assignee") (Str []))).

Definition add_title_body (df : DataFrame) : DataFrame :=
  let df := set_column df "title"
    (map (fun r => Str (coalesce [r !! "summary_update"; r !! "summary"]))
         (rows df)) in
  set_column df "body"
    (map (fun r =>
            Str (coalesce [r !! "description_update"; r !! "description"]))
         (rows df)).

(** [r[c]] on a row: the cell, or [KeyError]. *)
Definition getitem (r : gmap string cell) (c : string) : M cell :=
  match r !! c with
  | Some v => ret v
  | None => raise (KeyError (lit c))
  end.

(** The body of the loop of [to_jsonl]: one row, one line. *)
Definition write_record (path : pystr) (r : gmap string cell) : M unit :=
  title <~ getitem r "title" ;;
  body <~ getitem r "body" ;;
  assignee <~ getitem r "assignee" ;;
  let msgs :=
    [ (lit "system", SYSTEM_PROMPT H);
      (lit "user",
       str_format H (USER_PROMPT_TEMPLATE H)
         (_str_or_empty (Some title)) (_str_or_empty (Some body)));
      (lit "assistant", _str_or_empty (Some assignee)) ] in
  write path (json_dumps_messages H msgs ++ lit (String "010" EmptyString)).

Definition to_jsonl (df : DataFrame) (path : pystr) : M unit :=
  makedirs H (dirname H path) ;;;
  open_w H path "utf-8" ;;;
  for_each (rows df) (write_record path) ;;;
  print (lit "Wrote " ++ fmt_int (len df) ++ lit " examples to " ++ path).

Definition to_csv_slim (df : DataFrame) (path : pystr) : M unit :=
  makedirs H (dirname H path) ;;;
  let cols := ["title"; "body"; "assignee"] in
  match List.find (fun c => negb (has_column c df)) cols with
  | Some c => raise (KeyError (lit c))
  | None =>
      open_w H path "utf-8-sig" ;;;
      write path
        (df_to_csv H true false cols
           (map (fun r => map (col_get r) cols) (rows df))) ;;;
      print (lit "Wrote " ++ fmt_int (len df) ++ lit " rows to " ++ path)
  end.

(** [main], lines 100-108: the rows in the span. *)
Definition main_window (args : Args) (df : DataFrame) : M DataFrame :=
  if negb (has_column "creation_time" df) then
    raise (KeyError (lit "CSV must contain 'creation_time'."))
  else
    let dt := to_datetime H (series df "creation_time") in
    s <~ call (pd_Timestamp H (start args ++ lit "T00:00:00Z")) ;;
    e <~ call (pd_Timestamp H (end_ args ++ lit "T23:59:59Z")) ;;
    let mask := map (fun c => notna c && cell_ge c s && cell_le c e) dt in
    let df_span := loc_mask df mask in
    print (lit "  In-span rows (kept): " ++ fmt_thousands (len df_span)) ;;;
    ret df_span.

(** [main], lines 110-114: the in-span count against the expected one.
    The block assigns nothing: the frame goes on as it came. *)
Definition main_reconcile (args : Args) (df_span : DataFrame)
  : M DataFrame :=
  if negb (expect_count args =? 0)%Z && negb (no_strict_count args)
     && negb (len df_span =? expect_count args)%Z
  then
    raise (ValueError
             (lit "In-span rows " ++ fmt_thousands (len df_span) ++
              lit " != expected " ++ fmt_thousands (expect_count args) ++
              lit ". " ++
              lit "Rerun with --no_strict_count if you want to proceed anyway."))
  else if negb (expect_count args =? 0)%Z
          && negb (len df_span =? expect_count args)%Z
  then
    print (lit "  WARNING: In-span rows " ++ fmt_thousands (len df_span) ++
           lit " != expected " ++ fmt_thousands (expect_count args) ++
           lit " (continuing).") ;;;
    ret df_span
  else ret df_span.

(** [main], lines 119-128: the 80/10/10 split. *)
Definition n_train (n : Z) : Z := Float53.int_mul n Float53.lit_0_80.
Definition n_val (n : Z) : Z := Float53.int_mul n Float53.lit_0_10.
Definition n_test (n : Z) : Z := (n - n_train n - n_val n)%Z.

Definition main_split (seed : Z) (g : rng H) (df_span : DataFrame)
  : M (DataFrame * DataFrame * DataFrame) :=
  let n := len df_span in
  df_shuf <~ sample_all H (Some seed) g df_span ;;
  let train := iloc_to df_shuf (n_train n) in
  let valid := iloc df_shuf (n_train n) (n_train n + n_val n) in
  let test := iloc_from df_shuf (n_train n + n_val n) in
  ret (train, valid, test).

(** [main], lines 130-139: the three files and the summary. *)
Definition main_emit (args : Args) (enc : pystr) (n : Z)
    (train valid test : DataFrame) : M unit :=
  makedirs H (out_dir args) ;;;
  to_jsonl train (path_join H (out_dir args) (lit "train_all.jsonl")) ;;;
  to_jsonl valid (path_join H (out_dir args) (lit "valid_all.jsonl")) ;;;
  to_csv_slim test (path_join H (out_dir args) (lit "test_all.csv")) ;;;
  print (lit "SUMMARY: total_in_span=" ++ fmt_thousands n ++
         lit "  train=" ++ fmt_thousands (len train) ++
         lit "  valid=" ++ fmt_thousands (len valid) ++
         lit "  test=" ++ fmt_thousands (len test)) ;;;
  print (lit "Span: " ++ start args ++ lit " .. " ++ end_ args ++
         lit " | Source: " ++ mozilla_csv args ++
         lit " (encoding=" ++ enc ++ lit ")").

(** [main], lines 94-114: the source is loaded, cut to the span and its
    count checked. *)
Definition main_select (args : Args) : M (pystr * DataFrame) :=
  (if negb (path_exists H (mozilla_csv args))
   then raise (FileNotFoundError (mozilla_csv args))
   else ret tt) ;;;
  print ([8594%N] ++ lit " Loading CSV: " ++ abspath H (mozilla_csv args)) ;;;
  loaded <~ read_csv_with_fallback (mozilla_csv args) (encoding args) ;;
  let df := loaded.1 in
  let enc := loaded.2 in
  df_span <~ main_window args df ;;
  df_span <~ main_reconcile args df_span ;;
  ret (enc, df_span).

(** [main], after [parse_args].  [g] is the state of numpy's global
    generator when the script starts. *)
Definition main (args : Args) (g : rng H) : M unit :=
  sel <~ main_select args ;;
  let enc := sel.1 in
  let df_span := add_assignee sel.2 in
  let df_span := add_title_body df_span in
  let n := len df_span in
  parts <~ main_split (seed args) g df_span ;;
  main_emit args enc n parts.1.1 parts.1.2 parts.2.

End Script.
End Mozilla.

(* ===================================================================== *)
(** ** The properties, in the words of the specification, and the
       notions their proofs use *)
(* ===================================================================== *)

Module Spec.
Import PyStr Frame World.

(** *** The window *)

(** The filter in the words of its contract: a row is kept when its
    creation time, coerced to a timestamp, is not null and lies in the
    closed interval from [s] to [e].  Each kept row comes with its
    timestamp. *)
Definition in_window (s e : Z) (d : cell) : bool :=
  match d with
  | Stamp t => (s <=? t)%Z && (t <=? e)%Z
  | _ => false
  end.

Definition window_spec (H : Host) (s e : Z) (df : DataFrame)
  : list (gmap string cell * cell) :=
  List.filter (fun rd => in_window s e rd.2)
    (zip (rows df) (to_datetime H (series df "creation_time"))).

(** A row of the result against a source row and its timestamp: the
    creation time is the timestamp, every other column is untouched. *)
Definition window_row (c : string) (r' : gmap string cell)
    (rd : gmap string cell * cell) : Prop :=
  col_get r' c = rd.2 /\ forall c', c' <> c -> r' !! c' = rd.1 !! c'.

(** A cell of a datetime column: anything but another scalar. *)
Definition nonstr (c : cell) : bool :=
  match c with Str _ => false | _ => true end.

(** The frame [ensure_datetime_col] filters: the column converted, unless
    it already holds datetimes. *)
Definition converted (H : Host) (df : DataFrame) (c : string)
  : DataFrame :=
  if negb (is_datetime64_any_dtype (series df c))
  then set_column df c (to_datetime H (series df c))
  else df.

(** *** The count *)

(** The creation time of a row, as a sort key. *)
Definition time_key (r : gmap string cell) : option Z :=
  stamp_of (col_get r "creation_time").

(** The message of the shortfall. *)
Definition shortfall_message (n target : Z) : pystr :=
  lit "Only " ++ fmt_thousands n ++ lit " rows in window (< target " ++
  fmt_thousands target ++
  lit "). Re-run after augmenting or use --allow_below_target.".

(** The message of the mismatch. *)
Definition mismatch_message (n expected : Z) : pystr :=
  lit "In-span rows " ++ fmt_thousands n ++ lit " != expected " ++
  fmt_thousands expected ++
  lit ". Rerun with --no_strict_count if you want to proceed anyway.".

(** The warning of the mismatch. *)
Definition mismatch_warning (n expected : Z) : pystr :=
  lit "  WARNING: In-span rows " ++ fmt_thousands n ++
  lit " != expected " ++ fmt_thousands expected ++ lit " (continuing).".

(** *** The derived fields *)

(** The assignee in the words of the claim. *)
Definition assignee_spec (H : Host) (df : DataFrame)
    (r : gmap string cell) : pystr :=
  if has_column "assigned_to_detail.email" df
     && notna (col_get r "assigned_to_detail.email")
  then py_str H (col_get r "assigned_to_detail.email")
  else if has_column "assigned_to" df && notna (col_get r "assigned_to")
  then py_str H (col_get r "assigned_to")
  else [].

(** The text of a field that may be absent or null. *)
Definition field_text (H : Host) (x : option cell) : pystr :=
  match x with
  | Some (Str s) => s
  | Some (Stamp t) => str_Timestamp H t
  | Some NA | None => []
  end.

(** Title and body in the words of the claim: the trimmed updated
    variant when that is not empty, else the trimmed original variant
    when that is not empty, else the empty string. *)
Definition text_spec (H : Host) (updated original : option cell) : pystr :=
  match strip (field_text H updated), strip (field_text H original) with
  | c :: u, _ => c :: u
  | [], c :: o => c :: o
  | [], [] => []
  end.

(** The conversation record of a row: the fixed system turn, the user
    turn made of title and body, and the assignee as the assistant turn,
    on one line. *)
Definition conversation_line (H : Host) (title body assignee : pystr)
  : pystr :=
  json_dumps_messages H
    [ (lit "system", SYSTEM_PROMPT H);
      (lit "user", str_format H (USER_PROMPT_TEMPLATE H) title body);
      (lit "assistant", assignee) ]
  ++ lit (String "010" EmptyString).

(** *** The split *)

Local Open Scope Z_scope.

(** The three slices of positions, from the seeded generator and the row
    count. *)
Definition split_positions (H : Host) (st : rng H) (n : nat)
  : list nat * list nat * list nat :=
  let p := rng_permutation H st n in
  let a := Z.to_nat (Eclipse.n_train (Z.of_nat n)) in
  let ab := Z.to_nat (Eclipse.n_train (Z.of_nat n)
                      + Eclipse.n_val (Z.of_nat n)) in
  (take a p, take (ab - a) (drop a p), drop ab p).

(** What the claim asks of the three parts of an enriched frame, [n]
    being the number of reconciled in-window records: they are the rows
    at three consecutive slices [p1], [p2], [p3] of the one permutation
    the seeded generator [st] gives; no position is in two slices and
    every position is in one, so that the rows of the three parts are the
    rows of the frame, each once; the sizes are the truncated 80% and 10%
    and the remainder. *)
Definition split_partition_of (H : Host) (st : rng H) (enriched : DataFrame)
    (n : Z) (parts : DataFrame * DataFrame * DataFrame) : Prop :=
  exists p p1 p2 p3 : list nat,
    p = rng_permutation H st (length (rows enriched)) /\
    p = p1 ++ p2 ++ p3 /\
    Permutation p (seq 0 (length (rows enriched))) /\
    parts = (take_frame enriched p1, take_frame enriched p2,
             take_frame enriched p3) /\
    (forall i, i ∈ p1 -> i ∉ p2) /\
    (forall i, i ∈ p1 -> i ∉ p3) /\
    (forall i, i ∈ p2 -> i ∉ p3) /\
    (forall i, (i < length (rows enriched))%nat ->
               i ∈ p1 \/ i ∈ p2 \/ i ∈ p3) /\
    Permutation (rows parts.1.1 ++ rows parts.1.2 ++ rows parts.2)
      (rows enriched) /\
    len parts.1.1 = 4 * n / 5 /\
    len parts.1.2 = n / 10 /\
    len parts.2 = n - 4 * n / 5 - n / 10 /\
    len parts.1.1 + len parts.1.2 + len parts.2 = n.

Local Close Scope Z_scope.

(** *** The run *)

(** A computation that only prints. *)
Definition prints_only {A} (m : M A) : Prop := fs_events m.1 = [].

End Spec.

(* ===================================================================== *)
(** ** A small host *)
(* ===================================================================== *)

(** One concrete [Host]: ISO dates on a clock that counts seconds, an
    insertion sort, a generator that rotates, and a file system with two
    sources.  The statements below are run on it. *)
Module Toy.
Import PyStr Frame World.

Definition digit (c : N) : option Z :=
  if ((48 <=? c) && (c <=? 57))%N then Some (Z.of_N c - 48)%Z else None.

Fixpoint number (s : pystr) (acc : Z) : option Z :=
  match s with
  | [] => Some acc
  | c :: s' =>
      match digit c with
      | Some d => number s' (acc * 10 + d)%Z
      | None => None
      end
  end.

(** The decimal field of [width] characters at [off]. *)
Definition field (s : pystr) (off width : nat) : option Z :=
  let f := take width (drop off s) in
  if bool_decide (length f = width) then number f 0 else None.

Definition sep (s : pystr) (off : nat) (c : N) : bool :=
  bool_decide (s !! off = Some c).

(** Days from 1970-01-01 to the civil date [y-m-d]. *)
Definition days_from_civil (y m d : Z) : Z :=
  (let y' := if m <=? 2 then y - 1 else y in
   let era := y' / 400 in
   let yoe := y' - era * 400 in
   let mp := (m + 9) mod 12 in
   let doy := (153 * mp + 2) / 5 + d - 1 in
   let doe := yoe * 365 + yoe / 4 - yoe / 100 + doy in
   era * 146097 + doe - 719468)%Z.

(** [YYYY-MM-DD], alone or followed by [THH:MM:SSZ], as seconds since
    the epoch. *)
Definition parse_iso (s : pystr) : option Z :=
  match field s 0 4, field s 5 2, field s 8 2 with
  | Some y, Some m, Some d =>
      if negb (sep s 4 45 && sep s 7 45
               && (1 <=? m)%Z && (m <=? 12)%Z && (1 <=? d)%Z && (d <=? 31)%Z)
      then None
      else
        let day := (days_from_civil y m d * 86400)%Z in
        if bool_decide (length s = 10) then Some day
        else
          match field s 11 2, field s 14 2, field s 17 2 with
          | Some h, Some mi, Some sec =>
              if sep s 10 84 && sep s 13 58 && sep s 16 58 && sep s 19 90
                 && bool_decide (length s = 20)
                 && (h <? 24)%Z && (mi <? 60)%Z && (sec <? 60)%Z
              then Some (day + h * 3600 + mi * 60 + sec)%Z
              else None
          | _, _, _ => None
          end
  | _, _, _ => None
  end.

Definition parse_cell (c : cell) : option Z :=
  match c with Str s => parse_iso s | _ => None end.

Definition timestamp (s : pystr) : exn + Z :=
  match parse_iso s with
  | Some t => inr t
  | None => inl (ValueError (lit "could not convert string to Timestamp"))
  end.

(** Insertion sort of the keys with their positions, [NaT] last. *)
Definition key_leb (a b : option Z) : bool :=
  match a, b with
  | Some x, Some y => (x <=? y)%Z
  | _, None => true
  | None, Some _ => false
  end.

Fixpoint insert_key (x : option Z * nat) (l : list (option Z * nat))
  : list (option Z * nat) :=
  match l with
  | [] => [x]
  | y :: l' => if key_leb x.1 y.1 then x :: l else y :: insert_key x l'
  end.

(** The order on keyed positions. *)
Definition pair_le (a b : option Z * nat) : Prop := key_le a.1 b.1.

Definition sort_keys (l : list (option Z * nat)) : list (option Z * nat) :=
  foldr insert_key [] l.

Definition argsort (ks : list (option Z)) : list nat :=
  map snd (sort_keys (zip ks (seq 0 (length ks)))).

(** A generator is its seed, which must fit 32 bits; its permutation
    rotates [range(n)] by the seed. *)
Definition random_state (seed : Z) : exn + Z :=
  if ((0 <=? seed) && (seed <? 2 ^ 32))%Z then inr seed
  else inl (ValueError (lit "Seed must be between 0 and 2**32 - 1")).

Definition permutation (st : Z) (n : nat) : list nat :=
  let k := Z.to_nat (st mod Z.of_nat n) in
  drop k (seq 0 n) ++ take k (seq 0 n).

Definition row (l : list (string * cell)) : gmap string cell :=
  list_to_map l.

(** The source [eclipse_my.csv]: five reports. *)
Definition eclipse_rows : list (gmap string cell) :=
  [ row [("creation_time", Str (lit "2008-03-01"));
         ("assigned_to", Str (lit "ann"));
         ("assigned_to_detail.email", Str (lit "ann@x.org"));
         ("summary", Str (lit " crash on start "));
         ("summary_update", NA);
         ("description", Str (lit "it crashes"));
         ("description_update", Str (lit "  "))];
    row [("creation_time", Str (lit "2007-12-24T10:00:00Z"));
         ("assigned_to", Str (lit "bob"));
         ("assigned_to_detail.email", NA);
         ("summary", Str (lit "old title"));
         ("summary_update", Str (lit "new title"));
         ("description", NA);
         ("description_update", NA)];
    row [("creation_time", Str (lit "not a date"));
         ("assigned_to", Str (lit "eve"));
         ("assigned_to_detail.email", Str (lit "eve@x.org"));
         ("summary", Str (lit "lost"));
         ("summary_update", NA);
         ("description", NA);
         ("description_update", NA)];
    row [("creation_time", Str (lit "2015-11-30T23:59:59Z"));
         ("assigned_to", NA);
         ("assigned_to_detail.email", NA);
         ("summary", NA);
         ("summary_update", NA);
         ("description", Str (lit "last second"));
         ("description_update", NA)];
    row [("creation_time", Str (lit "2016-01-01"));
         ("assigned_to", Str (lit "dan"));
         ("assigned_to_detail.email", Str (lit "dan@x.org"));
         ("summary", Str (lit "too late"));
         ("summary_update", NA);
         ("description", NA);
         ("description_update", NA)];
    row [("creation_time", Str (lit "2010-06-15"));
         ("assigned_to", Str (lit "cat"));
         ("assigned_to_detail.email", Str (lit "cat@x.org"));
         ("summary", Str (lit "middle"));
         ("summary_update", NA);
         ("description", Str (lit "body"));
         ("description_update", NA)] ].

Definition eclipse_frame : DataFrame :=
  mkDF ["creation_time"; "assigned_to"; "assigned_to_detail.email";
        "summary"; "summary_update"; "description"; "description_update"]
       eclipse_rows.

(** A source without the creation-time column. *)
Definition untimed_frame : DataFrame :=
  mkDF ["summary"] [row [("summary", Str (lit "x"))]].

(** [eclipse_my.csv] and [mozilla_my1.csv] decode as UTF-8; [legacy.csv]
    only in a single-byte encoding; [untimed.csv] has no creation time;
    nothing else exists. *)
Definition read_csv (path encoding : pystr) : exn + DataFrame :=
  if bool_decide (path = lit "eclipse_my.csv")
     || bool_decide (path = lit "mozilla_my1.csv") then inr eclipse_frame
  else if bool_decide (path = lit "untimed.csv") then inr untimed_frame
  else if bool_decide (path = lit "legacy.csv") then
    if bool_decide (encoding = lit "utf-8") then inl UnicodeDecodeError
    else inr eclipse_frame
  else inl (FileNotFoundError path).

Definition exists_ (path : pystr) : bool :=
  bool_decide (path = lit "eclipse_my.csv")
  || bool_decide (path = lit "mozilla_my1.csv")
  || bool_decide (path = lit "untimed.csv")
  || bool_decide (path = lit "legacy.csv").

(** Directories under [/ro] cannot be made, and the file
    [locked/valid_all.jsonl] cannot be opened. *)
Definition read_only (path : pystr) : option exn :=
  if bool_decide (take 4 path = lit "/ro/")
  then Some (OSError (lit "Permission denied: " ++ path))
  else None.

Definition locked (path : pystr) : option exn :=
  if bool_decide (path = lit "locked/valid_all.jsonl")
  then Some (OSError (lit "Permission denied: " ++ path))
  else None.

Definition join (a b : pystr) : pystr := a ++ lit "/" ++ b.

Fixpoint drop_to_slash (l : pystr) : pystr :=
  match l with
  | [] => []
  | c :: l' => if (c =? 47)%N then l' else drop_to_slash l'
  end.

(** Everything before the last slash. *)
Definition dirname (p : pystr) : pystr := rev (drop_to_slash (rev p)).

Definition quote (s : pystr) : pystr := [34%N] ++ s ++ [34%N].

Definition message (m : pystr * pystr) : pystr :=
  lit "{" ++ quote m.1 ++ lit ": " ++ quote m.2 ++ lit "}".

Definition dumps (msgs : list (pystr * pystr)) : pystr :=
  lit "[" ++ concat (map message msgs) ++ lit "]".

Definition cell_text (c : cell) : pystr :=
  match c with
  | NA => []
  | Str s => s
  | Stamp t => fmt_int t
  end.

Fixpoint join_with (sep : pystr) (l : list pystr) : pystr :=
  match l with
  | [] => []
  | [x] => x
  | x :: l' => x ++ sep ++ join_with sep l'
  end.

Definition csv_line (quote_all : bool) (record : list cell) : pystr :=
  join_with (lit ",")
    (map (fun c => if quote_all then quote (cell_text c) else cell_text c)
         record)
  ++ [10%N].

Definition to_csv (header quote_all : bool) (cols : list string)
    (records : list (list cell)) : pystr :=
  (if header then join_with (lit ",") (map lit cols) ++ [10%N] else [])
  ++ concat (map (csv_line quote_all) records).

Definition format (template title body : pystr) : pystr :=
  template ++ title ++ [10%N] ++ body.

Definition host : Host := {|
  path_exists := exists_;
  abspath := fun p => lit "/data/" ++ p;
  path_join := join;
  World.dirname := dirname;
  os_makedirs := read_only;
  os_open_w := locked;
  repr_str := fun p => lit "'" ++ p ++ lit "'";
  str_Timestamp := fmt_int;
  pd_read_csv := read_csv;
  pd_parse := map parse_cell;
  pd_Timestamp := timestamp;
  pd_argsort := argsort;
  rng := Z;
  RandomState := random_state;
  rng_permutation := permutation;
  json_dumps_messages := dumps;
  df_to_csv := to_csv;
  str_format := format;
  SYSTEM_PROMPT := lit "Assign the bug.";
  USER_PROMPT_TEMPLATE := lit "Bug: "
|}.

Definition eclipse_args : Eclipse.Args := {|
  Eclipse.eclipse_csv := lit "eclipse_my_augmented.csv";
  Eclipse.out_dir := lit "out";
  Eclipse.seed := 3407;
  Eclipse.encoding := lit "utf-8";
  Eclipse.start := Eclipse.DEFAULT_START;
  Eclipse.end_ := Eclipse.DEFAULT_END;
  Eclipse.target_exact := 3;
  Eclipse.allow_below_target := false
|}.

Definition mozilla_args : Mozilla.Args := {|
  Mozilla.mozilla_csv := lit "mozilla_my1.csv";
  Mozilla.out_dir := lit "out";
  Mozilla.encoding := lit "utf-8";
  Mozilla.seed := Mozilla.DEFAULT_SEED;
  Mozilla.start := lit "2007-11-01";
  Mozilla.end_ := lit "2015-11-30";
  Mozilla.expect_count := 4;
  Mozilla.no_strict_count := false
|}.

(** The same runs with the count switched off. *)
Definition eclipse_args_zero : Eclipse.Args := {|
  Eclipse.eclipse_csv := lit "eclipse_my.csv";
  Eclipse.out_dir := lit "out";
  Eclipse.seed := 3407;
  Eclipse.encoding := lit "utf-8";
  Eclipse.start := Eclipse.DEFAULT_START;
  Eclipse.end_ := Eclipse.DEFAULT_END;
  Eclipse.target_exact := 0;
  Eclipse.allow_below_target := false
|}.

Definition mozilla_args_zero : Mozilla.Args := {|
  Mozilla.mozilla_csv := lit "mozilla_my1.csv";
  Mozilla.out_dir := lit "out";
  Mozilla.encoding := lit "utf-8";
  Mozilla.seed := Mozilla.DEFAULT_SEED;
  Mozilla.start := lit "2007-11-01";
  Mozilla.end_ := lit "2015-11-30";
  Mozilla.expect_count := 0;
  Mozilla.no_strict_count := false
|}.

(** A run on a source without creation times, and one that expects more
    rows than the span holds. *)
Definition eclipse_args_untimed : Eclipse.Args := {|
  Eclipse.eclipse_csv := lit "untimed.csv";
  Eclipse.out_dir := lit "out";
  Eclipse.seed := 3407;
  Eclipse.encoding := lit "utf-8";
  Eclipse.start := Eclipse.DEFAULT_START;
  Eclipse.end_ := Eclipse.DEFAULT_END;
  Eclipse.target_exact := 3;
  Eclipse.allow_below_target := false
|}.

Definition mozilla_args_strict : Mozilla.Args := {|
  Mozilla.mozilla_csv := lit "mozilla_my1.csv";
  Mozilla.out_dir := lit "out";
  Mozilla.encoding := lit "utf-8";
  Mozilla.seed := Mozilla.DEFAULT_SEED;
  Mozilla.start := lit "2007-11-01";
  Mozilla.end_ := lit "2015-11-30";
  Mozilla.expect_count := 110467;
  Mozilla.no_strict_count := false
|}.

(** A run into a directory where the second file cannot be opened. *)
Definition eclipse_args_locked : Eclipse.Args := {|
  Eclipse.eclipse_csv := lit "eclipse_my.csv";
  Eclipse.out_dir := lit "locked";
  Eclipse.seed := 3407;
  Eclipse.encoding := lit "utf-8";
  Eclipse.start := Eclipse.DEFAULT_START;
  Eclipse.end_ := Eclipse.DEFAULT_END;
  Eclipse.target_exact := 3;
  Eclipse.allow_below_target := false
|}.

(** The rows of [eclipse_my.csv] in the default window, as
    [filter_window] leaves them. *)
Definition span_frame : DataFrame :=
  match Eclipse.filter_window host eclipse_frame
          Eclipse.DEFAULT_START Eclipse.DEFAULT_END with
  | (_, inr df) => df
  | (_, inl _) => mkDF [] []
  end.

End Toy.

(* ===================================================================== *)
(** ** Notions for the behaviour of the code beyond the claims *)
(* ===================================================================== *)

Module Behaviour.
Import PyStr Frame World Spec.

(** The cell of row [r] under [c] is a timestamp. *)
Definition stamped (c : string) (r : gmap string cell) : bool :=
  match col_get r c with Stamp _ => true | _ => false end.

(** The record of the test file for a row of the in-window frame [df]:
    title, body and assignee, each a text. *)
Definition test_record (H : Host) (df : DataFrame) (r : gmap string cell)
  : list cell :=
  [ Str (text_spec H (r !! "summary_update") (r !! "summary"));
    Str (text_spec H (r !! "description_update") (r !! "description"));
    Str (assignee_spec H df r) ].

(** The record [to_title_body_assignee_csv] makes of a row of any frame;
    [labelled] says whether the frame has an [assignee] column. *)
Definition flat_record (H : Host) (labelled : bool) (r : gmap string cell)
  : list cell :=
  [ Str (text_spec H (r !! "summary_update") (r !! "summary"));
    Str (text_spec H (r !! "description_update") (r !! "description"));
    Str (if labelled then field_text H (Some (col_get r "assignee"))
         else []) ].

(** A row has a cell under each of the three labels [to_jsonl] of the
    Mozilla script reads. *)
Definition has_fields (r : gmap string cell) : bool :=
  bool_decide (is_Some (r !! "title")) &&
  bool_decide (is_Some (r !! "body")) &&
  bool_decide (is_Some (r !! "assignee")).

(** The files a trace writes to, write by write. *)
Definition writes_to (t : list event) : list pystr :=
  omap (fun ev => match ev with WriteTo p _ => Some p | _ => None end) t.

(** The lines a trace prints. *)
Definition printed (t : list event) : list pystr :=
  omap (fun ev => match ev with Print l => Some l | _ => None end) t.

(** The three files of a run into [out], with their encodings. *)
Definition output_files (H : Host) (out : pystr) : list pystr :=
  [ path_join H out (lit "train_all.jsonl");
    path_join H out (lit "valid_all.jsonl");
    path_join H out (lit "test_all.csv") ].

(** The output directory can be made and the three files opened. *)
Definition outputs_ok (H : Host) (out : pystr) : Prop :=
  os_makedirs H out = None /\
  Forall (fun p => os_makedirs H (dirname H p) = None /\
                   os_open_w H p = None)
    (output_files H out).

End Behaviour.

(** Further inputs for the toy host. *)
Module Inputs.
Import PyStr Frame World.

(** A run with a negative target. *)
Definition eclipse_args_negative : Eclipse.Args := {|
  Eclipse.eclipse_csv := lit "eclipse_my.csv";
  Eclipse.out_dir := lit "out";
  Eclipse.seed := 3407;
  Eclipse.encoding := lit "utf-8";
  Eclipse.start := Eclipse.DEFAULT_START;
  Eclipse.end_ := Eclipse.DEFAULT_END;
  Eclipse.target_exact := -1;
  Eclipse.allow_below_target := false
|}.

(** Runs with a seed the generator refuses. *)
Definition eclipse_args_bad_seed : Eclipse.Args := {|
  Eclipse.eclipse_csv := lit "eclipse_my.csv";
  Eclipse.out_dir := lit "out";
  Eclipse.seed := -1;
  Eclipse.encoding := lit "utf-8";
  Eclipse.start := Eclipse.DEFAULT_START;
  Eclipse.end_ := Eclipse.DEFAULT_END;
  Eclipse.target_exact := 3;
  Eclipse.allow_below_target := false
|}.

Definition mozilla_args_bad_seed : Mozilla.Args := {|
  Mozilla.mozilla_csv := lit "mozilla_my1.csv";
  Mozilla.out_dir := lit "out";
  Mozilla.encoding := lit "utf-8";
  Mozilla.seed := -1;
  Mozilla.start := lit "2007-11-01";
  Mozilla.end_ := lit "2015-11-30";
  Mozilla.expect_count := 4;
  Mozilla.no_strict_count := false
|}.

(** What the first part of [main] hands on, for the runs of [Toy]. *)
Definition eclipse_selected : list event * (pystr * pystr * DataFrame) :=
  match Eclipse.main_select Toy.host Toy.eclipse_args with
  | (t, inr sel) => (t, sel)
  | (t, inl _) => (t, ([], [], mkDF [] []))
  end.

Definition mozilla_selected : list event * (pystr * DataFrame) :=
  match Mozilla.main_select Toy.host Toy.mozilla_args with
  | (t, inr sel) => (t, sel)
  | (t, inl _) => (t, ([], mkDF [] []))
  end.


End Inputs.

(* ===================================================================== *)
(** ** Facts about the binary64 products *)
(* ===================================================================== *)

Module Float53Facts.
Import Float53.
Local Open Scope Z_scope.

(** Integers below [2^53] convert exactly. *)
Lemma float_of_int_exact n :
  0 <= n < 2 ^ 53 -> float_of_int n = B64 n 0.
Proof.
  intros [H0 H1]. unfold float_of_int, round53.
  assert (Z.log2 n < 53).
  { destruct (Z.eq_dec n 0) as [->|]; [reflexivity|].
    apply Z.log2_lt_pow2; lia. }
  destruct (Z.leb_spec (Z.log2 n + 1) 53); [reflexivity | lia].
Qed.

(** What rounding does to a positive significand: it is either kept, or
    [s] bits are dropped and the quotient is kept or bumped by one; in
    the second case the significand had at least [s + 53] bits. *)
Lemma round53_cases m e :
  0 <= m ->
  round53 m e = B64 m e \/
  exists s, 0 < s /\ 2 ^ (s + 52) <= m /\
    expo (round53 m e) = e + s /\
    m / 2 ^ s <= mant (round53 m e) <= m / 2 ^ s + 1.
Proof.
  intros Hm. unfold round53.
  destruct (Z.leb_spec (Z.log2 m + 1) 53) as [Hk|Hk]; [now left|right].
  exists (Z.log2 m + 1 - 53). cbn [mant expo].
  assert (0 < m) by (destruct (Z.eq_dec m 0) as [->|]; [cbn in Hk|]; lia).
  split; [lia|]. split.
  - replace (Z.log2 m + 1 - 53 + 52) with (Z.log2 m) by lia.
    apply Z.log2_spec; lia.
  - split; [reflexivity|].
    rewrite Z.shiftr_div_pow2 by lia.
    destruct (_ || _); lia.
Qed.

(** Truncation of a dyadic value with a negative exponent. *)
Lemma int_of_float_neg q e :
  e < 0 -> int_of_float (B64 q e) = q / 2 ^ (- e).
Proof.
  intros He. unfold int_of_float. cbn [mant expo].
  destruct (Z.leb_spec 0 e); [lia|].
  apply Z.shiftr_div_pow2. lia.
Qed.

(** [x / y = q] from the two products that bracket [x]. *)
Lemma floor_bracket (x y q : Z) :
  0 < y -> q * y <= x < (q + 1) * y -> x / y = q.
Proof.
  intros Hy [H1 H2]. symmetry.
  apply Z.div_unique_pos with (r := x - q * y); lia.
Qed.

(** The core bound.  A literal [M * 2^-E] with [b * M = a * 2^E + d]
    exceeds [a/b] by [d / (b * 2^E)].  Multiplied by [n] and truncated it
    gives [floor (a * n / b)] as long as the product keeps at least one
    bit more than [b] needs below the unit: then neither the excess nor
    one rounding step carries the fraction over the next integer. *)
Lemma int_mul_floor (M E a b d n : Z) :
  53 <= E -> 0 < b -> 0 < a -> 0 <= d <= b -> 2 ^ 52 <= M ->
  b * M = a * 2 ^ E + d ->
  0 <= n < 2 ^ 53 ->
  2 * b * (n * M) < 2 ^ E * 2 ^ 52 ->
  int_mul n (B64 M (- E)) = (a * n) / b.
Proof.
  intros HE Hb Ha Hd HM HbM Hn Hsmall.
  unfold int_mul, fmul. rewrite float_of_int_exact by assumption.
  cbn [mant expo]. rewrite Z.add_0_l.
  assert (HQ : b * (a * n / b) <= a * n < b * (a * n / b) + b).
  { pose proof (Z.mul_div_le (a * n) b Hb).
    pose proof (Z.mul_succ_div_gt (a * n) b Hb). lia. }
  set (Q := a * n / b) in *. clearbody Q.
  assert (HH : 0 < 2 ^ 52) by (apply Z.pow_pos_nonneg; lia).
  assert (HP : 0 < 2 ^ E) by (apply Z.pow_pos_nonneg; lia).
  set (P := 2 ^ E) in *. set (H := 2 ^ 52) in *.
  assert (HbN : b * (n * M) = a * n * P + d * n).
  { transitivity (n * (b * M)); [ring|]. rewrite HbM. ring. }
  assert (HN0 : 0 <= n * M) by (apply Z.mul_nonneg_nonneg; lia).
  set (N := n * M) in *.
  assert (Hdn0 : 0 <= d * n) by (apply Z.mul_nonneg_nonneg; lia).
  (* d * n * H <= b * N *)
  assert (HdnH : d * n * H <= b * N).
  { unfold N. transitivity (b * n * H).
    - apply Z.mul_le_mono_nonneg_r; [lia|].
      apply Z.mul_le_mono_nonneg_r; lia.
    - replace (b * (n * M)) with (b * n * M) by ring.
      apply Z.mul_le_mono_nonneg_l; [|lia].
      apply Z.mul_nonneg_nonneg; lia. }
  assert (HbN0 : 0 <= b * N) by (apply Z.mul_nonneg_nonneg; lia).
  assert (HNb : N <= b * N).
  { pose proof (Z.mul_le_mono_nonneg_r 1 b N HN0). lia. }
  (* the multiple of b below a * n, scaled by P *)
  assert (HQP1 : b * Q * P <= a * n * P)
    by (apply Z.mul_le_mono_nonneg_r; lia).
  assert (HQP2 : a * n * P <= (b * Q + b - 1) * P)
    by (apply Z.mul_le_mono_nonneg_r; lia).
  assert (Hlow : Q * P <= N).
  { apply (Z.mul_le_mono_pos_l _ _ b Hb). lia. }
  destruct (round53_cases N (- E) HN0) as [->|(s & Hs & Hbig & Hex & Hq)].
  - (* exact product *)
    rewrite int_of_float_neg by lia. rewrite Z.opp_involutive.
    fold P. apply floor_bracket; [assumption|]. split; [assumption|].
    apply (Z.mul_lt_mono_pos_l b); [assumption|].
    assert (d * n < P); [|lia].
    apply (Z.mul_lt_mono_pos_r H); [assumption|]. lia.
  - (* s low bits dropped *)
    destruct (round53 N (- E)) as [q' e']. cbn [mant expo] in *. subst e'.
    assert (HS : 0 < 2 ^ s) by (apply Z.pow_pos_nonneg; lia).
    rewrite Z.pow_add_r in Hbig by lia. fold H in Hbig.
    assert (HsE : s < E).
    { destruct (Z.lt_ge_cases s E) as [|Hge]; [assumption|exfalso].
      assert (P <= 2 ^ s) by (apply Z.pow_le_mono_r; lia).
      assert (P * H <= 2 ^ s * H) by (apply Z.mul_le_mono_nonneg_r; lia).
      lia. }
    rewrite int_of_float_neg by lia.
    replace (- (- E + s)) with (E - s) by lia.
    assert (HT : 0 < 2 ^ (E - s)) by (apply Z.pow_pos_nonneg; lia).
    assert (HTs : 2 ^ (E - s) * 2 ^ s = P).
    { rewrite <- Z.pow_add_r by lia. unfold P. f_equal. lia. }
    pose proof (Z.mul_div_le N (2 ^ s) HS) as Hd1.
    pose proof (Z.mul_succ_div_gt N (2 ^ s) HS) as Hd2.
    set (q := N / 2 ^ s) in *. clearbody q.
    set (S := 2 ^ s) in *. set (T := 2 ^ (E - s)) in *.
    clearbody S T P H N.
    (* one rounding step stays below 1/b *)
    assert (HbS : d * n + b * S < P).
    { apply (Z.mul_lt_mono_pos_r H); [assumption|].
      assert (b * (S * H) <= b * N)
        by (apply Z.mul_le_mono_nonneg_l; lia).
      lia. }
    apply floor_bracket; [assumption|]. split.
    + assert (Q * T < q + 1); [|lia].
      apply (Z.mul_lt_mono_pos_r S); [assumption|].
      replace (Q * T * S) with (Q * P) by (rewrite <- HTs; ring).
      clear - Hlow Hd2. lia.
    + assert (q + 1 < (Q + 1) * T); [|lia].
      apply (Z.mul_lt_mono_pos_r S); [assumption|].
      replace ((Q + 1) * T * S) with ((Q + 1) * P) by (rewrite <- HTs; ring).
      apply (Z.mul_lt_mono_pos_l b); [assumption|].
      assert (HbSq : b * (S * q) <= b * N)
        by (apply Z.mul_le_mono_nonneg_l; lia).
      clear - HbSq HbN HQP2 HbS. lia.
Qed.

Lemma int_mul_0_80 n : 0 <= n < 2 ^ 49 -> int_mul n lit_0_80 = 4 * n / 5.
Proof.
  intros Hn. unfold lit_0_80.
  apply (int_mul_floor 7205759403792794 53 4 5 2); lia.
Qed.

Lemma int_mul_0_10 n : 0 <= n < 2 ^ 49 -> int_mul n lit_0_10 = n / 10.
Proof.
  intros Hn. unfold lit_0_10.
  replace (n / 10) with (1 * n / 10) by (f_equal; lia).
  apply (int_mul_floor 7205759403792794 56 1 10 4); lia.
Qed.

(** Far beyond any table that fits in memory the rounding of the product
    shows: at [3 * 2^49 + 5] rows the truncated product is one more than
    the exact floor. *)
Example int_mul_0_80_far :
  let n := 1688849860263936 + 5 in
  int_mul n lit_0_80 = 4 * n / 5 + 1.
Proof. vm_compute. reflexivity. Qed.

Example int_mul_small :
  (int_mul 0 lit_0_80, int_mul 3 lit_0_10, int_mul 16106 lit_0_80,
   int_mul 16106 lit_0_10, int_mul 110467 lit_0_80, int_mul 110467 lit_0_10)
  = (0, 0, 12884, 1610, 88373, 11046).
Proof. vm_compute. reflexivity. Qed.

End Float53Facts.

(* ===================================================================== *)
(** ** Facts about strings *)
(* ===================================================================== *)

Module PyStrFacts.
Import PyStr.

Example fmt_thousands_ex :
  (fmt_thousands 110466, fmt_thousands 16106, fmt_thousands 0,
   fmt_thousands 999, fmt_thousands (-1234567), fmt_int 20000)
  = (lit "110,466", lit "16,106", lit "0", lit "999", lit "-1,234,567",
     lit "20000").
Proof. vm_compute. reflexivity. Qed.

Example strip_ex :
  (strip (lit "  a b  "), strip (lit " "), strip [160; 97; 8195; 10]%N)
  = (lit "a b", [], [97%N]).
Proof. vm_compute. reflexivity. Qed.

(** *** What [strip] returns *)

Lemma lstrip_split s :
  exists pre, s = pre ++ lstrip s /\ forallb isspace pre = true.
Proof.
  induction s as [|c s (pre & Hs & Hpre)]; [by exists []|].
  cbn [lstrip]. destruct (isspace c) eqn:Hc.
  - exists (c :: pre). split; [by rewrite <- app_comm_cons, <- Hs|].
    cbn. by rewrite Hc, Hpre.
  - by exists [].
Qed.

Lemma lstrip_head s c t : lstrip s = c :: t -> isspace c = false.
Proof.
  induction s as [|d s IH]; [done|]. cbn [lstrip].
  destruct (isspace d) eqn:Hd; [exact IH|]. by intros [= <- _].
Qed.

Lemma forallb_rev {A} (f : A -> bool) l :
  forallb f (rev l) = forallb f l.
Proof.
  induction l as [|a l IH]; [done|]. cbn [rev forallb].
  rewrite forallb_app, IH. cbn. rewrite andb_true_r. apply andb_comm.
Qed.

Lemma rstrip_split s :
  exists post, s = rstrip s ++ post /\ forallb isspace post = true.
Proof.
  destruct (lstrip_split (rev s)) as (pre & Hs & Hpre).
  exists (rev pre). split; [|by rewrite forallb_rev].
  unfold rstrip. rewrite <- rev_app_distr, <- Hs. by rewrite rev_involutive.
Qed.

Lemma rstrip_last s t c : rstrip s = t ++ [c] -> isspace c = false.
Proof.
  unfold rstrip. intros Hr.
  apply (f_equal (@rev N)) in Hr.
  rewrite rev_involutive, rev_app_distr in Hr. cbn in Hr.
  by apply lstrip_head in Hr.
Qed.

(** [strip s] is [s] without a whitespace prefix and a whitespace suffix,
    and it neither starts nor ends with whitespace. *)
Lemma strip_spec s :
  (exists pre post,
      s = pre ++ strip s ++ post /\
      forallb isspace pre = true /\ forallb isspace post = true) /\
  (forall c t, strip s = c :: t -> isspace c = false) /\
  (forall t c, strip s = t ++ [c] -> isspace c = false).
Proof.
  unfold strip. split; [|split].
  - destruct (lstrip_split s) as (pre & Hs & Hpre).
    destruct (rstrip_split (lstrip s)) as (post & Hl & Hpost).
    exists pre, post. by rewrite <- Hl.
  - intros c t Hst.
    destruct (rstrip_split (lstrip s)) as (post & Hl & _).
    rewrite Hst in Hl. cbn in Hl. by apply lstrip_head in Hl.
  - intros t c. apply rstrip_last.
Qed.

End PyStrFacts.

(* ===================================================================== *)
(** ** Facts about frames and computations *)
(* ===================================================================== *)

Module FrameFacts.
Import PyStr Frame World Spec.

Lemma length_series df c : length (series df c) = length (rows df).
Proof. apply length_map. Qed.

Lemma length_set_column_min df c s :
  length (rows (set_column df c s))
  = Nat.min (length (rows df)) (length s).
Proof. apply length_zip_with. Qed.

Lemma length_fillna_series_min s o :
  length (fillna_series s o) = Nat.min (length s) (length o).
Proof. apply length_zip_with. Qed.

Lemma length_fillna s v : length (fillna s v) = length s.
Proof. apply length_map. Qed.

Lemma length_astype_str H s : length (astype_str H s) = length s.
Proof. apply length_map. Qed.

Lemma has_column_set_column df c s c' :
  c' <> c -> has_column c' (set_column df c s) = has_column c' df.
Proof.
  intros Hne. unfold set_column, has_column at 1. cbn [columns].
  destruct (has_column c df); [done|].
  apply bool_decide_ext. rewrite elem_of_app, list_elem_of_singleton.
  split; [intros [?|?]; [done|congruence] | by left].
Qed.

Lemma col_get_insert r c v : col_get (<[c := v]> r) c = v.
Proof. unfold col_get. by rewrite lookup_insert_eq. Qed.

Lemma col_get_insert_ne r c c' v :
  c <> c' -> col_get (<[c := v]> r) c' = col_get r c'.
Proof. intros. unfold col_get. by rewrite lookup_insert_ne. Qed.

(** *** Masks *)

Lemma select_map_filter {A} (f : A -> bool) (l : list A) :
  select (map f l) l = List.filter f l.
Proof.
  induction l as [|x l IH]; [done|]. cbn. by rewrite IH.
Qed.

Lemma select_zip_filter {A B} (f : B -> bool) (l : list A) (k : list B) :
  length l = length k ->
  select (map f k) l = map fst (List.filter (fun p => f p.2) (zip l k)).
Proof.
  revert k. induction l as [|x l IH]; intros [|y k] Hlen; try done.
  cbn. injection Hlen as Hlen. rewrite (IH k Hlen).
  by destruct (f y).
Qed.

(** *** Rows at positions *)

Section TakeRows.
Context {A : Type}.
Implicit Types (l : list A) (p : list nat).

Lemma take_rows_app p q l :
  take_rows (p ++ q) l = take_rows p l ++ take_rows q l.
Proof. apply omap_app. Qed.

Lemma take_rows_cons_lt i p l x :
  l !! i = Some x -> take_rows (i :: p) l = x :: take_rows p l.
Proof. intros Hx. unfold take_rows. cbn. by rewrite Hx. Qed.

Lemma length_take_rows p l :
  Forall (fun i => i < length l) p -> length (take_rows p l) = length p.
Proof.
  induction 1 as [|i p Hi _ IH]; [done|].
  destruct (lookup_lt_is_Some_2 l i Hi) as [x Hx].
  rewrite (take_rows_cons_lt _ _ _ _ Hx). cbn. by rewrite IH.
Qed.

Lemma take_take_rows k p l :
  Forall (fun i => i < length l) p ->
  take k (take_rows p l) = take_rows (take k p) l.
Proof.
  intros Hp. revert k. induction Hp as [|i p Hi _ IH]; intros k.
  - rewrite take_nil. cbn. apply take_nil.
  - destruct (lookup_lt_is_Some_2 l i Hi) as [x Hx].
    rewrite (take_rows_cons_lt _ _ _ _ Hx).
    destruct k as [|k]; [done|]. cbn [take].
    by rewrite (take_rows_cons_lt _ _ _ _ Hx), IH.
Qed.

Lemma drop_take_rows k p l :
  Forall (fun i => i < length l) p ->
  drop k (take_rows p l) = take_rows (drop k p) l.
Proof.
  intros Hp. revert k. induction Hp as [|i p Hi _ IH]; intros k.
  - rewrite drop_nil. cbn. apply drop_nil.
  - destruct (lookup_lt_is_Some_2 l i Hi) as [x Hx].
    rewrite (take_rows_cons_lt _ _ _ _ Hx).
    destruct k as [|k]; cbn [drop].
    + by rewrite (take_rows_cons_lt _ _ _ _ Hx).
    + apply IH.
Qed.

Lemma take_rows_app_l p l k :
  Forall (fun i => i < length l) p -> take_rows p (l ++ k) = take_rows p l.
Proof.
  induction 1 as [|i p Hi _ IH]; [done|].
  unfold take_rows in *. cbn. by rewrite lookup_app_l, IH.
Qed.

Lemma take_rows_seq l : take_rows (seq 0 (length l)) l = l.
Proof.
  induction l as [|x l IH] using rev_ind; [done|].
  rewrite length_app. cbn [length]. rewrite seq_app, take_rows_app.
  rewrite take_rows_app_l, IH.
  - f_equal. unfold take_rows. cbn. by rewrite list_lookup_middle.
  - apply Forall_seq. intros; lia.
Qed.

Lemma perm_in_range p n :
  Permutation p (seq 0 n) -> Forall (fun i => i < n) p.
Proof.
  intros Hp. apply Forall_forall. intros i Hi.
  rewrite Hp in Hi. apply elem_of_seq in Hi. lia.
Qed.

(** The rows taken at a permutation of the positions are the rows. *)
Lemma take_rows_perm p l :
  Permutation p (seq 0 (length l)) -> Permutation (take_rows p l) l.
Proof.
  intros Hp. unfold take_rows. rewrite Hp. fold (take_rows (seq 0 (length l)) l).
  by rewrite take_rows_seq.
Qed.

End TakeRows.

(** *** Computations *)

Lemma fs_events_app t t' : fs_events (t ++ t') = fs_events t ++ fs_events t'.
Proof. apply List.filter_app. Qed.

Lemma prints_only_bind {A B} (m : M A) (k : A -> M B) :
  prints_only m -> (forall a, prints_only (k a)) -> prints_only (bind m k).
Proof.
  unfold prints_only. destruct m as [t [e|a]]; [done|].
  intros Ht Hk. specialize (Hk a). unfold bind. destruct (k a) as [t' r].
  cbn [fst] in *. by rewrite fs_events_app, Ht, Hk.
Qed.

Lemma prints_only_ret {A} (a : A) : prints_only (ret a).
Proof. done. Qed.

Lemma prints_only_raise {A} e : prints_only (@raise A e).
Proof. done. Qed.

Lemma prints_only_call {A} (r : exn + A) : prints_only (call r).
Proof. done. Qed.

Lemma prints_only_print l : prints_only (print l).
Proof. done. Qed.

(** Row counts through column assignments. *)
Ltac row_count :=
  repeat first
    [ rewrite length_set_column_min
    | rewrite length_fillna_series_min
    | rewrite length_astype_str
    | rewrite length_fillna
    | rewrite length_series
    | rewrite length_map
    | match goal with |- context [if ?b then _ else _] => destruct b end ];
  cbn [rows]; lia.

End FrameFacts.

(* ===================================================================== *)
(** ** The small host keeps the laws *)
(* ===================================================================== *)

Module ToyFacts.
Import PyStr Frame World Spec FrameFacts.

Lemma permutation_perm st n : Permutation (Toy.permutation st n) (seq 0 n).
Proof.
  unfold Toy.permutation. rewrite Permutation_app_comm. by rewrite take_drop.
Qed.

Lemma insert_key_perm x l : Permutation (Toy.insert_key x l) (x :: l).
Proof.
  induction l as [|y l IH]; [done|]. cbn.
  destruct (Toy.key_leb x.1 y.1); [done|].
  rewrite IH. apply perm_swap.
Qed.

Lemma sort_keys_perm l : Permutation (Toy.sort_keys l) l.
Proof.
  induction l as [|x l IH]; [done|]. cbn.
  rewrite insert_key_perm. by rewrite IH.
Qed.

Lemma key_leb_le a b : Toy.key_leb a b = true -> key_le a b.
Proof. destruct a, b; cbn; try done. lia. Qed.

Lemma key_leb_total a b : Toy.key_leb a b = false -> key_le b a.
Proof. destruct a, b; cbn; try done. lia. Qed.

Lemma insert_key_hd x y l :
  Toy.pair_le y x -> HdRel Toy.pair_le y l -> HdRel Toy.pair_le y (Toy.insert_key x l).
Proof.
  intros Hyx Hl. destruct l as [|z l]; cbn; [by constructor|].
  destruct (Toy.key_leb x.1 z.1); constructor; [done|].
  by inversion Hl.
Qed.

Lemma insert_key_sorted x l :
  Sorted Toy.pair_le l -> Sorted Toy.pair_le (Toy.insert_key x l).
Proof.
  induction 1 as [|y l Hl IH Hhd]; cbn; [by repeat constructor|].
  destruct (Toy.key_leb x.1 y.1) eqn:Hxy.
  - constructor; [by constructor|]. constructor. by apply key_leb_le.
  - constructor; [done|]. apply insert_key_hd; [|done].
    by apply key_leb_total.
Qed.

Lemma sort_keys_sorted l : Sorted Toy.pair_le (Toy.sort_keys l).
Proof.
  induction l as [|x l IH]; cbn; [constructor|].
  by apply insert_key_sorted.
Qed.

Lemma Sorted_map_fst l : Sorted Toy.pair_le l -> Sorted key_le (map fst l).
Proof.
  induction 1 as [|y l Hl IH Hhd]; cbn; constructor; [done|].
  destruct Hhd; cbn; by constructor.
Qed.

(** Taking the keys at the positions of keyed positions gives back their
    keys. *)
Lemma take_rows_keyed (ks : list (option Z)) (l : list (option Z * nat)) :
  Forall (fun p => ks !! p.2 = Some p.1) l ->
  take_rows (map snd l) ks = map fst l.
Proof.
  induction 1 as [|[k i] l Hk _ IH]; [done|].
  cbn [map]. rewrite (take_rows_cons_lt _ _ _ _ Hk). by rewrite IH.
Qed.

Lemma zip_seq_keyed (ks : list (option Z)) :
  Forall (fun p => ks !! p.2 = Some p.1) (zip ks (seq 0 (length ks))).
Proof.
  apply Forall_forall. intros [k i] Hin.
  apply list_elem_of_lookup in Hin as [j Hj].
  apply lookup_zip_with_Some in Hj as (k' & i' & [= <- <-] & Hk & Hi).
  apply lookup_seq in Hi as [-> _]. done.
Qed.

Lemma argsort_perm ks : Permutation (Toy.argsort ks) (seq 0 (length ks)).
Proof.
  unfold Toy.argsort. rewrite sort_keys_perm.
  rewrite snd_zip; [done|]. by rewrite length_seq.
Qed.

Lemma argsort_sorted ks : Sorted key_le (take_rows (Toy.argsort ks) ks).
Proof.
  unfold Toy.argsort. rewrite take_rows_keyed.
  - apply Sorted_map_fst, sort_keys_sorted.
  - rewrite sort_keys_perm. apply zip_seq_keyed.
Qed.

Lemma laws : HostLaws Toy.host.
Proof.
  split.
  - apply permutation_perm.
  - apply argsort_perm.
  - apply argsort_sorted.
Qed.

End ToyFacts.

(* ===================================================================== *)
(** ** The split *)
(* ===================================================================== *)

Module SplitFacts.
Import PyStr Frame World Spec FrameFacts.
Local Open Scope Z_scope.

Lemma len_nonneg df : 0 <= len df.
Proof. unfold len. lia. Qed.

Lemma len_add_assignee_column H df :
  len (Eclipse.add_assignee_column H df) = len df.
Proof.
  unfold len, Eclipse.add_assignee_column, set_scalar. f_equal.
  row_count.
Qed.

Lemma len_add_assignee H df : len (Mozilla.add_assignee H df) = len df.
Proof. exact (len_add_assignee_column H df). Qed.

Lemma len_add_title_body H df : len (Mozilla.add_title_body H df) = len df.
Proof.
  unfold len, Mozilla.add_title_body. f_equal. row_count.
Qed.

(** The split is the same text in both scripts. *)
Lemma mozilla_main_split H seed g df :
  Mozilla.main_split H seed g df = Eclipse.main_split H seed g df.
Proof. unfold Mozilla.main_split, Eclipse.main_split. reflexivity. Qed.

(** The split with a seed the generator accepts: the frame is permuted
    and sliced, nothing is printed or raised. *)
Lemma main_split_eq H seed st g df :
  RandomState H seed = inr st ->
  Eclipse.main_split H seed g df
  = ([], inr
      (let n := len df in
       let df_shuf :=
         take_frame df (rng_permutation H st (length (rows df))) in
       (iloc_to df_shuf (Eclipse.n_train n),
        iloc df_shuf (Eclipse.n_train n)
          (Eclipse.n_train n + Eclipse.n_val n),
        iloc_from df_shuf (Eclipse.n_train n + Eclipse.n_val n)))).
Proof.
  intros Hst. unfold Eclipse.main_split, sample_all, call. by rewrite Hst.
Qed.

Section Split.
Context (H : Host) `{!HostLaws H}.

Lemma main_split_partition seed st g df :
  RandomState H seed = inr st ->
  len df < 2 ^ 49 ->
  exists parts,
    Eclipse.main_split H seed g df = ([], inr parts) /\
    split_partition_of H st df (len df) parts.
Proof.
  intros Hst Hn. pose proof (len_nonneg df) as Hn0.
  rewrite (main_split_eq H seed st g df Hst).
  eexists. split; [reflexivity|]. cbv zeta.
  unfold Eclipse.n_train, Eclipse.n_val.
  rewrite Float53Facts.int_mul_0_80, Float53Facts.int_mul_0_10 by lia.
  set (n := length (rows df)).
  set (p := rng_permutation H st n).
  assert (Hp : Permutation p (seq 0 n)) by apply rng_permutation_perm.
  assert (Hr : Forall (fun i => (i < length (rows df))%nat) p)
    by by apply perm_in_range.
  assert (Hlp : length p = n).
  { rewrite Hp. apply length_seq. }
  assert (Hlen : len df = Z.of_nat n) by done.
  set (a := 4 * len df / 5). set (b := len df / 10).
  assert (Ha : 0 <= a) by (apply Z.div_pos; lia).
  assert (Hb : 0 <= b) by (apply Z.div_pos; lia).
  assert (Hab : a + b <= len df).
  { unfold a, b.
    pose proof (Z.mul_div_le (4 * len df) 5 ltac:(lia)).
    pose proof (Z.mul_div_le (len df) 10 ltac:(lia)). lia. }
  set (p1 := take (Z.to_nat a) p).
  set (p2 := take (Z.to_nat b) (drop (Z.to_nat a) p)).
  set (p3 := drop (Z.to_nat (a + b)) p).
  assert (Hsplit : p = p1 ++ p2 ++ p3).
  { unfold p1, p2, p3. rewrite <- (take_drop (Z.to_nat a) p) at 1. f_equal.
    rewrite <- (take_drop (Z.to_nat b) (drop (Z.to_nat a) p)) at 1.
    f_equal. rewrite drop_drop. f_equal. lia. }
  assert (Hparts :
    (iloc_to (take_frame df p) a, iloc (take_frame df p) a (a + b),
     iloc_from (take_frame df p) (a + b))
    = (take_frame df p1, take_frame df p2, take_frame df p3)).
  { unfold iloc_to, iloc, iloc_from, take_frame, p1, p2, p3.
    cbn [rows columns].
    rewrite (take_take_rows _ p), !(drop_take_rows _ p) by done.
    rewrite take_take_rows by (by apply Forall_drop).
    replace (Z.to_nat (a + b) - Z.to_nat a)%nat with (Z.to_nat b) by lia.
    done. }
  rewrite Hparts. clear Hparts.
  assert (Hnd : NoDup (p1 ++ p2 ++ p3)).
  { rewrite <- Hsplit, Hp. apply NoDup_seq. }
  apply NoDup_app in Hnd as (_ & Hd1 & Hnd).
  apply NoDup_app in Hnd as (_ & Hd2 & _).
  exists p, p1, p2, p3.
  split; [done|]. split; [done|]. split; [done|]. split; [done|].
  split; [intros i Hi; specialize (Hd1 i Hi); set_solver|].
  split; [intros i Hi; specialize (Hd1 i Hi); set_solver|].
  split; [done|].
  split.
  { intros i Hi. rewrite <- !elem_of_app, <- Hsplit, Hp.
    apply elem_of_seq. lia. }
  cbn [fst snd take_frame rows].
  split.
  { rewrite <- !take_rows_app, <- Hsplit. by apply take_rows_perm. }
  assert (Hr1 : Forall (fun i => (i < length (rows df))%nat) p1)
    by by apply Forall_take.
  assert (Hr2 : Forall (fun i => (i < length (rows df))%nat) p2)
    by by apply Forall_take, Forall_drop.
  assert (Hr3 : Forall (fun i => (i < length (rows df))%nat) p3)
    by by apply Forall_drop.
  unfold len, take_frame. cbn [rows].
  rewrite !length_take_rows by done. unfold p1, p2, p3.
  rewrite !length_take, !length_drop, Hlp.
  change (length (rows df)) with n.
  clear - Hlen Ha Hb Hab. subst a b. rewrite Hlen in *. lia.
Qed.

End Split.
End SplitFacts.

(* ===================================================================== *)
(** ** The window *)
(* ===================================================================== *)

Module WindowFacts.
Import PyStr Frame World Spec FrameFacts.

Lemma forallb_lookup {A} (f : A -> bool) (l : list A) :
  forallb f l = true <-> forall i x, l !! i = Some x -> f x = true.
Proof.
  induction l as [|a l IH]; cbn.
  - split; [by intros _ i x|done].
  - rewrite andb_true_iff, IH. split.
    + intros [Ha Hl] [|i] x; cbn; [by intros [= <-]|apply Hl].
    + intros Hl. split; [apply (Hl 0%nat a eq_refl)|].
      intros i x Hx. apply (Hl (S i) x Hx).
Qed.

Lemma forallb_filter_sub {A} (f g : A -> bool) (l : list A) :
  forallb f l = true -> forallb f (List.filter g l) = true.
Proof.
  induction l as [|a l IH]; [done|]. cbn.
  intros [Ha Hl]%andb_true_iff. destruct (g a); cbn; [|by apply IH].
  by rewrite Ha, IH.
Qed.

Lemma Forall2_filter {A B} (R : A -> B -> Prop) (f : A -> bool)
    (g : B -> bool) l k :
  Forall2 R l k -> (forall x y, R x y -> f x = g y) ->
  Forall2 R (List.filter f l) (List.filter g k).
Proof.
  intros HR Hfg. induction HR as [|x y l k Hxy _ IH]; [constructor|].
  cbn. rewrite (Hfg x y Hxy). destruct (g y); [by constructor|done].
Qed.

Lemma filter_filter {A} (f g : A -> bool) (l : list A) :
  List.filter g (List.filter f l) = List.filter (fun x => f x && g x) l.
Proof.
  induction l as [|a l IH]; [done|]. cbn.
  destruct (f a); cbn; [|done]. destruct (g a); by rewrite IH.
Qed.

(** A mask computed from a column of the frame it selects from. *)
Lemma rows_loc_mask_series df c (g : cell -> bool) :
  rows (loc_mask df (map g (series df c)))
  = List.filter (fun r => g (col_get r c)) (rows df).
Proof.
  unfold loc_mask, series. cbn [rows]. rewrite map_map.
  apply (select_map_filter (fun r => g (col_get r c))).
Qed.

Lemma forallb_fmap {A B} (f : B -> bool) (g : A -> B) (l : list A) :
  forallb f (map g l) = forallb (fun x => f (g x)) l.
Proof. induction l as [|a l IH]; [done|]. cbn. by rewrite IH. Qed.

Lemma loc_mask_id df mask :
  rows (loc_mask df mask) = rows df -> loc_mask df mask = df.
Proof. destruct df as [cols rs]. unfold loc_mask. cbn. by intros ->. Qed.

Lemma is_datetime_series df c :
  is_datetime64_any_dtype (series df c)
  = forallb (fun r => nonstr (col_get r c)) (rows df).
Proof. unfold is_datetime64_any_dtype, series. apply forallb_fmap. Qed.

Section Window.
Context (H : Host).

Lemma length_to_datetime s : length (to_datetime H s) = length s.
Proof. apply length_imap. Qed.

Lemma to_datetime_nonstr s : forallb nonstr (to_datetime H s) = true.
Proof.
  apply forallb_lookup. intros i x. unfold to_datetime.
  rewrite list_lookup_imap. destruct (s !! i) as [c|]; [|done].
  cbn. intros [= <-]. destruct c; [done| |done].
  by destruct (pd_parse H s !! i) as [[t|]|].
Qed.

Lemma to_datetime_id s :
  is_datetime64_any_dtype s = true -> to_datetime H s = s.
Proof.
  intros Hs. apply list_eq. intros i. unfold to_datetime.
  rewrite list_lookup_imap. destruct (s !! i) as [c|] eqn:Hc; [|done].
  cbn. f_equal.
  apply (proj1 (forallb_lookup _ _) Hs) in Hc. by destruct c.
Qed.

Lemma ensure_datetime_col_eq df c :
  has_column c df = true ->
  Eclipse.ensure_datetime_col H df c
  = ([], inr (loc_mask (converted H df c)
                (map notna (series (converted H df c) c)))).
Proof. intros Hc. unfold Eclipse.ensure_datetime_col. by rewrite Hc. Qed.

Lemma columns_converted df c :
  has_column c df = true -> columns (converted H df c) = columns df.
Proof.
  intros Hc. unfold converted.
  destruct (negb _); [|done]. cbn. by rewrite Hc.
Qed.

(** Row by row, the converted frame is the source frame with the
    timestamp in the creation-time column. *)
Lemma rows_converted df c :
  Forall2 (window_row c) (rows (converted H df c))
    (zip (rows df) (to_datetime H (series df c))).
Proof.
  unfold converted.
  destruct (is_datetime64_any_dtype (series df c)) eqn:Hdt; cbn [negb].
  - rewrite to_datetime_id by done. unfold series.
    induction (rows df) as [|r l IH]; cbn; constructor; [|done].
    by split.
  - cbn [rows set_column]. rewrite zip_with_zip.
    apply Forall2_fmap_l, Forall_Forall2_diag, Forall_forall.
    intros [r d] _. split; cbn.
    + apply col_get_insert.
    + intros c' Hc'. by rewrite lookup_insert_ne.
Qed.

Lemma converted_nonstr df c :
  forallb (fun r => nonstr (col_get r c)) (rows (converted H df c)) = true.
Proof.
  apply forallb_lookup. intros i r' Hr'.
  pose proof (rows_converted df c) as HR.
  destruct (Forall2_lookup_l _ _ _ _ _ HR Hr') as ([r d] & Hrd & [Hd _]).
  cbn in Hd. rewrite Hd.
  apply lookup_zip_with_Some in Hrd as (r0 & d0 & [= <- <-] & _ & Hd0).
  by apply (proj1 (forallb_lookup _ _) (to_datetime_nonstr (series df c)))
    in Hd0.
Qed.

(** Validating twice changes nothing: [main] validates the raw frame and
    [filter_window] validates again. *)
Lemma ensure_datetime_col_idem df c t df2 :
  Eclipse.ensure_datetime_col H df c = (t, inr df2) ->
  Eclipse.ensure_datetime_col H df2 c = ([], inr df2).
Proof.
  destruct (has_column c df) eqn:Hc.
  - rewrite ensure_datetime_col_eq by done. intros [= <- <-].
    set (df1 := converted H df c).
    set (df2 := loc_mask df1 (map notna (series df1 c))).
    assert (Hc2 : has_column c df2 = true).
    { unfold has_column, df2, df1. cbn [columns loc_mask].
      by rewrite columns_converted. }
    assert (Hdt : is_datetime64_any_dtype (series df2 c) = true).
    { rewrite is_datetime_series. unfold df2.
      rewrite rows_loc_mask_series. apply forallb_filter_sub.
      apply converted_nonstr. }
    rewrite ensure_datetime_col_eq by done.
    unfold converted. rewrite Hdt. cbn [negb]. do 2 f_equal.
    apply loc_mask_id. rewrite rows_loc_mask_series.
    unfold df2. rewrite rows_loc_mask_series, filter_filter.
    apply filter_ext. intros r. by destruct (notna _).
  - unfold Eclipse.ensure_datetime_col. by rewrite Hc.
Qed.

Lemma main_double_validation df start end_ :
  (df1 <~ Eclipse.ensure_datetime_col H df "creation_time" ;;
   Eclipse.filter_window H df1 start end_)
  = Eclipse.filter_window H df start end_.
Proof.
  unfold Eclipse.filter_window at 1.
  destruct (Eclipse.ensure_datetime_col H df "creation_time")
    as [t [e|df1]] eqn:He.
  - unfold Eclipse.filter_window. by rewrite He.
  - pose proof (ensure_datetime_col_idem _ _ _ _ He) as Hid.
    assert (t = []) as ->.
    { unfold Eclipse.ensure_datetime_col in He.
      destruct (negb _); by injection He. }
    unfold Eclipse.filter_window. rewrite He. cbn [bind].
    rewrite Hid. cbn [bind]. by destruct (bind _ _).
Qed.

(** The in-window mask of [filter_window] on a validated column. *)
Lemma window_mask_eq s e (c : cell) :
  notna c && (cell_ge c s && cell_le c e) = in_window s e c.
Proof. by destruct c. Qed.

Lemma filter_window_spec df start end_ s e :
  has_column "creation_time" df = true ->
  pd_Timestamp H (start ++ lit "T00:00:00Z") = inr s ->
  pd_Timestamp H (end_ ++ lit "T23:59:59Z") = inr e ->
  exists df',
    Eclipse.filter_window H df start end_ = ([], inr df') /\
    columns df' = columns df /\
    Forall2 (window_row "creation_time") (rows df') (window_spec H s e df).
Proof.
  intros Hc Hs He. unfold Eclipse.filter_window.
  rewrite ensure_datetime_col_eq by done. cbn [bind].
  unfold call. rewrite Hs, He. cbn [bind ret app].
  eexists. split; [reflexivity|]. split.
  { cbn [columns loc_mask]. by apply columns_converted. }
  rewrite rows_loc_mask_series.
  set (df1 := converted H df "creation_time").
  rewrite (rows_loc_mask_series df1 _ notna), filter_filter.
  unfold window_spec. apply Forall2_filter; [apply rows_converted|].
  intros r' [r d] [Hd _]. cbn in *. rewrite Hd. apply window_mask_eq.
Qed.

Lemma main_window_spec args df s e :
  has_column "creation_time" df = true ->
  pd_Timestamp H (Mozilla.start args ++ lit "T00:00:00Z") = inr s ->
  pd_Timestamp H (Mozilla.end_ args ++ lit "T23:59:59Z") = inr e ->
  exists df',
    Mozilla.main_window H args df
    = ([Print (lit "  In-span rows (kept): " ++ fmt_thousands (len df'))],
       inr df') /\
    columns df' = columns df /\
    rows df' = map fst (window_spec H s e df).
Proof.
  intros Hc Hs He. unfold Mozilla.main_window. rewrite Hc. cbn [negb].
  unfold call. rewrite Hs, He. cbn [bind ret app print emit].
  eexists. split; [reflexivity|]. split; [done|].
  cbn [rows loc_mask]. unfold window_spec.
  rewrite <- (select_zip_filter (in_window s e))
    by (by rewrite length_to_datetime, length_series).
  f_equal. apply map_ext. intros c.
  rewrite <- andb_assoc. apply window_mask_eq.
Qed.

End Window.
End WindowFacts.

(* ===================================================================== *)
(** ** The count *)
(* ===================================================================== *)

Module CountFacts.
Import PyStr Frame World Spec FrameFacts WindowFacts.
Local Open Scope Z_scope.

Lemma key_le_trans a b c : key_le a b -> key_le b c -> key_le a c.
Proof. destruct a, b, c; cbn; try done. lia. Qed.

Lemma take_rows_map {A B} (f : A -> B) (p : list nat) (l : list A) :
  take_rows p (map f l) = map f (take_rows p l).
Proof.
  induction p as [|i p IH]; [done|]. unfold take_rows in *. cbn.
  rewrite list_lookup_fmap, IH. by destruct (l !! i).
Qed.

(** In a sorted list nothing in a prefix is above anything in the rest. *)
Lemma sorted_take_drop {A} (R : A -> A -> Prop) (l : list A) k x y :
  (forall a b c, R a b -> R b c -> R a c) ->
  Sorted R l -> x ∈ take k l -> y ∈ drop k l -> R x y.
Proof.
  intros Htr Hs. apply Sorted_StronglySorted in Hs; [|exact Htr].
  revert k. induction Hs as [|a l Hs IH Ha]; intros k.
  - by rewrite take_nil, elem_of_nil.
  - destruct k as [|k]; cbn; [by rewrite elem_of_nil|].
    rewrite elem_of_cons. intros [->|Hx] Hy.
    + rewrite List.Forall_forall in Ha. apply Ha.
      apply list_elem_of_In. by apply (subseteq_drop k l).
    + by apply (IH k).
Qed.

Lemma sorted_take {A} (R : A -> A -> Prop) (l : list A) k :
  Sorted R l -> Sorted R (take k l).
Proof.
  intros Hs. revert k. induction Hs as [|a l Hs IH Ha]; intros k.
  - rewrite take_nil. constructor.
  - destruct k as [|k]; cbn; [constructor|]. constructor; [apply IH|].
    destruct Ha as [|b l Hab]; [destruct k; constructor|].
    destruct k; cbn; by constructor.
Qed.

Lemma sorted_map_inv {A B} (R : B -> B -> Prop) (f : A -> B) (l : list A) :
  Sorted R (map f l) -> Sorted (fun a b => R (f a) (f b)) l.
Proof.
  induction l as [|a l IH]; [constructor|]. cbn.
  intros Hs. apply Sorted_inv in Hs as [Hs Hd]. constructor; [by apply IH|].
  destruct l; cbn in *; constructor. by apply HdRel_inv in Hd.
Qed.

Section Count.
Context (H : Host) `{!HostLaws H}.

(** [sort_values] permutes the rows and puts the keys in order. *)
Lemma sort_values_perm df :
  Permutation (rows (sort_values H df "creation_time")) (rows df).
Proof.
  unfold sort_values, take_frame. cbn [rows]. apply take_rows_perm.
  rewrite <- (length_series df "creation_time"),
    <- (length_map stamp_of).
  apply pd_argsort_perm.
Qed.

Lemma sort_values_sorted df :
  Sorted (fun a b => key_le (time_key a) (time_key b))
    (rows (sort_values H df "creation_time")).
Proof.
  apply (sorted_map_inv key_le time_key).
  unfold sort_values, take_frame. cbn [rows].
  rewrite <- take_rows_map.
  assert (map time_key (rows df)
          = map stamp_of (series df "creation_time")) as ->.
  { unfold series. by rewrite map_map. }
  apply pd_argsort_sorted.
Qed.

(** Every row [filter_window] lets through carries a timestamp. *)
Lemma filter_window_stamps df0 start end_ t df :
  Eclipse.filter_window H df0 start end_ = (t, inr df) ->
  forall r, r ∈ rows df -> exists tr, col_get r "creation_time" = Stamp tr.
Proof.
  unfold Eclipse.filter_window.
  destruct (Eclipse.ensure_datetime_col H df0 "creation_time")
    as [t1 [e1|df1]]; [done|]. cbn [bind]. unfold call.
  destruct (pd_Timestamp H (start ++ _)) as [e2|s]; [done|]. cbn [bind].
  destruct (pd_Timestamp H (end_ ++ _)) as [e3|e]; [done|]. cbn [bind ret].
  intros [= _ <-] r Hr. rewrite rows_loc_mask_series in Hr.
  apply list_elem_of_In, filter_In in Hr as [_ Hr].
  destruct (col_get r "creation_time"); try done. by eexists.
Qed.

Lemma reconcile_trim args df0 t df :
  0 < Eclipse.target_exact args ->
  Eclipse.filter_window H df0 (Eclipse.start args) (Eclipse.end_ args)
  = (t, inr df) ->
  Eclipse.target_exact args <= len df ->
  exists kept excluded,
    Eclipse.main_reconcile H args df
    = ([Print (lit "  In-window rows: " ++ fmt_thousands (len df) ++
               lit " " ++ [8594%N] ++ lit " trimmed to exact " ++
               fmt_thousands (Eclipse.target_exact args))],
       inr (mkDF (columns df) kept)) /\
    Z.of_nat (length kept) = Eclipse.target_exact args /\
    Permutation (kept ++ excluded) (rows df) /\
    Sorted (fun a b => key_le (time_key a) (time_key b)) kept /\
    forall r x, r ∈ kept -> x ∈ excluded ->
      exists tr tx,
        col_get r "creation_time" = Stamp tr /\
        col_get x "creation_time" = Stamp tx /\ tr <= tx.
Proof.
  intros Hpos Hwin Hge.
  set (T := Eclipse.target_exact args) in *.
  set (sorted := rows (sort_values H df "creation_time")).
  assert (Hperm : Permutation sorted (rows df)) by apply sort_values_perm.
  assert (Hlen : length sorted = length (rows df)) by by rewrite Hperm.
  exists (take (Z.to_nat T) sorted), (drop (Z.to_nat T) sorted).
  assert (Hk : Z.of_nat (length (take (Z.to_nat T) sorted)) = T).
  { rewrite length_take, Hlen. unfold len in Hge. lia. }
  split.
  { unfold Eclipse.main_reconcile. fold T.
    destruct (Z.eqb_spec T 0) as [|_]; [lia|].
    destruct (Z.leb_spec T (len df)) as [_|]; [|lia].
    cbn [negb andb]. unfold head. cbn [columns rows sort_values take_frame].
    destruct (Z.leb_spec 0 T) as [_|]; [|lia].
    unfold print, emit, bind, ret. cbn [app].
    change (take_rows _ (rows df)) with sorted.
    unfold len at 2. cbn [rows]. by rewrite Hk. }
  split; [done|].
  split; [by rewrite take_drop|].
  split; [apply sorted_take, sort_values_sorted|].
  intros r x Hr Hx.
  assert (Hrx : key_le (time_key r) (time_key x)).
  { apply (sorted_take_drop
             (fun a b => key_le (time_key a) (time_key b))
             sorted (Z.to_nat T)); try done.
    - intros a b c. apply key_le_trans.
    - apply sort_values_sorted. }
  assert (Hin : forall y, y ∈ sorted ->
            exists ty, col_get y "creation_time" = Stamp ty).
  { intros y Hy. apply (filter_window_stamps _ _ _ _ _ Hwin).
    by rewrite <- Hperm. }
  destruct (Hin r) as [tr Htr]; [by eapply subseteq_take|].
  destruct (Hin x) as [tx Htx]; [by eapply subseteq_drop|].
  exists tr, tx. unfold time_key in Hrx. by rewrite Htr, Htx in Hrx.
Qed.

End Count.

Lemma reconcile_shortfall H args df :
  len df < Eclipse.target_exact args ->
  Eclipse.allow_below_target args = false ->
  Eclipse.main_reconcile H args df
  = ([], inl (ValueError
                (shortfall_message (len df) (Eclipse.target_exact args)))).
Proof.
  intros Hlt Hallow. unfold Eclipse.main_reconcile. rewrite Hallow.
  pose proof (SplitFacts.len_nonneg df).
  destruct (Z.eqb_spec (Eclipse.target_exact args) 0) as [|_]; [lia|].
  destruct (Z.leb_spec (Eclipse.target_exact args) (len df)) as [|_]; [lia|].
  destruct (Z.ltb_spec (len df) (Eclipse.target_exact args)) as [_|]; [|lia].
  cbn [negb andb]. reflexivity.
Qed.

(** A zero count switches the block off, in both scripts. *)
Lemma eclipse_reconcile_zero H args df :
  Eclipse.target_exact args = 0 ->
  Eclipse.main_reconcile H args df = ([], inr df).
Proof. intros Hz. unfold Eclipse.main_reconcile. by rewrite Hz. Qed.

Lemma mozilla_reconcile_zero args df :
  Mozilla.expect_count args = 0 ->
  Mozilla.main_reconcile args df = ([], inr df).
Proof. intros Hz. unfold Mozilla.main_reconcile. by rewrite Hz. Qed.

Lemma mozilla_reconcile_cases args df :
  Mozilla.main_reconcile args df
  = if (Mozilla.expect_count args =? 0) || (len df =? Mozilla.expect_count args)
    then ([], inr df)
    else if Mozilla.no_strict_count args
    then ([Print (mismatch_warning (len df) (Mozilla.expect_count args))],
          inr df)
    else ([], inl (ValueError
                     (mismatch_message (len df) (Mozilla.expect_count args)))).
Proof.
  unfold Mozilla.main_reconcile, mismatch_warning, mismatch_message.
  destruct (Mozilla.expect_count args =? 0),
    (len df =? Mozilla.expect_count args),
    (Mozilla.no_strict_count args); reflexivity.
Qed.

End CountFacts.

(* ===================================================================== *)
(** ** The derived fields *)
(* ===================================================================== *)

Module FieldFacts.
Import PyStr Frame World Spec FrameFacts.

(** Columns computed row by row: the goal is reduced to one row. *)
Ltac rowwise df :=
  unfold set_scalar, set_column, series, fillna, fillna_series, astype_str;
  cbn [rows];
  induction (rows df) as [|?r ?l ?IH]; [done|];
  cbn [map zip_with]; f_equal; [|assumption].

(** *** The assignee *)

Lemma rows_add_assignee_column H df :
  rows (Eclipse.add_assignee_column H df)
  = map (fun r => <["assignee" := Str (assignee_spec H df r)]> r) (rows df).
Proof.
  unfold Eclipse.add_assignee_column, assignee_spec.
  destruct (has_column "assigned_to_detail.email" df) eqn:Hd.
  - rewrite has_column_set_column by done.
    destruct (has_column "assigned_to" df) eqn:Ha; rowwise df.
    + rewrite !insert_insert_eq, !col_get_insert.
      rewrite col_get_insert_ne by done. f_equal.
      destruct (col_get r "assigned_to_detail.email"); cbn; try done.
      by destruct (col_get r "assigned_to").
    + rewrite !insert_insert_eq, !col_get_insert. f_equal.
      by destruct (col_get r "assigned_to_detail.email").
  - destruct (has_column "assigned_to" df) eqn:Ha; rowwise df.
    + rewrite !insert_insert_eq, !col_get_insert. f_equal.
      by destruct (col_get r "assigned_to").
    + by rewrite !insert_insert_eq, !col_get_insert.
Qed.

Lemma rows_add_assignee H df :
  rows (Mozilla.add_assignee H df)
  = map (fun r => <["assignee" := Str (assignee_spec H df r)]> r) (rows df).
Proof. exact (rows_add_assignee_column H df). Qed.

(** *** Title and body *)

Lemma eclipse_str_or_empty H x : Eclipse._str_or_empty H x = field_text H x.
Proof. by destruct x as [[]|]. Qed.

Lemma mozilla_str_or_empty H x : Mozilla._str_or_empty H x = field_text H x.
Proof. by destruct x as [[]|]. Qed.

Lemma eclipse_coalesce_text H u o :
  Eclipse._coalesce_text H [u; o] = text_spec H u o.
Proof.
  unfold text_spec. cbn [Eclipse._coalesce_text].
  rewrite !eclipse_str_or_empty.
  destruct (strip (field_text H u)); cbn; [|done].
  by destruct (strip (field_text H o)).
Qed.

Lemma mozilla_coalesce H u o : Mozilla.coalesce H [u; o] = text_spec H u o.
Proof.
  unfold text_spec. cbn [Mozilla.coalesce].
  rewrite !mozilla_str_or_empty.
  destruct (strip (field_text H u)); cbn; [|done].
  by destruct (strip (field_text H o)).
Qed.

(** The derived text is trimmed. *)
Lemma text_spec_trimmed H u o :
  (forall c t, text_spec H u o = c :: t -> isspace c = false) /\
  (forall t c, text_spec H u o = t ++ [c] -> isspace c = false).
Proof.
  unfold text_spec.
  destruct (PyStrFacts.strip_spec (field_text H u)) as (_ & Hu1 & Hu2).
  destruct (PyStrFacts.strip_spec (field_text H o)) as (_ & Ho1 & Ho2).
  destruct (strip (field_text H u)) as [|c u'].
  - destruct (strip (field_text H o)) as [|c o'].
    + split; [done|]. by intros [|??] ?.
    + split; [apply Ho1|apply Ho2].
  - split; [apply Hu1|apply Hu2].
Qed.

Lemma rows_add_title_body H df :
  rows (Mozilla.add_title_body H df)
  = map (fun r =>
           <["body" := Str (text_spec H (r !! "description_update")
                              (r !! "description"))]>
             (<["title" := Str (text_spec H (r !! "summary_update")
                                  (r !! "summary"))]> r))
        (rows df).
Proof.
  unfold Mozilla.add_title_body. unfold set_column at 1. cbn [rows].
  unfold set_column. cbn [rows].
  induction (rows df) as [|r l IH]; [done|].
  cbn [map zip_with]. f_equal; [|exact IH].
  rewrite !mozilla_coalesce. by rewrite !lookup_insert_ne.
Qed.

(** *** One line per row *)

Lemma for_each_write {A} (l : list A) p (f : A -> pystr) :
  for_each l (fun r => write p (f r))
  = (map (fun r => WriteTo p (f r)) l, inr tt).
Proof.
  induction l as [|a l IH]; [done|]. cbn [for_each map].
  unfold bind at 1. unfold write at 1, emit. by rewrite IH.
Qed.

Lemma eclipse_to_jsonl_lines H rows_df out_path system_prompt user_tmpl :
  os_makedirs H (dirname H out_path) = None ->
  os_open_w H out_path = None ->
  Eclipse.to_jsonl H rows_df out_path system_prompt user_tmpl
  = (MakeDirs (dirname H out_path) :: OpenW out_path "utf-8" ::
     map (fun r =>
            WriteTo out_path (Eclipse.jsonl_line H system_prompt user_tmpl r))
         (rows rows_df)
     ++ [Print (lit "Wrote " ++ fmt_int (len rows_df) ++
                lit " examples to " ++ out_path)],
     inr tt).
Proof.
  intros Hm Ho. unfold Eclipse.to_jsonl, makedirs, open_w.
  rewrite Hm, Ho, for_each_write. reflexivity.
Qed.

Lemma eclipse_jsonl_line H r :
  Eclipse.jsonl_line H (SYSTEM_PROMPT H) (USER_PROMPT_TEMPLATE H) r
  = conversation_line H
      (text_spec H (r !! "summary_update") (r !! "summary"))
      (text_spec H (r !! "description_update") (r !! "description"))
      (field_text H (r !! "assignee")).
Proof.
  unfold Eclipse.jsonl_line, conversation_line.
  by rewrite !eclipse_coalesce_text, eclipse_str_or_empty.
Qed.

(** The Mozilla emitter on the enriched frame: every row has the three
    derived columns, so no lookup fails, and each row gives its
    conversation record. *)
Lemma mozilla_write_record H path r t b a :
  r !! "title" = Some (Str t) -> r !! "body" = Some (Str b) ->
  r !! "assignee" = Some (Str a) ->
  Mozilla.write_record H path r
  = ([WriteTo path (conversation_line H t b a)], inr tt).
Proof.
  intros Ht Hb Ha. unfold Mozilla.write_record, Mozilla.getitem.
  by rewrite Ht, Hb, Ha.
Qed.

Lemma for_each_map_write {A} (l : list A) (F : A -> gmap string cell)
    (body : gmap string cell -> M unit) (line : A -> event) :
  (forall r, body (F r) = ([line r], inr tt)) ->
  for_each (map F l) body = (map line l, inr tt).
Proof.
  intros Hbody. induction l as [|r l IH]; [done|].
  cbn [map for_each]. unfold bind. by rewrite Hbody, IH.
Qed.

Lemma mozilla_to_jsonl_lines H df path :
  os_makedirs H (dirname H path) = None ->
  os_open_w H path = None ->
  Mozilla.to_jsonl H (Mozilla.add_title_body H (Mozilla.add_assignee H df))
    path
  = (MakeDirs (dirname H path) :: OpenW path "utf-8" ::
     map (fun r =>
            WriteTo path
              (conversation_line H
                 (text_spec H (r !! "summary_update") (r !! "summary"))
                 (text_spec H (r !! "description_update")
                    (r !! "description"))
                 (assignee_spec H df r)))
         (rows df)
     ++ [Print (lit "Wrote " ++ fmt_int (len df) ++
                lit " examples to " ++ path)],
     inr tt).
Proof.
  intros Hm Ho. unfold Mozilla.to_jsonl, makedirs, open_w.
  rewrite Hm, Ho.
  rewrite SplitFacts.len_add_title_body, SplitFacts.len_add_assignee.
  rewrite rows_add_title_body, rows_add_assignee, map_map.
  erewrite for_each_map_write; [reflexivity|].
  intros r. cbv beta. rewrite !lookup_insert_ne by done.
  apply mozilla_write_record.
  - rewrite lookup_insert_ne by done. apply lookup_insert_eq.
  - apply lookup_insert_eq.
  - rewrite !lookup_insert_ne by done. apply lookup_insert_eq.
Qed.

Lemma eclipse_to_jsonl_records H df path :
  os_makedirs H (dirname H path) = None ->
  os_open_w H path = None ->
  Eclipse.to_jsonl H df path (SYSTEM_PROMPT H) (USER_PROMPT_TEMPLATE H)
  = (MakeDirs (dirname H path) :: OpenW path "utf-8" ::
     map (fun r =>
            WriteTo path
              (conversation_line H
                 (text_spec H (r !! "summary_update") (r !! "summary"))
                 (text_spec H (r !! "description_update")
                    (r !! "description"))
                 (field_text H (r !! "assignee"))))
         (rows df)
     ++ [Print (lit "Wrote " ++ fmt_int (len df) ++
                lit " examples to " ++ path)],
     inr tt).
Proof.
  intros Hm Ho. rewrite eclipse_to_jsonl_lines by done.
  do 4 f_equal. apply map_ext. intros r. by rewrite eclipse_jsonl_line.
Qed.

End FieldFacts.

(* ===================================================================== *)
(** ** Loading, and the run as a whole *)
(* ===================================================================== *)

Module RunFacts.
Import PyStr Frame World Spec FrameFacts.

(** *** The loader *)

Lemma read_csv_first_attempt H path encoding df :
  pd_read_csv H path encoding = inr df ->
  Eclipse.read_csv_with_fallback H path encoding = ([], inr (df, lit "utf-8")).
Proof. intros Hr. unfold Eclipse.read_csv_with_fallback. by rewrite Hr. Qed.

Lemma read_csv_second_attempt H path encoding df :
  pd_read_csv H path encoding = inl UnicodeDecodeError ->
  pd_read_csv H path (lit "latin-1") = inr df ->
  Eclipse.read_csv_with_fallback H path encoding
  = ([Print (lit "Warning: could not decode " ++ repr_str H path ++
             lit " with " ++ encoding ++ lit ", retrying latin-1")],
     inr (df, lit "latin-1")).
Proof.
  intros Hr Hl. unfold Eclipse.read_csv_with_fallback. by rewrite Hr, Hl.
Qed.

Lemma mozilla_read_csv_with_fallback H path encoding :
  Mozilla.read_csv_with_fallback H path encoding
  = Eclipse.read_csv_with_fallback H path encoding.
Proof. reflexivity. Qed.

(** *** Nothing but printing before the split *)

Ltac prints :=
  repeat first
    [ apply prints_only_ret
    | apply prints_only_raise
    | apply prints_only_call
    | apply prints_only_print
    | apply prints_only_bind; [|intros]
    | match goal with
      | |- prints_only (if ?b then _ else _) => destruct b
      | |- prints_only (match ?x with _ => _ end) => destruct x
      end ].

Lemma prints_only_read_csv H path encoding :
  prints_only (Eclipse.read_csv_with_fallback H path encoding).
Proof. unfold Eclipse.read_csv_with_fallback. prints. Qed.

Lemma prints_only_ensure H df c :
  prints_only (Eclipse.ensure_datetime_col H df c).
Proof. unfold Eclipse.ensure_datetime_col. prints. Qed.

Lemma prints_only_filter_window H df start end_ :
  prints_only (Eclipse.filter_window H df start end_).
Proof.
  unfold Eclipse.filter_window.
  apply prints_only_bind; [apply prints_only_ensure|intros]. prints.
Qed.

Lemma prints_only_eclipse_reconcile H args df :
  prints_only (Eclipse.main_reconcile H args df).
Proof. unfold Eclipse.main_reconcile. prints. Qed.

Lemma prints_only_eclipse_select H args :
  prints_only (Eclipse.main_select H args).
Proof.
  unfold Eclipse.main_select, Eclipse.main_source.
  apply prints_only_bind; [prints|intros].
  apply prints_only_bind; [prints|intros].
  apply prints_only_bind; [apply prints_only_read_csv|intros].
  apply prints_only_bind; [apply prints_only_ensure|intros].
  apply prints_only_bind; [apply prints_only_filter_window|intros].
  apply prints_only_bind; [apply prints_only_eclipse_reconcile|intros].
  prints.
Qed.

Lemma prints_only_main_window H args df :
  prints_only (Mozilla.main_window H args df).
Proof. unfold Mozilla.main_window. prints. Qed.

Lemma prints_only_mozilla_reconcile args df :
  prints_only (Mozilla.main_reconcile args df).
Proof. unfold Mozilla.main_reconcile. prints. Qed.

Lemma prints_only_mozilla_select H args :
  prints_only (Mozilla.main_select H args).
Proof.
  unfold Mozilla.main_select.
  apply prints_only_bind; [prints|intros].
  apply prints_only_bind; [prints|intros].
  apply prints_only_bind; [apply prints_only_read_csv|intros].
  apply prints_only_bind; [apply prints_only_main_window|intros].
  apply prints_only_bind; [apply prints_only_mozilla_reconcile|intros].
  prints.
Qed.

(** *** The fatal conditions by name *)

Lemma eclipse_missing_source H args g :
  path_exists H (Eclipse.eclipse_csv args) = false ->
  path_exists H (lit "eclipse_my.csv") = false ->
  Eclipse.main H args g
  = ([], inl (FileNotFoundError
                (lit "Neither " ++ Eclipse.eclipse_csv args ++
                 lit " nor eclipse_my.csv exists."))).
Proof.
  intros H1 H2.
  unfold Eclipse.main, Eclipse.main_select, Eclipse.main_source.
  by rewrite H1, H2.
Qed.

Lemma mozilla_missing_source H args g :
  path_exists H (Mozilla.mozilla_csv args) = false ->
  Mozilla.main H args g
  = ([], inl (FileNotFoundError (Mozilla.mozilla_csv args))).
Proof.
  intros H1. unfold Mozilla.main, Mozilla.main_select. by rewrite H1.
Qed.

Lemma eclipse_missing_column H args g df :
  path_exists H (Eclipse.eclipse_csv args) = true ->
  pd_read_csv H (Eclipse.eclipse_csv args) (Eclipse.encoding args) = inr df ->
  has_column "creation_time" df = false ->
  Eclipse.main H args g
  = ([Print ([8594%N] ++ lit " Loading CSV: " ++
             abspath H (Eclipse.eclipse_csv args))],
     inl (KeyError (lit "CSV must contain 'creation_time'."))).
Proof.
  intros H1 H2 H3.
  unfold Eclipse.main, Eclipse.main_select, Eclipse.main_source.
  rewrite H1. cbn [negb bind ret print emit app].
  rewrite (read_csv_first_attempt H _ _ df H2). cbn [bind app fst snd].
  unfold Eclipse.ensure_datetime_col. rewrite H3. reflexivity.
Qed.

Lemma mozilla_missing_column H args g df :
  path_exists H (Mozilla.mozilla_csv args) = true ->
  pd_read_csv H (Mozilla.mozilla_csv args) (Mozilla.encoding args) = inr df ->
  has_column "creation_time" df = false ->
  Mozilla.main H args g
  = ([Print ([8594%N] ++ lit " Loading CSV: " ++
             abspath H (Mozilla.mozilla_csv args))],
     inl (KeyError (lit "CSV must contain 'creation_time'."))).
Proof.
  intros H1 H2 H3.
  unfold Mozilla.main, Mozilla.main_select.
  rewrite H1. cbn [negb bind ret print emit app].
  change (Mozilla.read_csv_with_fallback H ?p ?e)
    with (Eclipse.read_csv_with_fallback H p e).
  rewrite (read_csv_first_attempt H _ _ df H2). cbn [bind app fst snd].
  unfold Mozilla.main_window. rewrite H3. reflexivity.
Qed.

(** *** The positions of the split *)

Lemma main_split_positions H `{!HostLaws H} seed st g df :
  RandomState H seed = inr st ->
  Eclipse.main_split H seed g df
  = ([], inr (let ps := split_positions H st (length (rows df)) in
              (take_frame df ps.1.1, take_frame df ps.1.2,
               take_frame df ps.2))).
Proof.
  intros Hst. rewrite (SplitFacts.main_split_eq H seed st g df Hst).
  do 2 f_equal. cbv zeta. unfold split_positions.
  set (p := rng_permutation H st (length (rows df))).
  assert (Hr : Forall (fun i => (i < length (rows df))%nat) p).
  { apply perm_in_range, rng_permutation_perm. }
  unfold iloc_to, iloc, iloc_from, take_frame, len. cbn [rows columns fst snd].
  rewrite (take_take_rows _ p), !(drop_take_rows _ p) by done.
  rewrite take_take_rows by (by apply Forall_drop). done.
Qed.

(** A seed the generator refuses ends the split, before any output. *)
Lemma main_split_bad_seed H seed e g df :
  RandomState H seed = inl e ->
  Eclipse.main_split H seed g df = ([], inl e).
Proof.
  intros Hst. unfold Eclipse.main_split, sample_all, call. by rewrite Hst.
Qed.

End RunFacts.

(* ===================================================================== *)
(** ** The claims *)
(* ===================================================================== *)

Module Claims.
Import PyStr Frame World Spec FrameFacts.
Import SplitFacts WindowFacts CountFacts FieldFacts RunFacts.
Local Open Scope Z_scope.

(** C1.  The splitter cuts the one seeded permutation of the enriched
    frame into three consecutive slices.  No row position is in two of
    them and every position is in one; the sizes are [floor(0.80 n)],
    [floor(0.10 n)] and the remainder, and add up to [n], the number of
    in-window records after reconciliation.  The seed is one the
    generator accepts.  The sizes are computed in binary64; the statement
    is for frames of fewer than [2^49] rows, where the truncated products
    are the exact floors. *)
Theorem C1_split_partition (H : Host) `{!HostLaws H} (seed : Z) (st : rng H)
    (g : rng H) (df_span : DataFrame) :
  RandomState H seed = inr st ->
  len df_span < 2 ^ 49 ->
  (exists parts,
      Eclipse.main_split H seed g (Eclipse.add_assignee_column H df_span)
      = ([], inr parts) /\
      split_partition_of H st (Eclipse.add_assignee_column H df_span)
        (len df_span) parts) /\
  (exists parts,
      Mozilla.main_split H seed g
        (Mozilla.add_title_body H (Mozilla.add_assignee H df_span))
      = ([], inr parts) /\
      split_partition_of H st
        (Mozilla.add_title_body H (Mozilla.add_assignee H df_span))
        (len df_span) parts).
Proof.
  intros Hst Hn. split.
  - pose proof (main_split_partition H seed st g
                  (Eclipse.add_assignee_column H df_span) Hst) as P.
    rewrite len_add_assignee_column in P. exact (P Hn).
  - pose proof (main_split_partition H seed st g
                  (Mozilla.add_title_body H (Mozilla.add_assignee H df_span))
                  Hst) as P.
    rewrite len_add_title_body, len_add_assignee in P.
    rewrite mozilla_main_split. exact (P Hn).
Qed.

Lemma C1_witness :
  (exists parts,
      Eclipse.main_split Toy.host 3407 0
        (Eclipse.add_assignee_column Toy.host Toy.span_frame)
      = ([], inr parts) /\
      split_partition_of Toy.host 3407
        (Eclipse.add_assignee_column Toy.host Toy.span_frame)
        (len Toy.span_frame) parts) /\
  (exists parts,
      Mozilla.main_split Toy.host 3407 0
        (Mozilla.add_title_body Toy.host
           (Mozilla.add_assignee Toy.host Toy.span_frame))
      = ([], inr parts) /\
      split_partition_of Toy.host 3407
        (Mozilla.add_title_body Toy.host
           (Mozilla.add_assignee Toy.host Toy.span_frame))
        (len Toy.span_frame) parts).
Proof.
  apply (@C1_split_partition Toy.host ToyFacts.laws 3407 3407 0
           Toy.span_frame).
  - reflexivity.
  - vm_compute. reflexivity.
Defined.

(** The sizes of the two data sets of the scripts' defaults. *)
Example split_sizes_defaults :
  (Eclipse.n_train 16106, Eclipse.n_val 16106, Eclipse.n_test 16106,
   Mozilla.n_train 110467, Mozilla.n_val 110467, Mozilla.n_test 110467)
  = (12884, 1610, 1612, 88373, 11046, 11048).
Proof. vm_compute. reflexivity. Qed.

(** C2.  With the creation-time column present and the two dates given
    as calendar dates, the window filter keeps exactly the rows whose
    creation time coerces to a timestamp in the closed interval from
    [start 00:00:00Z] to [end 23:59:59Z], in their order; rows that do
    not parse are left out and nothing is raised.  The Mozilla script
    keeps the rows as they are; the Eclipse script keeps them with the
    timestamp in the creation-time column, and validating the column
    before the filter, as its [main] does, changes nothing.  The two
    dates are [start] and [end_] of [args]; [s] and [e] are the instants
    pandas reads from them. *)
Theorem C2_window_filter (H : Host) (df : DataFrame) (args : Mozilla.Args)
    (s e : Z) :
  has_column "creation_time" df = true ->
  pd_Timestamp H (Mozilla.start args ++ lit "T00:00:00Z") = inr s ->
  pd_Timestamp H (Mozilla.end_ args ++ lit "T23:59:59Z") = inr e ->
  (exists df',
      Eclipse.filter_window H df (Mozilla.start args) (Mozilla.end_ args)
      = ([], inr df') /\
      columns df' = columns df /\
      Forall2 (window_row "creation_time") (rows df')
        (window_spec H s e df)) /\
  (df1 <~ Eclipse.ensure_datetime_col H df "creation_time" ;;
   Eclipse.filter_window H df1 (Mozilla.start args) (Mozilla.end_ args))
  = Eclipse.filter_window H df (Mozilla.start args) (Mozilla.end_ args) /\
  (exists df',
      Mozilla.main_window H args df
      = ([Print (lit "  In-span rows (kept): " ++ fmt_thousands (len df'))],
         inr df') /\
      columns df' = columns df /\
      rows df' = map fst (window_spec H s e df)).
Proof.
  intros Hc Hs He. split; [|split].
  - by apply filter_window_spec.
  - apply main_double_validation.
  - by apply main_window_spec.
Qed.

Lemma C2_witness :
  (exists df',
      Eclipse.filter_window Toy.host Toy.eclipse_frame
        (lit "2007-11-01") (lit "2015-11-30") = ([], inr df') /\
      columns df' = columns Toy.eclipse_frame /\
      Forall2 (window_row "creation_time") (rows df')
        (window_spec Toy.host 1193875200 1448927999 Toy.eclipse_frame)) /\
  (df1 <~ Eclipse.ensure_datetime_col Toy.host Toy.eclipse_frame
            "creation_time" ;;
   Eclipse.filter_window Toy.host df1 (lit "2007-11-01") (lit "2015-11-30"))
  = Eclipse.filter_window Toy.host Toy.eclipse_frame
      (lit "2007-11-01") (lit "2015-11-30") /\
  (exists df',
      Mozilla.main_window Toy.host Toy.mozilla_args Toy.eclipse_frame
      = ([Print (lit "  In-span rows (kept): " ++ fmt_thousands (len df'))],
         inr df') /\
      columns df' = columns Toy.eclipse_frame /\
      rows df' = map fst
        (window_spec Toy.host 1193875200 1448927999 Toy.eclipse_frame)).
Proof.
  apply (C2_window_filter Toy.host Toy.eclipse_frame Toy.mozilla_args
           1193875200 1448927999); vm_compute; reflexivity.
Defined.

(** Four of the six rows of the small source are in the window. *)
Example window_spec_toy :
  length (window_spec Toy.host 1193875200 1448927999 Toy.eclipse_frame)
  = 4%nat.
Proof. vm_compute. reflexivity. Qed.

(** C3, as stated, fails for a target of zero: four rows are in the
    window, the count is at least the target, and all four rows are kept,
    not zero. *)
Lemma C3_counterexample :
  Eclipse.filter_window Toy.host Toy.eclipse_frame
    (Eclipse.start Toy.eclipse_args_zero) (Eclipse.end_ Toy.eclipse_args_zero)
  = ([], inr Toy.span_frame) /\
  Eclipse.target_exact Toy.eclipse_args_zero <= len Toy.span_frame /\
  Eclipse.main_reconcile Toy.host Toy.eclipse_args_zero Toy.span_frame
  = ([], inr Toy.span_frame) /\
  len Toy.span_frame = 4 /\
  len Toy.span_frame <> Eclipse.target_exact Toy.eclipse_args_zero.
Proof.
  split; [vm_compute; reflexivity|].
  split; [vm_compute; discriminate|].
  split; [vm_compute; reflexivity|].
  split; [vm_compute; reflexivity|].
  vm_compute. discriminate.
Qed.

(** C3, amended.  For a positive target, on the in-window frame of
    [filter_window]: when the count is at least the target the frame
    kept is the first [target] rows of the frame sorted by creation
    time, so it has exactly [target] rows, it and the excluded rows make
    up the in-window rows, it is in ascending order, and no kept
    timestamp is above an excluded one; when the count is below the
    target and [--allow_below_target] is not set the block raises
    [ValueError] with a message that gives the count and the target. *)
Theorem C3_trim_to_target (H : Host) `{!HostLaws H} (args : Eclipse.Args)
    (df0 : DataFrame) (t : list event) (df : DataFrame) :
  0 < Eclipse.target_exact args ->
  Eclipse.filter_window H df0 (Eclipse.start args) (Eclipse.end_ args)
  = (t, inr df) ->
  (Eclipse.target_exact args <= len df ->
   exists kept excluded,
     Eclipse.main_reconcile H args df
     = ([Print (lit "  In-window rows: " ++ fmt_thousands (len df) ++
                lit " " ++ [8594%N] ++ lit " trimmed to exact " ++
                fmt_thousands (Eclipse.target_exact args))],
        inr (mkDF (columns df) kept)) /\
     Z.of_nat (length kept) = Eclipse.target_exact args /\
     Permutation (kept ++ excluded) (rows df) /\
     Sorted (fun a b => key_le (time_key a) (time_key b)) kept /\
     forall r x, r ∈ kept -> x ∈ excluded ->
       exists tr tx,
         col_get r "creation_time" = Stamp tr /\
         col_get x "creation_time" = Stamp tx /\ tr <= tx) /\
  (len df < Eclipse.target_exact args ->
   Eclipse.allow_below_target args = false ->
   Eclipse.main_reconcile H args df
   = ([], inl (ValueError
                 (shortfall_message (len df) (Eclipse.target_exact args))))).
Proof.
  intros Hpos Hwin. split.
  - intros Hge. by apply (reconcile_trim H args df0 t df).
  - apply reconcile_shortfall.
Qed.

Lemma C3_witness :
  (Eclipse.target_exact Toy.eclipse_args <= len Toy.span_frame ->
   exists kept excluded,
     Eclipse.main_reconcile Toy.host Toy.eclipse_args Toy.span_frame
     = ([Print (lit "  In-window rows: " ++
                fmt_thousands (len Toy.span_frame) ++
                lit " " ++ [8594%N] ++ lit " trimmed to exact " ++
                fmt_thousands (Eclipse.target_exact Toy.eclipse_args))],
        inr (mkDF (columns Toy.span_frame) kept)) /\
     Z.of_nat (length kept) = Eclipse.target_exact Toy.eclipse_args /\
     Permutation (kept ++ excluded) (rows Toy.span_frame) /\
     Sorted (fun a b => key_le (time_key a) (time_key b)) kept /\
     forall r x, r ∈ kept -> x ∈ excluded ->
       exists tr tx,
         col_get r "creation_time" = Stamp tr /\
         col_get x "creation_time" = Stamp tx /\ tr <= tx) /\
  (len Toy.span_frame < Eclipse.target_exact Toy.eclipse_args ->
   Eclipse.allow_below_target Toy.eclipse_args = false ->
   Eclipse.main_reconcile Toy.host Toy.eclipse_args Toy.span_frame
   = ([], inl (ValueError
                 (shortfall_message (len Toy.span_frame)
                    (Eclipse.target_exact Toy.eclipse_args))))).
Proof.
  apply (@C3_trim_to_target Toy.host ToyFacts.laws Toy.eclipse_args
           Toy.eclipse_frame [] Toy.span_frame);
    vm_compute; reflexivity.
Defined.

(** The trim on the small source: the three oldest of the four rows. *)
Example trim_toy :
  match Eclipse.main_reconcile Toy.host Toy.eclipse_args Toy.span_frame with
  | (_, inr df) => map time_key (rows df)
  | _ => []
  end = [Some 1198490400; Some 1204329600; Some 1276560000]
  /\ map time_key (rows Toy.span_frame)
     = [Some 1204329600; Some 1198490400; Some 1448927999; Some 1276560000].
Proof. vm_compute. done. Qed.

(** The shortfall of the property list, with its message. *)
Example shortfall_message_ex :
  shortfall_message 16105 16106
  = lit ("Only 16,105 rows in window (< target 16,106). " ++
         "Re-run after augmenting or use --allow_below_target.").
Proof. vm_compute. reflexivity. Qed.

(** C4, as stated, fails for an expected count of zero: four rows are in
    the span, the count differs from the expected one, strict mode is on,
    and the run goes on without a word. *)
Lemma C4_counterexample :
  len Toy.span_frame <> Mozilla.expect_count Toy.mozilla_args_zero /\
  Mozilla.no_strict_count Toy.mozilla_args_zero = false /\
  Mozilla.main_reconcile Toy.mozilla_args_zero Toy.span_frame
  = ([], inr Toy.span_frame).
Proof.
  split; [vm_compute; discriminate|].
  split; vm_compute; reflexivity.
Qed.

(** C4, amended.  For an expected count other than zero: when the
    in-span count differs from it the block raises [ValueError] with a
    message that gives both counts, unless [--no_strict_count] is set, in
    which case it prints a warning and goes on; when the counts agree it
    does nothing; and whenever it goes on the frame it hands on is the
    in-span frame, untrimmed. *)
Theorem C4_exact_match (args : Mozilla.Args) (df : DataFrame) :
  Mozilla.expect_count args <> 0 ->
  (len df <> Mozilla.expect_count args ->
   Mozilla.no_strict_count args = false ->
   Mozilla.main_reconcile args df
   = ([], inl (ValueError
                 (mismatch_message (len df) (Mozilla.expect_count args))))) /\
  (len df <> Mozilla.expect_count args ->
   Mozilla.no_strict_count args = true ->
   Mozilla.main_reconcile args df
   = ([Print (mismatch_warning (len df) (Mozilla.expect_count args))],
      inr df)) /\
  (len df = Mozilla.expect_count args ->
   Mozilla.main_reconcile args df = ([], inr df)) /\
  (forall t df', Mozilla.main_reconcile args df = (t, inr df') -> df' = df).
Proof.
  intros Hnz. rewrite mozilla_reconcile_cases.
  destruct (Z.eqb_spec (Mozilla.expect_count args) 0) as [|_]; [done|].
  cbn [orb].
  destruct (Z.eqb_spec (len df) (Mozilla.expect_count args)) as [Heq|Hne].
  - repeat split; try done. by intros t df' [= _ <-].
  - destruct (Mozilla.no_strict_count args); repeat split; try done.
    by intros t df' [= _ <-].
Qed.

Lemma C4_witness :
  (len Toy.span_frame <> Mozilla.expect_count Toy.mozilla_args_strict ->
   Mozilla.no_strict_count Toy.mozilla_args_strict = false ->
   Mozilla.main_reconcile Toy.mozilla_args_strict Toy.span_frame
   = ([], inl (ValueError (mismatch_message (len Toy.span_frame)
                             (Mozilla.expect_count Toy.mozilla_args_strict))))) /\
  (len Toy.span_frame <> Mozilla.expect_count Toy.mozilla_args_strict ->
   Mozilla.no_strict_count Toy.mozilla_args_strict = true ->
   Mozilla.main_reconcile Toy.mozilla_args_strict Toy.span_frame
   = ([Print (mismatch_warning (len Toy.span_frame)
                (Mozilla.expect_count Toy.mozilla_args_strict))],
      inr Toy.span_frame)) /\
  (len Toy.span_frame = Mozilla.expect_count Toy.mozilla_args_strict ->
   Mozilla.main_reconcile Toy.mozilla_args_strict Toy.span_frame
   = ([], inr Toy.span_frame)) /\
  (forall t df',
     Mozilla.main_reconcile Toy.mozilla_args_strict Toy.span_frame
     = (t, inr df') -> df' = Toy.span_frame).
Proof.
  apply (C4_exact_match Toy.mozilla_args_strict Toy.span_frame).
  vm_compute. discriminate.
Defined.

(** The mismatch of the property list, with its message. *)
Example mismatch_message_ex :
  mismatch_message 110466 110467
  = lit ("In-span rows 110,466 != expected 110,467. " ++
         "Rerun with --no_strict_count if you want to proceed anyway.").
Proof. vm_compute. reflexivity. Qed.

(** C5.  For every row, the derived assignee is the text of the
    identity-detail column when that column exists and the cell is not
    null, else the text of the plain assignment column when that column
    exists and the cell is not null, else the empty string.  The cell is
    a string in every row, in both scripts, and the emitters read it back
    as that same string; no other column changes and no row is added or
    lost. *)
Theorem C5_assignee (H : Host) (df : DataFrame) (i : nat)
    (r : gmap string cell) :
  rows df !! i = Some r ->
  (exists r',
      rows (Eclipse.add_assignee_column H df) !! i = Some r' /\
      r' !! "assignee" = Some (Str (assignee_spec H df r)) /\
      Eclipse._str_or_empty H (r' !! "assignee") = assignee_spec H df r /\
      forall c, c <> "assignee" -> r' !! c = r !! c) /\
  (exists r',
      rows (Mozilla.add_assignee H df) !! i = Some r' /\
      r' !! "assignee" = Some (Str (assignee_spec H df r)) /\
      Mozilla._str_or_empty H (r' !! "assignee") = assignee_spec H df r /\
      forall c, c <> "assignee" -> r' !! c = r !! c) /\
  length (rows (Eclipse.add_assignee_column H df)) = length (rows df) /\
  length (rows (Mozilla.add_assignee H df)) = length (rows df).
Proof.
  intros Hr.
  assert (Hrow : forall r',
    r' = <["assignee" := Str (assignee_spec H df r)]> r ->
    r' !! "assignee" = Some (Str (assignee_spec H df r)) /\
    Eclipse._str_or_empty H (r' !! "assignee") = assignee_spec H df r /\
    forall c, c <> "assignee" -> r' !! c = r !! c).
  { intros r' ->. rewrite lookup_insert_eq. split; [done|]. split; [done|].
    intros c Hc. by rewrite lookup_insert_ne. }
  split; [|split; [|split]].
  - eexists. split; [|by apply Hrow].
    rewrite rows_add_assignee_column, list_lookup_fmap, Hr. done.
  - eexists. split; [|by apply Hrow].
    rewrite rows_add_assignee, list_lookup_fmap, Hr. done.
  - by rewrite rows_add_assignee_column, length_map.
  - by rewrite rows_add_assignee, length_map.
Qed.

(** The second row of the small source has no detail address: the plain
    assignment is taken. *)
Lemma C5_witness :
  let df := Toy.eclipse_frame in
  let r := Toy.eclipse_rows !!! 1%nat in
  (exists r',
      rows (Eclipse.add_assignee_column Toy.host df) !! 1%nat = Some r' /\
      r' !! "assignee" = Some (Str (assignee_spec Toy.host df r)) /\
      Eclipse._str_or_empty Toy.host (r' !! "assignee")
      = assignee_spec Toy.host df r /\
      forall c, c <> "assignee" -> r' !! c = r !! c) /\
  (exists r',
      rows (Mozilla.add_assignee Toy.host df) !! 1%nat = Some r' /\
      r' !! "assignee" = Some (Str (assignee_spec Toy.host df r)) /\
      Mozilla._str_or_empty Toy.host (r' !! "assignee")
      = assignee_spec Toy.host df r /\
      forall c, c <> "assignee" -> r' !! c = r !! c) /\
  length (rows (Eclipse.add_assignee_column Toy.host df))
  = length (rows df) /\
  length (rows (Mozilla.add_assignee Toy.host df)) = length (rows df).
Proof.
  apply (C5_assignee Toy.host Toy.eclipse_frame 1
           (Toy.eclipse_rows !!! 1%nat)).
  reflexivity.
Defined.

Example assignee_spec_toy :
  assignee_spec Toy.host Toy.eclipse_frame (Toy.eclipse_rows !!! 1%nat)
  = lit "bob".
Proof. vm_compute. reflexivity. Qed.

(** The assignees of the small source: detail address, plain assignment,
    and the empty string where both are null. *)
Example assignee_toy :
  map (fun r => r !! "assignee")
      (rows (Eclipse.add_assignee_column Toy.host Toy.span_frame))
  = [Some (Str (lit "ann@x.org")); Some (Str (lit "bob")); Some (Str []);
     Some (Str (lit "cat@x.org"))].
Proof. vm_compute. reflexivity. Qed.

(** C6.  For every row, title and body are the trimmed updated variant
    of summary and description when that is not empty, else the trimmed
    original variant when that is not empty, else the empty string: in
    the record the Eclipse emitter writes, and in the columns the Mozilla
    script adds and then writes.  The value neither starts nor ends with
    whitespace.  A row with nothing in either variant stays, with empty
    strings: the Mozilla columns have one cell per row and, where the
    file can be opened, both emitters write one record per row, in order,
    and raise nothing. *)
Theorem C6_title_body (H : Host) (df : DataFrame) (r : gmap string cell)
    (path : pystr) :
  os_makedirs H (dirname H path) = None ->
  os_open_w H path = None ->
  Eclipse._coalesce_text H [r !! "summary_update"; r !! "summary"]
  = text_spec H (r !! "summary_update") (r !! "summary") /\
  Eclipse._coalesce_text H [r !! "description_update"; r !! "description"]
  = text_spec H (r !! "description_update") (r !! "description") /\
  (forall u o,
     (forall c t, text_spec H u o = c :: t -> isspace c = false) /\
     (forall t c, text_spec H u o = t ++ [c] -> isspace c = false)) /\
  rows (Mozilla.add_title_body H df)
  = map (fun r =>
           <["body" := Str (text_spec H (r !! "description_update")
                              (r !! "description"))]>
             (<["title" := Str (text_spec H (r !! "summary_update")
                                  (r !! "summary"))]> r))
        (rows df) /\
  Eclipse.to_jsonl H df path (SYSTEM_PROMPT H) (USER_PROMPT_TEMPLATE H)
  = (MakeDirs (dirname H path) :: OpenW path "utf-8" ::
     map (fun r =>
            WriteTo path
              (conversation_line H
                 (text_spec H (r !! "summary_update") (r !! "summary"))
                 (text_spec H (r !! "description_update")
                    (r !! "description"))
                 (field_text H (r !! "assignee"))))
         (rows df)
     ++ [Print (lit "Wrote " ++ fmt_int (len df) ++
                lit " examples to " ++ path)],
     inr tt) /\
  Mozilla.to_jsonl H (Mozilla.add_title_body H (Mozilla.add_assignee H df))
    path
  = (MakeDirs (dirname H path) :: OpenW path "utf-8" ::
     map (fun r =>
            WriteTo path
              (conversation_line H
                 (text_spec H (r !! "summary_update") (r !! "summary"))
                 (text_spec H (r !! "description_update")
                    (r !! "description"))
                 (assignee_spec H df r)))
         (rows df)
     ++ [Print (lit "Wrote " ++ fmt_int (len df) ++
                lit " examples to " ++ path)],
     inr tt).
Proof.
  intros Hm Ho.
  split; [apply eclipse_coalesce_text|].
  split; [apply eclipse_coalesce_text|].
  split; [intros u o; apply text_spec_trimmed|].
  split; [apply rows_add_title_body|].
  split; [by apply eclipse_to_jsonl_records|].
  by apply mozilla_to_jsonl_lines.
Qed.

(** The fourth row of the small source has no summary at all. *)
Lemma C6_witness :
  let H := Toy.host in
  let r := Toy.eclipse_rows !!! 3%nat in
  let df := Toy.span_frame in
  let path := lit "out/train_all.jsonl" in
  Eclipse._coalesce_text H [r !! "summary_update"; r !! "summary"]
  = text_spec H (r !! "summary_update") (r !! "summary") /\
  Eclipse._coalesce_text H [r !! "description_update"; r !! "description"]
  = text_spec H (r !! "description_update") (r !! "description") /\
  (forall u o,
     (forall c t, text_spec H u o = c :: t -> isspace c = false) /\
     (forall t c, text_spec H u o = t ++ [c] -> isspace c = false)) /\
  rows (Mozilla.add_title_body H df)
  = map (fun r =>
           <["body" := Str (text_spec H (r !! "description_update")
                              (r !! "description"))]>
             (<["title" := Str (text_spec H (r !! "summary_update")
                                  (r !! "summary"))]> r))
        (rows df) /\
  Eclipse.to_jsonl H df path (SYSTEM_PROMPT H) (USER_PROMPT_TEMPLATE H)
  = (MakeDirs (dirname H path) :: OpenW path "utf-8" ::
     map (fun r =>
            WriteTo path
              (conversation_line H
                 (text_spec H (r !! "summary_update") (r !! "summary"))
                 (text_spec H (r !! "description_update")
                    (r !! "description"))
                 (field_text H (r !! "assignee"))))
         (rows df)
     ++ [Print (lit "Wrote " ++ fmt_int (len df) ++
                lit " examples to " ++ path)],
     inr tt) /\
  Mozilla.to_jsonl H (Mozilla.add_title_body H (Mozilla.add_assignee H df))
    path
  = (MakeDirs (dirname H path) :: OpenW path "utf-8" ::
     map (fun r =>
            WriteTo path
              (conversation_line H
                 (text_spec H (r !! "summary_update") (r !! "summary"))
                 (text_spec H (r !! "description_update")
                    (r !! "description"))
                 (assignee_spec H df r)))
         (rows df)
     ++ [Print (lit "Wrote " ++ fmt_int (len df) ++
                lit " examples to " ++ path)],
     inr tt).
Proof.
  apply (C6_title_body Toy.host Toy.span_frame (Toy.eclipse_rows !!! 3%nat)
           (lit "out/train_all.jsonl")); reflexivity.
Defined.

(** The row without a summary has the empty title. *)
Example text_spec_toy :
  let r := Toy.eclipse_rows !!! 3%nat in
  (text_spec Toy.host (r !! "summary_update") (r !! "summary"),
   text_spec Toy.host (r !! "description_update") (r !! "description"))
  = ([], lit "last second").
Proof. vm_compute. reflexivity. Qed.

(** Titles and bodies of the small source: the original where the update
    is null or blank, the update where there is one, and the empty string
    where there is neither. *)
Example title_body_toy :
  map (fun r => (r !! "title", r !! "body"))
      (rows (Mozilla.add_title_body Toy.host Toy.span_frame))
  = [ (Some (Str (lit "crash on start")), Some (Str (lit "it crashes")));
      (Some (Str (lit "new title")), Some (Str []));
      (Some (Str []), Some (Str (lit "last second")));
      (Some (Str (lit "middle")), Some (Str (lit "body"))) ].
Proof. vm_compute. reflexivity. Qed.

(** C7.  The claim holds on the fallback path and fails on the first:
    when the first attempt succeeds the loader labels the table [utf-8],
    whatever encoding was preferred and used. *)
Theorem C7_label_is_constant (H : Host) (path encoding : pystr)
    (df : DataFrame) :
  pd_read_csv H path encoding = inr df ->
  Eclipse.read_csv_with_fallback H path encoding
  = ([], inr (df, lit "utf-8")) /\
  Mozilla.read_csv_with_fallback H path encoding
  = ([], inr (df, lit "utf-8")).
Proof.
  intros Hr. split.
  - by apply read_csv_first_attempt.
  - rewrite <- (read_csv_first_attempt H path encoding df Hr).
    apply mozilla_read_csv_with_fallback.
Qed.

(** [legacy.csv] read as [cp1252] comes back labelled [utf-8]. *)
Lemma C7_witness :
  Eclipse.read_csv_with_fallback Toy.host (lit "legacy.csv") (lit "cp1252")
  = ([], inr (Toy.eclipse_frame, lit "utf-8")) /\
  Mozilla.read_csv_with_fallback Toy.host (lit "legacy.csv") (lit "cp1252")
  = ([], inr (Toy.eclipse_frame, lit "utf-8")).
Proof.
  apply (C7_label_is_constant Toy.host (lit "legacy.csv") (lit "cp1252")
           Toy.eclipse_frame).
  reflexivity.
Defined.

(** The fallback path labels the table with the encoding it used. *)
Example fallback_label_toy :
  Eclipse.read_csv_with_fallback Toy.host (lit "legacy.csv") (lit "utf-8")
  = ([Print (lit ("Warning: could not decode 'legacy.csv' with utf-8, " ++
                  "retrying latin-1"))],
     inr (Toy.eclipse_frame, lit "latin-1")).
Proof. vm_compute. reflexivity. Qed.

(** C8.  A run is a function of its arguments and of what the host
    returns for them: the state of numpy's global generator at start does
    not reach the result, so two runs with the same seed, source and
    flags leave the same trace and the same text in every file.  The
    split takes its positions from the seed and the row count alone: two
    frames of the same length are split at the same positions. *)
Theorem C8_reproducible (H : Host) (eargs : Eclipse.Args)
    (margs : Mozilla.Args) (g1 g2 : rng H) (seed : Z) (df1 df2 : DataFrame) :
  Eclipse.main H eargs g1 = Eclipse.main H eargs g2 /\
  Mozilla.main H margs g1 = Mozilla.main H margs g2 /\
  (forall path,
     file_text path (Eclipse.main H eargs g1).1 None
     = file_text path (Eclipse.main H eargs g2).1 None /\
     file_text path (Mozilla.main H margs g1).1 None
     = file_text path (Mozilla.main H margs g2).1 None) /\
  (HostLaws H ->
   forall st, RandomState H seed = inr st ->
   length (rows df1) = length (rows df2) ->
   exists p1 p2 p3,
     (p1, p2, p3) = split_positions H st (length (rows df1)) /\
     Eclipse.main_split H seed g1 df1
     = ([], inr (take_frame df1 p1, take_frame df1 p2, take_frame df1 p3)) /\
     Eclipse.main_split H seed g2 df2
     = ([], inr (take_frame df2 p1, take_frame df2 p2, take_frame df2 p3)) /\
     Mozilla.main_split H seed g1 df1
     = ([], inr (take_frame df1 p1, take_frame df1 p2, take_frame df1 p3)) /\
     Mozilla.main_split H seed g2 df2
     = ([], inr (take_frame df2 p1, take_frame df2 p2, take_frame df2 p3))).
Proof.
  assert (He : Eclipse.main H eargs g1 = Eclipse.main H eargs g2)
    by reflexivity.
  assert (Hm : Mozilla.main H margs g1 = Mozilla.main H margs g2)
    by reflexivity.
  split; [done|]. split; [done|].
  split; [intros path; by rewrite He, Hm|].
  intros Hlaws st Hst Hlen.
  destruct (split_positions H st (length (rows df1)))
    as [[p1 p2] p3] eqn:Hp.
  exists p1, p2, p3. split; [done|].
  assert (K : forall g df, length (rows df) = length (rows df1) ->
            Eclipse.main_split H seed g df
            = ([], inr (take_frame df p1, take_frame df p2,
                        take_frame df p3))).
  { intros g df Hl.
    by rewrite (main_split_positions H seed st g df Hst), Hl, Hp. }
  split; [by apply K|]. split; [by apply K|].
  split; rewrite mozilla_main_split; by apply K.
Qed.

Lemma C8_witness :
  exists p1 p2 p3,
    (p1, p2, p3)
    = split_positions Toy.host 3407 (length (rows Toy.span_frame)) /\
    Eclipse.main_split Toy.host 3407 1 Toy.span_frame
    = ([], inr (take_frame Toy.span_frame p1, take_frame Toy.span_frame p2,
                take_frame Toy.span_frame p3)) /\
    Eclipse.main_split Toy.host 3407 2 Toy.span_frame
    = ([], inr (take_frame Toy.span_frame p1, take_frame Toy.span_frame p2,
                take_frame Toy.span_frame p3)) /\
    Mozilla.main_split Toy.host 3407 1 Toy.span_frame
    = ([], inr (take_frame Toy.span_frame p1, take_frame Toy.span_frame p2,
                take_frame Toy.span_frame p3)) /\
    Mozilla.main_split Toy.host 3407 2 Toy.span_frame
    = ([], inr (take_frame Toy.span_frame p1, take_frame Toy.span_frame p2,
                take_frame Toy.span_frame p3)).
Proof.
  apply (proj2 (proj2 (proj2
           (C8_reproducible Toy.host Toy.eclipse_args Toy.mozilla_args 1 2
              3407 Toy.span_frame Toy.span_frame)))
           ToyFacts.laws 3407); reflexivity.
Defined.

(** The positions of the small run: seed 3407 over four rows. *)
Example split_positions_toy :
  split_positions Toy.host 3407 4 = ([3; 0; 1]%nat, [], [2%nat]).
Proof. vm_compute. reflexivity. Qed.

(** C9.  When the part of [main] that finds, loads, filters and
    reconciles the source ends in an exception, the run ends in that
    exception with the trace of that part, and that trace holds no
    directory creation, no file opening and no write: nothing has touched
    the output files. *)
Theorem C9_abort_before_output (H : Host) (eargs : Eclipse.Args)
    (margs : Mozilla.Args) (g : rng H) :
  (forall t e,
     Eclipse.main_select H eargs = (t, inl e) ->
     Eclipse.main H eargs g = (t, inl e) /\ fs_events t = []) /\
  (forall t e,
     Mozilla.main_select H margs = (t, inl e) ->
     Mozilla.main H margs g = (t, inl e) /\ fs_events t = []).
Proof.
  split; intros t e Hsel.
  - split; [unfold Eclipse.main; by rewrite Hsel|].
    pose proof (prints_only_eclipse_select H eargs) as Hp.
    unfold prints_only in Hp. by rewrite Hsel in Hp.
  - split; [unfold Mozilla.main; by rewrite Hsel|].
    pose proof (prints_only_mozilla_select H margs) as Hp.
    unfold prints_only in Hp. by rewrite Hsel in Hp.
Qed.

(** A source without creation times, and a span with fewer rows than
    expected in strict mode. *)
Lemma C9_witness :
  (Eclipse.main Toy.host Toy.eclipse_args_untimed 0
   = ([Print ([8594%N] ++ lit " Loading CSV: /data/untimed.csv")],
      inl (KeyError (lit "CSV must contain 'creation_time'."))) /\
   fs_events [Print ([8594%N] ++ lit " Loading CSV: /data/untimed.csv")]
   = []) /\
  (Mozilla.main Toy.host Toy.mozilla_args_strict 0
   = ([Print ([8594%N] ++ lit " Loading CSV: /data/mozilla_my1.csv");
       Print (lit "  In-span rows (kept): 4")],
      inl (ValueError (mismatch_message 4 110467))) /\
   fs_events [Print ([8594%N] ++ lit " Loading CSV: /data/mozilla_my1.csv");
              Print (lit "  In-span rows (kept): 4")]
   = []).
Proof.
  split.
  - apply (proj1 (C9_abort_before_output Toy.host Toy.eclipse_args_untimed
                    Toy.mozilla_args_strict 0)).
    vm_compute. reflexivity.
  - apply (proj2 (C9_abort_before_output Toy.host Toy.eclipse_args_untimed
                    Toy.mozilla_args_strict 0)).
    vm_compute. reflexivity.
Defined.

(** A run that succeeds opens the three files; past the part above an
    exception can leave files behind: when the second file cannot be
    opened the first one is already written. *)
Example run_toy :
  (Eclipse.main Toy.host Toy.eclipse_args 0).2 = inr tt /\
  opened_files (Eclipse.main Toy.host Toy.eclipse_args 0).1
  = [lit "out/train_all.jsonl"; lit "out/valid_all.jsonl";
     lit "out/test_all.csv"] /\
  (Mozilla.main Toy.host Toy.mozilla_args 0).2 = inr tt /\
  opened_files (Mozilla.main Toy.host Toy.mozilla_args 0).1
  = [lit "out/train_all.jsonl"; lit "out/valid_all.jsonl";
     lit "out/test_all.csv"].
Proof. vm_compute. done. Qed.

Example partial_output_toy :
  (Eclipse.main Toy.host Toy.eclipse_args_locked 0).2
  = inl (OSError (lit "Permission denied: locked/valid_all.jsonl")) /\
  opened_files (Eclipse.main Toy.host Toy.eclipse_args_locked 0).1
  = [lit "locked/train_all.jsonl"].
Proof. vm_compute. done. Qed.

(** C10.  With the count parameter at zero the block that reconciles the
    count does nothing, whatever the frame: it prints nothing, raises
    nothing and hands the frame on as it came. *)
Theorem C10_zero_disables (H : Host) (eargs : Eclipse.Args)
    (margs : Mozilla.Args) (df : DataFrame) :
  Eclipse.target_exact eargs = 0 ->
  Mozilla.expect_count margs = 0 ->
  Eclipse.main_reconcile H eargs df = ([], inr df) /\
  Mozilla.main_reconcile margs df = ([], inr df).
Proof.
  intros He Hm. split.
  - by apply eclipse_reconcile_zero.
  - by apply mozilla_reconcile_zero.
Qed.

Lemma C10_witness :
  Eclipse.main_reconcile Toy.host Toy.eclipse_args_zero Toy.span_frame
  = ([], inr Toy.span_frame) /\
  Mozilla.main_reconcile Toy.mozilla_args_zero Toy.span_frame
  = ([], inr Toy.span_frame).
Proof.
  apply (C10_zero_disables Toy.host Toy.eclipse_args_zero
           Toy.mozilla_args_zero Toy.span_frame); reflexivity.
Defined.

End Claims.
Module ExtraFacts.
Import PyStr Frame World Spec Behaviour FrameFacts PyStrFacts.
Import SplitFacts WindowFacts CountFacts FieldFacts RunFacts.

(** *** Trimming twice *)

Lemma lstrip_id s :
  (forall c t, s = c :: t -> isspace c = false) -> lstrip s = s.
Proof.
  destruct s as [|c t]; [done|]. intros Hs. cbn [lstrip].
  by rewrite (Hs c t eq_refl).
Qed.

Lemma strip_idem s : strip (strip s) = strip s.
Proof.
  destruct (strip_spec s) as (_ & Hh & Hl).
  unfold strip at 1. rewrite (lstrip_id (strip s)) by exact Hh.
  unfold rstrip. rewrite lstrip_id; [apply rev_involutive|].
  intros c u Hrev. apply (Hl (rev u) c).
  rewrite <- (rev_involutive (strip s)), Hrev. done.
Qed.

(** *** The first candidate that is not blank *)

Lemma mozilla_coalesce_eq H l :
  Mozilla.coalesce H l = Eclipse._coalesce_text H l.
Proof. induction l as [|c l IH]; [done|]. cbn. by rewrite IH. Qed.

Lemma coalesce_app H l1 l2 :
  Eclipse._coalesce_text H (l1 ++ l2)
  = if truthy (Eclipse._coalesce_text H l1)
    then Eclipse._coalesce_text H l1 else Eclipse._coalesce_text H l2.
Proof.
  induction l1 as [|c l1 IH]; [done|].
  cbn [app Eclipse._coalesce_text].
  destruct (strip (Eclipse._str_or_empty H c)) as [|a s] eqn:Hs; cbn [truthy].
  - exact IH.
  - done.
Qed.

Lemma coalesce_blank H l :
  Eclipse._coalesce_text H l = [] <->
  Forall (fun c => strip (Eclipse._str_or_empty H c) = []) l.
Proof.
  induction l as [|c l IH]; [split; [constructor|done]|].
  cbn [Eclipse._coalesce_text].
  destruct (strip (Eclipse._str_or_empty H c)) as [|a s] eqn:Hs; cbn [truthy].
  - rewrite IH. split; [by constructor|]. by inversion 1.
  - split; [done|]. inversion 1; congruence.
Qed.

Lemma coalesce_trimmed H l :
  strip (Eclipse._coalesce_text H l) = Eclipse._coalesce_text H l.
Proof.
  induction l as [|c l IH]; [done|].
  cbn [Eclipse._coalesce_text].
  destruct (strip (Eclipse._str_or_empty H c)) as [|a s] eqn:Hs; cbn [truthy].
  - exact IH.
  - rewrite <- Hs. apply strip_idem.
Qed.

(** *** Columns of the derived frames *)

Lemma frame_eq (a b : DataFrame) :
  columns a = columns b -> rows a = rows b -> a = b.
Proof. destruct a, b. cbn. by intros -> ->. Qed.

Lemma has_column_set_column_any df c s c' :
  has_column c' (set_column df c s) = bool_decide (c' = c) || has_column c' df.
Proof.
  unfold set_column, has_column at 1. cbn [columns].
  destruct (has_column c df) eqn:Hc; unfold has_column in *.
  - apply bool_decide_eq_true in Hc.
    destruct (bool_decide (c' = c)) eqn:Hcc; cbn [orb]; [|done].
    apply bool_decide_eq_true in Hcc. subst c'. by apply bool_decide_eq_true.
  - destruct (bool_decide (c' = c)) eqn:Hcc; cbn [orb].
    + apply bool_decide_eq_true in Hcc. subst c'.
      apply bool_decide_eq_true, elem_of_app. right. by apply list_elem_of_singleton.
    + apply bool_decide_eq_false in Hcc.
      apply bool_decide_ext. rewrite elem_of_app, list_elem_of_singleton.
      split; [intros [?|?]; [done|by destruct Hcc]|by left].
Qed.

Lemma has_column_set_column_eq df c s : has_column c (set_column df c s) = true.
Proof.
  rewrite has_column_set_column_any. by rewrite bool_decide_eq_true_2.
Qed.

Lemma columns_set_column_has df c s :
  has_column c df = true -> columns (set_column df c s) = columns df.
Proof. intros Hc. unfold set_column. cbn [columns]. by rewrite Hc. Qed.

Lemma columns_set_column_twice df c s s' :
  columns (set_column (set_column df c s) c s') = columns (set_column df c s).
Proof. apply columns_set_column_has, has_column_set_column_eq. Qed.

Lemma columns_set_column df c s :
  columns (set_column df c s)
  = if has_column c df then columns df else columns df ++ [c].
Proof. done. Qed.

Lemma mozilla_add_assignee_eq H df :
  Mozilla.add_assignee H df = Eclipse.add_assignee_column H df.
Proof. unfold Mozilla.add_assignee, Eclipse.add_assignee_column. reflexivity. Qed.

Lemma columns_add_assignee_column H df :
  columns (Eclipse.add_assignee_column H df)
  = if has_column "assignee" df then columns df
    else columns df ++ ["assignee"].
Proof.
  unfold Eclipse.add_assignee_column, set_scalar.
  destruct (has_column "assigned_to_detail.email" df).
  - destruct (has_column "assigned_to" (set_column df "assignee" _)).
    + by rewrite !columns_set_column_twice.
    + by rewrite columns_set_column_twice.
  - destruct (has_column "assigned_to" df);
      by rewrite columns_set_column_twice.
Qed.

Lemma has_column_add_assignee_column H df c :
  has_column c (Eclipse.add_assignee_column H df)
  = bool_decide (c = "assignee") || has_column c df.
Proof.
  rewrite <- (has_column_set_column_any df "assignee" []).
  unfold has_column at 1 2. by rewrite columns_add_assignee_column.
Qed.

Lemma assignee_spec_add_assignee H df r v :
  assignee_spec H (Eclipse.add_assignee_column H df) (<["assignee" := v]> r)
  = assignee_spec H df r.
Proof.
  unfold assignee_spec.
  rewrite !has_column_add_assignee_column, !col_get_insert_ne by done.
  done.
Qed.

Lemma add_assignee_column_idem H df :
  Eclipse.add_assignee_column H (Eclipse.add_assignee_column H df)
  = Eclipse.add_assignee_column H df.
Proof.
  apply frame_eq.
  - rewrite (columns_add_assignee_column H (Eclipse.add_assignee_column _ _)).
    rewrite has_column_add_assignee_column. done.
  - rewrite (rows_add_assignee_column H (Eclipse.add_assignee_column _ _)).
    rewrite rows_add_assignee_column, map_map. apply map_ext. intros r.
    rewrite assignee_spec_add_assignee. apply insert_insert_eq.
Qed.

(** *** Title and body *)

Lemma has_column_add_title_body H df c :
  has_column c (Mozilla.add_title_body H df)
  = bool_decide (c = "body") || (bool_decide (c = "title") || has_column c df).
Proof.
  unfold Mozilla.add_title_body. by rewrite !has_column_set_column_any.
Qed.

Lemma assignee_spec_add_title_body H df r t b :
  assignee_spec H (Mozilla.add_title_body H df)
    (<["body" := b]> (<["title" := t]> r))
  = assignee_spec H df r.
Proof.
  unfold assignee_spec.
  rewrite !has_column_add_title_body, !col_get_insert_ne by done.
  done.
Qed.

Lemma columns_add_title_body H df :
  columns (Mozilla.add_title_body H df)
  = (if has_column "body" df then
       if has_column "title" df then columns df else columns df ++ ["title"]
     else (if has_column "title" df then columns df
           else columns df ++ ["title"]) ++ ["body"]).
Proof.
  unfold Mozilla.add_title_body.
  rewrite columns_set_column, has_column_set_column_any, columns_set_column.
  done.
Qed.

Lemma add_title_body_idem H df :
  Mozilla.add_title_body H (Mozilla.add_title_body H df)
  = Mozilla.add_title_body H df.
Proof.
  apply frame_eq.
  - rewrite (columns_add_title_body H (Mozilla.add_title_body _ _)).
    rewrite !has_column_add_title_body. done.
  - rewrite (rows_add_title_body H (Mozilla.add_title_body _ _)).
    rewrite rows_add_title_body, map_map. apply map_ext. intros r.
    rewrite !lookup_insert_ne by done.
    rewrite (insert_insert_ne _ "title" "body") by done.
    etrans; [apply insert_insert_eq|]. f_equal. apply insert_insert_eq.
Qed.

Lemma title_body_assignee_commute H df :
  rows (Mozilla.add_title_body H (Mozilla.add_assignee H df))
  = rows (Mozilla.add_assignee H (Mozilla.add_title_body H df)).
Proof.
  rewrite rows_add_title_body, !rows_add_assignee, rows_add_title_body.
  rewrite !map_map. apply map_ext. intros r.
  rewrite !lookup_insert_ne by done.
  rewrite assignee_spec_add_title_body.
  rewrite (insert_insert_ne _ "title" "assignee") by done.
  by rewrite (insert_insert_ne _ "body" "assignee") by done.
Qed.

(** *** Validated frames *)

Lemma forallb_weaken {A} (f g : A -> bool) (l : list A) :
  (forall x, f x = true -> g x = true) ->
  forallb f l = true -> forallb g l = true.
Proof.
  intros Hfg. rewrite !forallb_forall. intros Hf x Hx. by apply Hfg, Hf.
Qed.

Lemma ensure_missing H df c :
  has_column c df = false ->
  Eclipse.ensure_datetime_col H df c
  = ([], inl (KeyError (lit "CSV must contain '" ++ lit c ++ lit "'."))).
Proof. intros Hc. unfold Eclipse.ensure_datetime_col. by rewrite Hc. Qed.

Lemma ensure_fixed H df c :
  has_column c df = true ->
  forallb (stamped c) (rows df) = true ->
  Eclipse.ensure_datetime_col H df c = ([], inr df).
Proof.
  intros Hc Hst. rewrite ensure_datetime_col_eq by done.
  assert (Hdt : is_datetime64_any_dtype (series df c) = true).
  { rewrite is_datetime_series. apply (forallb_weaken (stamped c)); [|done].
    intros r. unfold stamped, nonstr. by destruct (col_get r c). }
  unfold converted. rewrite Hdt. cbn [negb]. do 2 f_equal.
  apply loc_mask_id. rewrite rows_loc_mask_series. apply forallb_filter_id.
  apply (forallb_weaken (stamped c)); [|done].
  intros r. unfold stamped. by destruct (col_get r c).
Qed.

Lemma ensure_rows H df c :
  has_column c df = true ->
  exists df',
    Eclipse.ensure_datetime_col H df c = ([], inr df') /\
    columns df' = columns df /\
    Forall2 (window_row c) (rows df')
      (List.filter (fun rd => notna rd.2)
         (zip (rows df) (to_datetime H (series df c)))) /\
    forallb (stamped c) (rows df') = true.
Proof.
  intros Hc. rewrite ensure_datetime_col_eq by done.
  eexists. split; [reflexivity|]. split; [|split].
  - cbn [columns loc_mask]. by apply columns_converted.
  - rewrite rows_loc_mask_series.
    apply Forall2_filter; [apply rows_converted|].
    intros r' [r d] [Hd _]. cbn in *. by rewrite Hd.
  - rewrite rows_loc_mask_series.
    pose proof (converted_nonstr H df c) as Hn.
    induction (rows (converted H df c)) as [|r l IH]; [done|].
    cbn [forallb] in Hn. apply andb_true_iff in Hn as [Hr Hl].
    cbn [List.filter]. destruct (notna (col_get r c)) eqn:Hna; [|by apply IH].
    cbn [forallb]. rewrite (IH Hl), andb_true_r.
    unfold stamped. by destruct (col_get r c).
Qed.

Lemma filter_window_idem H df start end_ t df' :
  Eclipse.filter_window H df start end_ = (t, inr df') ->
  Eclipse.filter_window H df' start end_ = ([], inr df').
Proof.
  unfold Eclipse.filter_window at 1.
  destruct (has_column "creation_time" df) eqn:Hc.
  2:{ by rewrite ensure_missing. }
  rewrite ensure_datetime_col_eq by done. cbn [bind]. unfold call.
  destruct (pd_Timestamp H (start ++ _)) as [e2|s] eqn:Hs; [done|].
  cbn [bind].
  destruct (pd_Timestamp H (end_ ++ _)) as [e3|e] eqn:He; [done|].
  cbn [bind ret]. intros [= _ <-].
  set (df1 := loc_mask (converted H df "creation_time") _).
  set (g := fun c : cell => cell_ge c s && cell_le c e).
  set (df2 := loc_mask df1 _).
  assert (Hrows : rows df2
                  = List.filter (fun r => g (col_get r "creation_time"))
                      (rows df1))
    by apply (rows_loc_mask_series df1 "creation_time" g).
  assert (Hg : forallb (fun r => g (col_get r "creation_time")) (rows df2)
               = true).
  { rewrite Hrows. apply forallb_filter. }
  unfold Eclipse.filter_window. rewrite (ensure_fixed H df2).
  - cbn [bind]. unfold call. rewrite Hs, He. cbn [bind ret app].
    do 2 f_equal. apply loc_mask_id.
    rewrite rows_loc_mask_series. by apply forallb_filter_id.
  - unfold has_column, df2, df1. cbn [columns loc_mask].
    by rewrite columns_converted.
  - revert Hg. apply forallb_weaken. intros r. unfold g, stamped.
    by destruct (col_get r "creation_time").
Qed.

(** *** The count *)

Lemma take_rows_sub {A} (p : list nat) (l : list A) x :
  x ∈ take_rows p l -> x ∈ l.
Proof.
  unfold take_rows. rewrite list_elem_of_omap. intros (i & _ & Hi).
  by eapply list_elem_of_lookup_2.
Qed.

Section Count.
Context (H : Host) `{!HostLaws H}.
Local Open Scope Z_scope.

Lemma reconcile_outcome args df t r :
  Eclipse.main_reconcile H args df = (t, r) ->
  match r with
  | inr df' =>
      columns df' = columns df /\
      (exists excluded, Permutation (rows df' ++ excluded) (rows df)) /\
      (0 < Eclipse.target_exact args ->
       len df' <= Eclipse.target_exact args) /\
      (0 < Eclipse.target_exact args ->
       Eclipse.allow_below_target args = false ->
       len df' = Eclipse.target_exact args)
  | inl e =>
      Eclipse.target_exact args <> 0 /\
      len df < Eclipse.target_exact args /\
      Eclipse.allow_below_target args = false /\
      t = [] /\
      e = ValueError
            (shortfall_message (len df) (Eclipse.target_exact args))
  end.
Proof.
  unfold Eclipse.main_reconcile.
  set (T := Eclipse.target_exact args).
  pose proof (len_nonneg df) as Hn.
  destruct (Z.eqb_spec T 0) as [Hz|Hnz]; cbn [negb andb].
  { intros [= <- <-]. split; [done|].
    split; [exists []; by rewrite app_nil_r|]. split; try lia. }
  destruct (Z.leb_spec T (len df)) as [Hle|Hlt].
  - unfold print, emit, bind, ret. cbn [app]. intros [= <- <-].
    set (sorted := rows (sort_values H df "creation_time")).
    assert (Hperm : Permutation sorted (rows df)) by apply (sort_values_perm H df).
    assert (Hlen : length sorted = length (rows df)) by by rewrite Hperm.
    unfold head. cbn [columns rows sort_values take_frame].
    change (take_rows _ (rows df)) with sorted.
    split; [done|]. split; [|split].
    + destruct (0 <=? T).
      * exists (drop (Z.to_nat T) sorted). by rewrite take_drop.
      * exists (drop (length sorted - Z.to_nat (- T)) sorted).
        by rewrite take_drop.
    + intros Hpos. destruct (Z.leb_spec 0 T); [|lia].
      unfold len. cbn [rows]. rewrite length_take. lia.
    + intros Hpos _. destruct (Z.leb_spec 0 T); [|lia].
      unfold len in *. cbn [rows]. rewrite length_take, Hlen. lia.
  - destruct (Z.ltb_spec (len df) T) as [_|]; [|lia].
    destruct (Eclipse.allow_below_target args) eqn:Hallow.
    + unfold print, emit, bind, ret. cbn [app]. intros [= <- <-].
      split; [done|]. split; [exists []; by rewrite app_nil_r|].
      split; [lia|done].
    + unfold raise. intros [= <- <-]. done.
Qed.

End Count.

(** *** The sizes of the split *)

Section Sizes.
Local Open Scope Z_scope.

Lemma split_sizes_small n :
  0 <= n ->
  (0 < n -> 0 < n - 4 * n / 5 - n / 10) /\
  (n / 10 = 0 <-> n < 10) /\
  (4 * n / 5 = 0 <-> n < 2).
Proof.
  intros Hn. split; [|split; split]; intros; Z.div_mod_to_equations; lia.
Qed.

Lemma split_sizes_balance n :
  0 <= n ->
  n / 10 <= n - 4 * n / 5 - n / 10 <= n / 10 + 2 /\
  8 * (n / 10) <= 4 * n / 5 <= 8 * (n / 10) + 7.
Proof. intros Hn. Z.div_mod_to_equations. lia. Qed.

End Sizes.

(** *** The test file *)

Lemma eclipse_csv_records H df :
  zip_with (fun t (ba : pystr * pystr) => [Str t; Str ba.1; Str ba.2])
    (map (fun r =>
            Eclipse._coalesce_text H [r !! "summary_update"; r !! "summary"])
         (rows df))
    (zip
       (map (fun r =>
               Eclipse._coalesce_text H
                 [r !! "description_update"; r !! "description"])
            (rows df))
       (if has_column "assignee" df
        then map (fun c => Eclipse._str_or_empty H (Some c))
                 (series df "assignee")
        else map (fun _ => []) (rows df)))
  = map (flat_record H (has_column "assignee" df)) (rows df).
Proof.
  unfold series, flat_record.
  destruct (has_column "assignee" df);
    induction (rows df) as [|r l IH]; try done;
    cbn [map zip zip_with fst snd];
    rewrite IH, !eclipse_coalesce_text, ?eclipse_str_or_empty; done.
Qed.

Lemma eclipse_csv_trace H df path :
  os_makedirs H (dirname H path) = None ->
  os_open_w H path = None ->
  Eclipse.to_title_body_assignee_csv H df path
  = ([ MakeDirs (dirname H path);
       OpenW path "utf-8-sig";
       WriteTo path (lit ("title,body,assignee" ++ String "010" EmptyString));
       WriteTo path
         (df_to_csv H false true ["title"; "body"; "assignee"]
            (map (flat_record H (has_column "assignee" df)) (rows df)));
       Print (lit "Wrote " ++ fmt_int (len df) ++ lit " rows to " ++ path ++
              lit " (unquoted header; QUOTE_ALL data)") ],
     inr tt).
Proof.
  intros Hmk Hop. unfold Eclipse.to_title_body_assignee_csv.
  rewrite eclipse_csv_records.
  unfold makedirs, open_w, write, print, emit. rewrite Hmk, Hop.
  cbn [bind app]. by rewrite length_map.
Qed.

Lemma flat_record_enriched H df r :
  flat_record H true (<["assignee" := Str (assignee_spec H df r)]> r)
  = test_record H df r.
Proof.
  unfold flat_record, test_record.
  by rewrite !lookup_insert_ne, col_get_insert by done.
Qed.

Lemma mozilla_record_enriched H df r :
  map (col_get
         (<["body" := Str (text_spec H
                            (<["assignee" := Str (assignee_spec H df r)]> r
                               !! "description_update")
                            (<["assignee" := Str (assignee_spec H df r)]> r
                               !! "description"))]>
            (<["title" := Str (text_spec H
                                (<["assignee" := Str (assignee_spec H df r)]> r
                                   !! "summary_update")
                                (<["assignee" := Str (assignee_spec H df r)]> r
                                   !! "summary"))]>
               (<["assignee" := Str (assignee_spec H df r)]> r))))
      ["title"; "body"; "assignee"]
  = test_record H df r.
Proof.
  unfold test_record. cbn [map].
  rewrite !lookup_insert_ne by done.
  rewrite col_get_insert.
  rewrite (col_get_insert_ne _ "body" "title"), col_get_insert by done.
  rewrite !(col_get_insert_ne _ _ "assignee"), col_get_insert by done.
  done.
Qed.

Lemma to_csv_slim_missing H df path :
  os_makedirs H (dirname H path) = None ->
  has_column "title" df && has_column "body" df && has_column "assignee" df
  = false ->
  exists msg,
    Mozilla.to_csv_slim H df path
    = ([MakeDirs (dirname H path)], inl (KeyError msg)).
Proof.
  intros Hmk Hc. unfold Mozilla.to_csv_slim, makedirs, emit. rewrite Hmk.
  cbn [find].
  destruct (has_column "title" df); cbn [negb];
    [|by eexists].
  destruct (has_column "body" df); cbn [negb]; [|by eexists].
  destruct (has_column "assignee" df); cbn [negb]; [done|by eexists].
Qed.

Lemma to_csv_slim_trace H df path :
  os_makedirs H (dirname H path) = None ->
  os_open_w H path = None ->
  has_column "title" df && has_column "body" df && has_column "assignee" df
  = true ->
  Mozilla.to_csv_slim H df path
  = ([ MakeDirs (dirname H path);
       OpenW path "utf-8-sig";
       WriteTo path
         (df_to_csv H true false ["title"; "body"; "assignee"]
            (map (fun r => map (col_get r) ["title"; "body"; "assignee"])
                 (rows df)));
       Print (lit "Wrote " ++ fmt_int (len df) ++ lit " rows to " ++ path) ],
     inr tt).
Proof.
  intros Hmk Hop Hc.
  apply andb_true_iff in Hc as [Hc Ha]. apply andb_true_iff in Hc as [Ht Hb].
  unfold Mozilla.to_csv_slim, makedirs, open_w, write, print, emit.
  rewrite Hmk, Hop. cbn [find]. rewrite Ht, Hb, Ha. cbn [negb bind app].
  done.
Qed.

Lemma eclipse_test_records H df p path :
  os_makedirs H (dirname H path) = None ->
  os_open_w H path = None ->
  Eclipse.to_title_body_assignee_csv H
    (take_frame (Eclipse.add_assignee_column H df) p) path
  = ([ MakeDirs (dirname H path);
       OpenW path "utf-8-sig";
       WriteTo path (lit ("title,body,assignee" ++ String "010" EmptyString));
       WriteTo path
         (df_to_csv H false true ["title"; "body"; "assignee"]
            (map (test_record H df) (take_rows p (rows df))));
       Print (lit "Wrote " ++
              fmt_int (Z.of_nat (length (take_rows p (rows df)))) ++
              lit " rows to " ++ path ++
              lit " (unquoted header; QUOTE_ALL data)") ],
     inr tt).
Proof.
  intros Hmk Hop. rewrite eclipse_csv_trace by done.
  unfold has_column at 1. cbn [columns take_frame].
  fold (has_column "assignee" (Eclipse.add_assignee_column H df)).
  rewrite has_column_add_assignee_column. cbn [orb].
  rewrite bool_decide_eq_true_2 by done. cbn [orb].
  unfold len. cbn [rows take_frame].
  rewrite rows_add_assignee_column, take_rows_map, map_map, length_map.
  rewrite (map_ext _ (test_record H df))
    by (intros r; apply flat_record_enriched).
  done.
Qed.

Lemma mozilla_test_records H df p path :
  os_makedirs H (dirname H path) = None ->
  os_open_w H path = None ->
  Mozilla.to_csv_slim H
    (take_frame (Mozilla.add_title_body H (Mozilla.add_assignee H df)) p)
    path
  = ([ MakeDirs (dirname H path);
       OpenW path "utf-8-sig";
       WriteTo path
         (df_to_csv H true false ["title"; "body"; "assignee"]
            (map (test_record H df) (take_rows p (rows df))));
       Print (lit "Wrote " ++
              fmt_int (Z.of_nat (length (take_rows p (rows df)))) ++
              lit " rows to " ++ path) ],
     inr tt).
Proof.
  intros Hmk Hop. rewrite to_csv_slim_trace; try done.
  - unfold len. cbn [rows take_frame].
    rewrite rows_add_title_body, rows_add_assignee, map_map.
    rewrite take_rows_map, map_map, length_map.
    rewrite (map_ext _ (test_record H df))
      by (intros r; apply mozilla_record_enriched).
    done.
  - unfold has_column at 1 2 3. cbn [columns take_frame].
    fold (has_column "title"
            (Mozilla.add_title_body H (Mozilla.add_assignee H df)))
         (has_column "body"
            (Mozilla.add_title_body H (Mozilla.add_assignee H df)))
         (has_column "assignee"
            (Mozilla.add_title_body H (Mozilla.add_assignee H df))).
    rewrite !has_column_add_title_body, mozilla_add_assignee_eq,
      !has_column_add_assignee_column.
    by destruct (has_column "title" df), (has_column "body" df),
      (has_column "assignee" df).
Qed.

(** *** Loops *)


Lemma write_record_fields H path r :
  has_fields r = true ->
  exists line, Mozilla.write_record H path r = ([WriteTo path line], inr tt).
Proof.
  unfold has_fields. intros Hf.
  apply andb_true_iff in Hf as [Hf Ha]. apply andb_true_iff in Hf as [Ht Hb].
  apply bool_decide_eq_true in Ht as [t Ht], Hb as [b Hb], Ha as [a Ha].
  unfold Mozilla.write_record, Mozilla.getitem. rewrite Ht, Hb, Ha.
  by eexists.
Qed.


Lemma for_each_write_record H path good :
  Forall (fun r => has_fields r = true) good ->
  exists lines,
    for_each good (Mozilla.write_record H path)
    = (map (WriteTo path) lines, inr tt) /\
    length lines = length good.
Proof.
  induction 1 as [|r l Hr _ (lines & IH & Hlen)]; [by exists []|].
  destruct (write_record_fields H path r Hr) as [line Hw].
  exists (line :: lines). cbn [for_each]. rewrite Hw, IH.
  split; [done|]. cbn. by rewrite Hlen.
Qed.

Lemma for_each_map_ext {A} (l : list A) (F G : A -> gmap string cell)
    (b1 b2 : gmap string cell -> M unit) :
  (forall r, b1 (F r) = b2 (G r)) ->
  for_each (map F l) b1 = for_each (map G l) b2.
Proof.
  intros Hb. induction l as [|x l IH]; [done|].
  cbn [map for_each]. by rewrite Hb, IH.
Qed.

(** *** The start of a run *)

Lemma main_source_cases H args :
  Eclipse.main_source H args
  = if path_exists H (Eclipse.eclipse_csv args)
    then ([], inr (Eclipse.eclipse_csv args))
    else if path_exists H (lit "eclipse_my.csv")
    then ([Print ([8594%N] ++ lit " " ++ Eclipse.eclipse_csv args ++
                  lit " not found; using " ++ lit "eclipse_my.csv")],
          inr (lit "eclipse_my.csv"))
    else ([], inl (FileNotFoundError
                     (lit "Neither " ++ Eclipse.eclipse_csv args ++
                      lit " nor eclipse_my.csv exists."))).
Proof.
  unfold Eclipse.main_source.
  destruct (path_exists H (Eclipse.eclipse_csv args)); [done|].
  cbn [negb]. by destruct (path_exists H (lit "eclipse_my.csv")).
Qed.

(** *** Inverting a sequence *)

Lemma bind_inr {A B} (m : M A) (k : A -> M B) t b :
  bind m k = (t, inr b) ->
  exists t1 a t2, m = (t1, inr a) /\ k a = (t2, inr b) /\ t = t1 ++ t2.
Proof.
  destruct m as [t1 [e|a]]; cbn [bind]; [done|].
  destruct (k a) as [t2 r] eqn:Hk. intros [= <- ->].
  by exists t1, a, t2.
Qed.

Lemma read_csv_outcome H path encoding :
  Eclipse.read_csv_with_fallback H path encoding
  = match pd_read_csv H path encoding with
    | inr df => ([], inr (df, lit "utf-8"))
    | inl UnicodeDecodeError =>
        ([Print (lit "Warning: could not decode " ++ repr_str H path ++
                 lit " with " ++ encoding ++ lit ", retrying latin-1")],
         match pd_read_csv H path (lit "latin-1") with
         | inr df => inr (df, lit "latin-1")
         | inl e => inl e
         end)
    | inl e => ([], inl e)
    end.
Proof.
  unfold Eclipse.read_csv_with_fallback.
  destruct (pd_read_csv H path encoding) as [[]|df]; try done.
  unfold print, emit, call, bind, ret.
  by destruct (pd_read_csv H path (lit "latin-1")).
Qed.

Lemma read_csv_label H path encoding t df label :
  Eclipse.read_csv_with_fallback H path encoding = (t, inr (df, label)) ->
  (label = lit "utf-8" /\ pd_read_csv H path encoding = inr df) \/
  (label = lit "latin-1" /\
   pd_read_csv H path encoding = inl UnicodeDecodeError /\
   pd_read_csv H path (lit "latin-1") = inr df).
Proof.
  rewrite read_csv_outcome.
  destruct (pd_read_csv H path encoding) as [[]|df0] eqn:H1; try done.
  - destruct (pd_read_csv H path (lit "latin-1")) as [e|df1]; [done|].
    intros [= _ <- <-]. by right.
  - intros [= _ <- <-]. by left.
Qed.

Lemma filter_window_rows H df start end_ t df' :
  Eclipse.filter_window H df start end_ = (t, inr df') ->
  has_column "creation_time" df' = true /\
  exists s e,
    pd_Timestamp H (start ++ lit "T00:00:00Z") = inr s /\
    pd_Timestamp H (end_ ++ lit "T23:59:59Z") = inr e /\
    forall r, r ∈ rows df' ->
      exists ts, col_get r "creation_time" = Stamp ts /\ (s <= ts <= e)%Z.
Proof.
  unfold Eclipse.filter_window.
  destruct (has_column "creation_time" df) eqn:Hc.
  2:{ by rewrite ensure_missing. }
  rewrite ensure_datetime_col_eq by done. cbn [bind]. unfold call.
  destruct (pd_Timestamp H (start ++ _)) as [e2|s] eqn:Hs; [done|].
  cbn [bind].
  destruct (pd_Timestamp H (end_ ++ _)) as [e3|e] eqn:He; [done|].
  cbn [bind ret]. intros [= _ <-]. split.
  { unfold has_column. cbn [columns loc_mask].
    by rewrite columns_converted. }
  exists s, e. split; [done|]. split; [done|].
  intros r Hr. rewrite rows_loc_mask_series in Hr.
  apply list_elem_of_In, filter_In in Hr as [_ Hr].
  destruct (col_get r "creation_time") as [| |ts]; try done.
  exists ts. split; [done|]. cbn in Hr. lia.
Qed.

(** *** A refused seed *)

Lemma eclipse_bad_seed H args g t sel e :
  Eclipse.main_select H args = (t, inr sel) ->
  RandomState H (Eclipse.seed args) = inl e ->
  Eclipse.main H args g = (t, inl e).
Proof.
  intros Hsel Hseed. unfold Eclipse.main. rewrite Hsel. cbn [bind].
  rewrite (main_split_bad_seed H _ e) by done. cbn [bind].
  by rewrite app_nil_r.
Qed.

Lemma mozilla_bad_seed H args g t sel e :
  Mozilla.main_select H args = (t, inr sel) ->
  RandomState H (Mozilla.seed args) = inl e ->
  Mozilla.main H args g = (t, inl e).
Proof.
  intros Hsel Hseed. unfold Mozilla.main. rewrite Hsel. cbn [bind].
  rewrite mozilla_main_split, (main_split_bad_seed H _ e) by done.
  cbn [bind]. by rewrite app_nil_r.
Qed.

(** *** Reading a trace *)

Lemma opened_files_app t t' :
  opened_files (t ++ t') = opened_files t ++ opened_files t'.
Proof. apply omap_app. Qed.

Lemma writes_to_app t t' : writes_to (t ++ t') = writes_to t ++ writes_to t'.
Proof. apply omap_app. Qed.

Lemma printed_app t t' : printed (t ++ t') = printed t ++ printed t'.
Proof. apply omap_app. Qed.

Lemma opened_files_writes {A} p (f : A -> pystr) l :
  opened_files (map (fun r => WriteTo p (f r)) l) = [].
Proof. induction l as [|x l IH]; [done|]. exact IH. Qed.

Lemma printed_writes {A} p (f : A -> pystr) l :
  printed (map (fun r => WriteTo p (f r)) l) = [].
Proof. induction l as [|x l IH]; [done|]. exact IH. Qed.

Lemma writes_to_writes {A} p (f : A -> pystr) l :
  writes_to (map (fun r => WriteTo p (f r)) l) = replicate (length l) p.
Proof.
  induction l as [|x l IH]; [done|]. cbn [map length replicate].
  rewrite <- IH. done.
Qed.

(** The three readings of the trace of a conversation file and of a test
    file. *)
Lemma jsonl_trace_read {A} d p (f : A -> pystr) l line :
  let t := MakeDirs d :: OpenW p "utf-8" ::
           map (fun r => WriteTo p (f r)) l ++ [Print line] in
  opened_files t = [p] /\ writes_to t = replicate (length l) p /\
  printed t = [line].
Proof.
  cbn zeta. split; [|split].
  - change (opened_files (MakeDirs d :: OpenW p "utf-8" :: ?t))
      with (p :: opened_files t).
    by rewrite opened_files_app, opened_files_writes.
  - change (writes_to (MakeDirs d :: OpenW p "utf-8" :: ?t))
      with (writes_to t).
    rewrite writes_to_app, writes_to_writes. apply app_nil_r.
  - change (printed (MakeDirs d :: OpenW p "utf-8" :: ?t))
      with (printed t).
    by rewrite printed_app, printed_writes.
Qed.

(** *** The three files *)

Section Emit.
Context (H : Host).
Local Open Scope Z_scope.

Lemma outputs_ok_paths out :
  outputs_ok H out ->
  os_makedirs H out = None /\
  (os_makedirs H (dirname H (path_join H out (lit "train_all.jsonl"))) = None /\
   os_open_w H (path_join H out (lit "train_all.jsonl")) = None) /\
  (os_makedirs H (dirname H (path_join H out (lit "valid_all.jsonl"))) = None /\
   os_open_w H (path_join H out (lit "valid_all.jsonl")) = None) /\
  (os_makedirs H (dirname H (path_join H out (lit "test_all.csv"))) = None /\
   os_open_w H (path_join H out (lit "test_all.csv")) = None).
Proof.
  intros [Hout Hfiles]. split; [done|].
  rewrite Forall_forall in Hfiles.
  split; [|split]; apply Hfiles; unfold output_files;
    rewrite !elem_of_cons; auto.
Qed.

Lemma eclipse_emit_ok args csv enc n train val test :
  outputs_ok H (Eclipse.out_dir args) ->
  exists t,
    Eclipse.main_emit H args csv enc n train val test = (t, inr tt) /\
    opened_files t = output_files H (Eclipse.out_dir args) /\
    writes_to t
    = replicate (length (rows train))
        (path_join H (Eclipse.out_dir args) (lit "train_all.jsonl")) ++
      replicate (length (rows val))
        (path_join H (Eclipse.out_dir args) (lit "valid_all.jsonl")) ++
      replicate 2 (path_join H (Eclipse.out_dir args) (lit "test_all.csv")) /\
    printed t
    = [ lit "Wrote " ++ fmt_int (len train) ++ lit " examples to " ++
        path_join H (Eclipse.out_dir args) (lit "train_all.jsonl");
        lit "Wrote " ++ fmt_int (len val) ++ lit " examples to " ++
        path_join H (Eclipse.out_dir args) (lit "valid_all.jsonl");
        lit "Wrote " ++ fmt_int (len test) ++ lit " rows to " ++
        path_join H (Eclipse.out_dir args) (lit "test_all.csv") ++
        lit " (unquoted header; QUOTE_ALL data)";
        lit "SUMMARY: total_in_window=" ++ fmt_int n ++
        lit "  train=" ++ fmt_int (len train) ++
        lit "  valid=" ++ fmt_int (len val) ++
        lit "  test=" ++ fmt_int (len test);
        lit "Span: " ++ Eclipse.start args ++ lit " .. " ++
        Eclipse.end_ args ++ lit "  |  Source CSV: " ++ csv ++
        lit " (encoding=" ++ enc ++ lit ")" ].
Proof.
  intros Hok.
  apply outputs_ok_paths in Hok
    as (Hout & [Hd1 Ho1] & [Hd2 Ho2] & [Hd3 Ho3]).
  unfold Eclipse.main_emit.
  rewrite !eclipse_to_jsonl_lines, eclipse_csv_trace by done.
  unfold makedirs, print, emit. rewrite Hout.
  set (p1 := path_join H _ (lit "train_all.jsonl")) in *.
  set (p2 := path_join H _ (lit "valid_all.jsonl")) in *.
  set (p3 := path_join H _ (lit "test_all.csv")) in *.
  cbn [bind].
  eexists. split; [reflexivity|].
  pose proof (jsonl_trace_read (dirname H p1) p1
                (Eclipse.jsonl_line H (SYSTEM_PROMPT H)
                   (USER_PROMPT_TEMPLATE H))
                (rows train)
                (lit "Wrote " ++ fmt_int (len train) ++
                 lit " examples to " ++ p1)) as (Ho & Hw & Hp).
  pose proof (jsonl_trace_read (dirname H p2) p2
                (Eclipse.jsonl_line H (SYSTEM_PROMPT H)
                   (USER_PROMPT_TEMPLATE H))
                (rows val)
                (lit "Wrote " ++ fmt_int (len val) ++
                 lit " examples to " ++ p2)) as (Ho' & Hw' & Hp').
  cbn zeta in *.
  split; [|split].
  - rewrite (opened_files_app [_]), !opened_files_app, Ho, Ho'. done.
  - rewrite (writes_to_app [_]), !writes_to_app, Hw, Hw'. done.
  - rewrite (printed_app [_]), !printed_app, Hp, Hp'. done.
Qed.

Lemma mozilla_to_jsonl_fields df path :
  os_makedirs H (dirname H path) = None ->
  os_open_w H path = None ->
  Forall (fun r => has_fields r = true) (rows df) ->
  exists lines,
    Mozilla.to_jsonl H df path
    = (MakeDirs (dirname H path) :: OpenW path "utf-8" ::
       map (fun l => WriteTo path l) lines ++
       [Print (lit "Wrote " ++ fmt_int (len df) ++ lit " examples to " ++
               path)],
       inr tt) /\
    length lines = length (rows df).
Proof.
  intros Hmk Hop Hf.
  destruct (for_each_write_record H path _ Hf) as (lines & Hfe & Hlen).
  exists lines. split; [|done].
  unfold Mozilla.to_jsonl, makedirs, open_w, print, emit.
  rewrite Hmk, Hop, Hfe. cbn [bind app]. done.
Qed.

Lemma mozilla_emit_ok args enc n train valid test :
  outputs_ok H (Mozilla.out_dir args) ->
  Forall (fun r => has_fields r = true) (rows train) ->
  Forall (fun r => has_fields r = true) (rows valid) ->
  has_column "title" test && has_column "body" test
  && has_column "assignee" test = true ->
  exists t,
    Mozilla.main_emit H args enc n train valid test = (t, inr tt) /\
    opened_files t = output_files H (Mozilla.out_dir args) /\
    writes_to t
    = replicate (length (rows train))
        (path_join H (Mozilla.out_dir args) (lit "train_all.jsonl")) ++
      replicate (length (rows valid))
        (path_join H (Mozilla.out_dir args) (lit "valid_all.jsonl")) ++
      [path_join H (Mozilla.out_dir args) (lit "test_all.csv")] /\
    printed t
    = [ lit "Wrote " ++ fmt_int (len train) ++ lit " examples to " ++
        path_join H (Mozilla.out_dir args) (lit "train_all.jsonl");
        lit "Wrote " ++ fmt_int (len valid) ++ lit " examples to " ++
        path_join H (Mozilla.out_dir args) (lit "valid_all.jsonl");
        lit "Wrote " ++ fmt_int (len test) ++ lit " rows to " ++
        path_join H (Mozilla.out_dir args) (lit "test_all.csv");
        lit "SUMMARY: total_in_span=" ++ fmt_thousands n ++
        lit "  train=" ++ fmt_thousands (len train) ++
        lit "  valid=" ++ fmt_thousands (len valid) ++
        lit "  test=" ++ fmt_thousands (len test);
        lit "Span: " ++ Mozilla.start args ++ lit " .. " ++
        Mozilla.end_ args ++ lit " | Source: " ++ Mozilla.mozilla_csv args ++
        lit " (encoding=" ++ enc ++ lit ")" ].
Proof.
  intros Hok Hf1 Hf2 Hcols.
  apply outputs_ok_paths in Hok
    as (Hout & [Hd1 Ho1] & [Hd2 Ho2] & [Hd3 Ho3]).
  set (p1 := path_join H _ (lit "train_all.jsonl")) in *.
  set (p2 := path_join H _ (lit "valid_all.jsonl")) in *.
  set (p3 := path_join H _ (lit "test_all.csv")) in *.
  destruct (mozilla_to_jsonl_fields train p1 Hd1 Ho1 Hf1)
    as (l1 & Hj1 & Hl1).
  destruct (mozilla_to_jsonl_fields valid p2 Hd2 Ho2 Hf2)
    as (l2 & Hj2 & Hl2).
  unfold Mozilla.main_emit. fold p1 p2 p3.
  rewrite Hj1, Hj2, to_csv_slim_trace by done.
  unfold makedirs, print, emit. rewrite Hout.
  cbn [bind].
  eexists. split; [reflexivity|].
  pose proof (jsonl_trace_read (dirname H p1) p1 (fun l : pystr => l) l1
                (lit "Wrote " ++ fmt_int (len train) ++
                 lit " examples to " ++ p1)) as (Ho & Hw & Hp).
  pose proof (jsonl_trace_read (dirname H p2) p2 (fun l : pystr => l) l2
                (lit "Wrote " ++ fmt_int (len valid) ++
                 lit " examples to " ++ p2)) as (Ho' & Hw' & Hp').
  cbn zeta in *. rewrite Hl1 in Hw. rewrite Hl2 in Hw'.
  split; [|split].
  - rewrite (opened_files_app [_]), !opened_files_app, Ho, Ho'. done.
  - rewrite (writes_to_app [_]), !writes_to_app, Hw, Hw'. done.
  - rewrite (printed_app [_]), !printed_app, Hp, Hp'. done.
Qed.

End Emit.

(** *** A run to its end *)

Lemma has_fields_enriched H df :
  Forall (fun r => has_fields r = true)
    (rows (Mozilla.add_title_body H (Mozilla.add_assignee H df))).
Proof.
  rewrite rows_add_title_body, rows_add_assignee, map_map.
  apply Forall_forall. intros r' Hr'. apply list_elem_of_In, in_map_iff in Hr'
    as (r & <- & _).
  unfold has_fields.
  rewrite (lookup_insert_ne _ "body" "title") by done.
  rewrite !(lookup_insert_ne _ _ "assignee") by done.
  rewrite !lookup_insert_eq. done.
Qed.

Lemma Forall_take_rows {A} (P : A -> Prop) p (l : list A) :
  Forall P l -> Forall P (take_rows p l).
Proof.
  rewrite !Forall_forall. intros Hl x Hx. by apply Hl, (take_rows_sub p).
Qed.

Lemma length_rows_len df : length (rows df) = Z.to_nat (len df).
Proof. unfold len. lia. Qed.

End ExtraFacts.

(* ===================================================================== *)
(** ** Further properties of the two scripts *)
(* ===================================================================== *)

Module Extras.
Import PyStr Frame World Spec Behaviour FrameFacts PyStrFacts.
Import SplitFacts WindowFacts CountFacts FieldFacts RunFacts ExtraFacts.
Local Open Scope Z_scope.

(** *** Text of a record *)

(** X1.  [_coalesce_text] and [coalesce] take any number of candidates.
    When the candidates before [c] are all absent, null or blank after
    trimming, and [c] is not, the result is the trimmed text of [c],
    whatever comes after it. *)
Theorem X1_first_nonblank (H : Host) (pre post : list (option cell))
    (c : option cell) :
  Forall (fun x => strip (Eclipse._str_or_empty H x) = []) pre ->
  strip (Eclipse._str_or_empty H c) <> [] ->
  Eclipse._coalesce_text H (pre ++ c :: post)
  = strip (Eclipse._str_or_empty H c) /\
  Mozilla.coalesce H (pre ++ c :: post)
  = strip (Mozilla._str_or_empty H c).
Proof.
  intros Hpre Hc.
  assert (E : Eclipse._coalesce_text H (pre ++ c :: post)
              = strip (Eclipse._str_or_empty H c)).
  { rewrite coalesce_app. apply coalesce_blank in Hpre. rewrite Hpre.
    cbn [truthy Eclipse._coalesce_text].
    by destruct (strip (Eclipse._str_or_empty H c)). }
  split; [exact E|].
  etrans; [apply mozilla_coalesce_eq|exact E].
Qed.

Lemma X1_witness :
  Eclipse._coalesce_text Toy.host
    ([None; Some NA; Some (Str (lit "  "))] ++
     Some (Str (lit " x ")) :: [Some (Str (lit "y"))])
  = strip (Eclipse._str_or_empty Toy.host (Some (Str (lit " x ")))) /\
  Mozilla.coalesce Toy.host
    ([None; Some NA; Some (Str (lit "  "))] ++
     Some (Str (lit " x ")) :: [Some (Str (lit "y"))])
  = strip (Mozilla._str_or_empty Toy.host (Some (Str (lit " x ")))).
Proof.
  apply (X1_first_nonblank Toy.host).
  - repeat constructor.
  - vm_compute. discriminate.
Defined.

(** X2.  The result of [_coalesce_text] and of [coalesce] is the empty
    string exactly when every candidate is absent, null or blank after
    trimming; an empty list of candidates gives the empty string. *)
Theorem X2_blank_iff (H : Host) (cands : list (option cell)) :
  (Eclipse._coalesce_text H cands = [] <->
   Forall (fun x => strip (Eclipse._str_or_empty H x) = []) cands) /\
  (Mozilla.coalesce H cands = [] <->
   Forall (fun x => strip (Mozilla._str_or_empty H x) = []) cands).
Proof.
  split; [apply coalesce_blank|].
  rewrite (mozilla_coalesce_eq H cands). apply coalesce_blank.
Qed.

(** X3.  What [_coalesce_text] and [coalesce] return is trimmed: trimming
    it again, or running it through the function once more as the only
    candidate, gives it back. *)
Theorem X3_result_trimmed (H : Host) (cands : list (option cell)) :
  strip (Eclipse._coalesce_text H cands) = Eclipse._coalesce_text H cands /\
  Eclipse._coalesce_text H [Some (Str (Eclipse._coalesce_text H cands))]
  = Eclipse._coalesce_text H cands /\
  strip (Mozilla.coalesce H cands) = Mozilla.coalesce H cands /\
  Mozilla.coalesce H [Some (Str (Mozilla.coalesce H cands))]
  = Mozilla.coalesce H cands.
Proof.
  assert (E : Eclipse._coalesce_text H
                [Some (Str (Eclipse._coalesce_text H cands))]
              = Eclipse._coalesce_text H cands).
  { cbn [Eclipse._coalesce_text Eclipse._str_or_empty isna py_str].
    rewrite coalesce_trimmed.
    by destruct (Eclipse._coalesce_text H cands). }
  split; [apply coalesce_trimmed|]. split; [exact E|]. split.
  - rewrite (mozilla_coalesce_eq H cands). apply coalesce_trimmed.
  - rewrite (mozilla_coalesce_eq H cands).
    etrans; [apply mozilla_coalesce_eq|exact E].
Qed.

(** *** The derived columns *)

(** X4.  Deriving the assignee twice is deriving it once.  The column
    [assignee] is appended when the frame has none and replaced in place
    when it has one, so the frame never gets a second column of that
    name; the other columns keep their places. *)
Theorem X4_assignee_idempotent (H : Host) (df : DataFrame) :
  Eclipse.add_assignee_column H (Eclipse.add_assignee_column H df)
  = Eclipse.add_assignee_column H df /\
  Mozilla.add_assignee H (Mozilla.add_assignee H df)
  = Mozilla.add_assignee H df /\
  columns (Eclipse.add_assignee_column H df)
  = (if has_column "assignee" df then columns df
     else columns df ++ ["assignee"]) /\
  columns (Mozilla.add_assignee H df)
  = (if has_column "assignee" df then columns df
     else columns df ++ ["assignee"]).
Proof.
  split; [apply add_assignee_column_idem|]. split; [|split].
  - rewrite (mozilla_add_assignee_eq H df).
    etrans; [apply mozilla_add_assignee_eq|].
    apply add_assignee_column_idem.
  - apply columns_add_assignee_column.
  - rewrite (mozilla_add_assignee_eq H df).
    apply columns_add_assignee_column.
Qed.

(** X5.  [add_title_body] is idempotent, and it is independent of
    [add_assignee]: in either order the rows are the same and the frame
    has the same column labels. *)
Theorem X5_title_body_independent (H : Host) (df : DataFrame) :
  Mozilla.add_title_body H (Mozilla.add_title_body H df)
  = Mozilla.add_title_body H df /\
  rows (Mozilla.add_title_body H (Mozilla.add_assignee H df))
  = rows (Mozilla.add_assignee H (Mozilla.add_title_body H df)) /\
  forall c,
    has_column c (Mozilla.add_title_body H (Mozilla.add_assignee H df))
    = has_column c (Mozilla.add_assignee H (Mozilla.add_title_body H df)).
Proof.
  split; [apply add_title_body_idem|].
  split; [apply title_body_assignee_commute|].
  intros c.
  rewrite (mozilla_add_assignee_eq H df),
    (mozilla_add_assignee_eq H (Mozilla.add_title_body H df)).
  rewrite has_column_add_title_body, !has_column_add_assignee_column,
    has_column_add_title_body.
  by destruct (bool_decide (c = "body")), (bool_decide (c = "title")),
    (bool_decide (c = "assignee")).
Qed.

(** *** The creation time *)

(** X6.  [ensure_datetime_col] raises [KeyError] when the frame has no
    column [c], and nothing else.  Otherwise it returns, printing
    nothing, a frame with the same columns whose rows are, in order, the
    rows whose cell under [c] converts to a timestamp: each with that
    timestamp under [c] and every other cell untouched.  Every row of the
    result holds a timestamp under [c], and the result is a fixed point
    of the function. *)
Theorem X6_ensure_datetime_col (H : Host) (df : DataFrame) (c : string) :
  (has_column c df = false /\
   Eclipse.ensure_datetime_col H df c
   = ([], inl (KeyError (lit "CSV must contain '" ++ lit c ++ lit "'.")))) \/
  (has_column c df = true /\
   exists df',
     Eclipse.ensure_datetime_col H df c = ([], inr df') /\
     columns df' = columns df /\
     Forall2 (window_row c) (rows df')
       (List.filter (fun rd => notna rd.2)
          (zip (rows df) (to_datetime H (series df c)))) /\
     forallb (stamped c) (rows df') = true /\
     Eclipse.ensure_datetime_col H df' c = ([], inr df')).
Proof.
  destruct (has_column c df) eqn:Hc.
  - right. split; [done|].
    destruct (ensure_rows H df c Hc) as (df' & He & Hcols & Hrows & Hst).
    exists df'. repeat (split; [done|]).
    apply ensure_fixed; [|done]. unfold has_column in *. by rewrite Hcols.
  - left. split; [done|]. by apply ensure_missing.
Qed.

(** X7.  [filter_window] is idempotent: filtering its result again with
    the same dates returns the result unchanged, and so does validating
    its creation-time column again. *)
Theorem X7_filter_window_idempotent (H : Host) (df : DataFrame)
    (start end_ : pystr) (t : list event) (df' : DataFrame) :
  Eclipse.filter_window H df start end_ = (t, inr df') ->
  Eclipse.filter_window H df' start end_ = ([], inr df') /\
  Eclipse.ensure_datetime_col H df' "creation_time" = ([], inr df').
Proof.
  intros Hw. split; [by eapply filter_window_idem|].
  destruct (filter_window_rows H _ _ _ _ _ Hw) as (Hc & s & e & _ & _ & Hr).
  apply ensure_fixed; [done|].
  apply forallb_forall. intros r Hin. apply list_elem_of_In in Hin.
  destruct (Hr r Hin) as (ts & Hts & _). unfold stamped. by rewrite Hts.
Qed.

Lemma X7_witness :
  Eclipse.filter_window Toy.host Toy.span_frame
    Eclipse.DEFAULT_START Eclipse.DEFAULT_END = ([], inr Toy.span_frame) /\
  Eclipse.ensure_datetime_col Toy.host Toy.span_frame "creation_time"
  = ([], inr Toy.span_frame).
Proof.
  apply (X7_filter_window_idempotent Toy.host Toy.eclipse_frame
           Eclipse.DEFAULT_START Eclipse.DEFAULT_END []).
  vm_compute. reflexivity.
Defined.

(** *** The count *)

(** X8.  Whatever the target, the reconciling block of the Eclipse
    script makes up no row: when it returns, the frame has the columns it
    came with and its rows, with some excluded rows, are a rearrangement
    of the rows it came with; for a positive target it has at most
    [target] rows, and exactly [target] when [--allow_below_target] is
    not set.  It raises only when the target is not zero, the count is
    below it and [--allow_below_target] is not set; then it has printed
    nothing and the exception is the [ValueError] of the shortfall. *)
Theorem X8_reconcile_outcome (H : Host) `{!HostLaws H}
    (args : Eclipse.Args) (df : DataFrame) :
  (forall t df',
     Eclipse.main_reconcile H args df = (t, inr df') ->
     columns df' = columns df /\
     (exists excluded, Permutation (rows df' ++ excluded) (rows df)) /\
     (0 < Eclipse.target_exact args ->
      len df' <= Eclipse.target_exact args) /\
     (0 < Eclipse.target_exact args ->
      Eclipse.allow_below_target args = false ->
      len df' = Eclipse.target_exact args)) /\
  (forall t e,
     Eclipse.main_reconcile H args df = (t, inl e) ->
     Eclipse.target_exact args <> 0 /\
     len df < Eclipse.target_exact args /\
     Eclipse.allow_below_target args = false /\
     t = [] /\
     e = ValueError
           (shortfall_message (len df) (Eclipse.target_exact args))).
Proof.
  split.
  - intros t df' Hr. exact (reconcile_outcome H args df t (inr df') Hr).
  - intros t e Hr. exact (reconcile_outcome H args df t (inl e) Hr).
Qed.

Lemma X8_witness :
  (forall t df',
     Eclipse.main_reconcile Toy.host Toy.eclipse_args Toy.span_frame
     = (t, inr df') ->
     columns df' = columns Toy.span_frame /\
     (exists excluded,
         Permutation (rows df' ++ excluded) (rows Toy.span_frame)) /\
     (0 < Eclipse.target_exact Toy.eclipse_args ->
      len df' <= Eclipse.target_exact Toy.eclipse_args) /\
     (0 < Eclipse.target_exact Toy.eclipse_args ->
      Eclipse.allow_below_target Toy.eclipse_args = false ->
      len df' = Eclipse.target_exact Toy.eclipse_args)) /\
  (forall t e,
     Eclipse.main_reconcile Toy.host Toy.eclipse_args Toy.span_frame
     = (t, inl e) ->
     Eclipse.target_exact Toy.eclipse_args <> 0 /\
     len Toy.span_frame < Eclipse.target_exact Toy.eclipse_args /\
     Eclipse.allow_below_target Toy.eclipse_args = false /\
     t = [] /\
     e = ValueError
           (shortfall_message (len Toy.span_frame)
              (Eclipse.target_exact Toy.eclipse_args))).
Proof.
  apply (@X8_reconcile_outcome Toy.host ToyFacts.laws Toy.eclipse_args
           Toy.span_frame).
Defined.

(** X9.  A negative target is not refused.  As the count is never below
    it, the frame is sorted by creation time and cut by [head]: all but
    the [-target] newest rows are kept (none when there are no more than
    that), in ascending order, no kept row being newer than an excluded
    one, and the line printed gives the number kept. *)
Theorem X9_negative_target (H : Host) `{!HostLaws H} (args : Eclipse.Args)
    (df : DataFrame) :
  Eclipse.target_exact args < 0 ->
  exists kept excluded,
    Eclipse.main_reconcile H args df
    = ([Print (lit "  In-window rows: " ++ fmt_thousands (len df) ++
               lit " " ++ [8594%N] ++ lit " trimmed to exact " ++
               fmt_thousands
                 (Z.max 0 (len df + Eclipse.target_exact args)))],
       inr (mkDF (columns df) kept)) /\
    Z.of_nat (length kept) = Z.max 0 (len df + Eclipse.target_exact args) /\
    Permutation (kept ++ excluded) (rows df) /\
    Sorted (fun a b => key_le (time_key a) (time_key b)) kept /\
    forall r x, r ∈ kept -> x ∈ excluded ->
      key_le (time_key r) (time_key x).
Proof.
  intros Hneg.
  set (T := Eclipse.target_exact args) in *.
  set (sorted := rows (sort_values H df "creation_time")).
  assert (Hperm : Permutation sorted (rows df)) by apply (sort_values_perm H df).
  assert (Hlen : length sorted = length (rows df)) by by rewrite Hperm.
  pose proof (len_nonneg df) as Hn.
  set (k := (length sorted - Z.to_nat (- T))%nat).
  exists (take k sorted), (drop k sorted).
  assert (Hk : Z.of_nat (length (take k sorted)) = Z.max 0 (len df + T)).
  { rewrite length_take. unfold k, len in *. rewrite Hlen. lia. }
  split.
  { unfold Eclipse.main_reconcile. fold T.
    destruct (Z.eqb_spec T 0) as [|_]; [lia|].
    destruct (Z.leb_spec T (len df)) as [_|]; [|lia].
    cbn [negb andb]. unfold head. cbn [columns rows sort_values take_frame].
    destruct (Z.leb_spec 0 T) as [|_]; [lia|].
    unfold print, emit, bind, ret. cbn [app].
    change (take_rows _ (rows df)) with sorted. fold k.
    unfold len at 2. cbn [rows]. by rewrite Hk. }
  split; [done|].
  split; [by rewrite take_drop|].
  split; [apply sorted_take, (sort_values_sorted H df)|].
  intros r x Hr Hx.
  apply (sorted_take_drop
           (fun a b => key_le (time_key a) (time_key b)) sorted k);
    try done.
  - intros a b c. apply key_le_trans.
  - apply (sort_values_sorted H df).
Qed.

Lemma X9_witness :
  exists kept excluded,
    Eclipse.main_reconcile Toy.host Inputs.eclipse_args_negative
      Toy.span_frame
    = ([Print (lit "  In-window rows: " ++
               fmt_thousands (len Toy.span_frame) ++
               lit " " ++ [8594%N] ++ lit " trimmed to exact " ++
               fmt_thousands
                 (Z.max 0 (len Toy.span_frame +
                           Eclipse.target_exact
                             Inputs.eclipse_args_negative)))],
       inr (mkDF (columns Toy.span_frame) kept)) /\
    Z.of_nat (length kept)
    = Z.max 0 (len Toy.span_frame +
               Eclipse.target_exact Inputs.eclipse_args_negative) /\
    Permutation (kept ++ excluded) (rows Toy.span_frame) /\
    Sorted (fun a b => key_le (time_key a) (time_key b)) kept /\
    forall r x, r ∈ kept -> x ∈ excluded ->
      key_le (time_key r) (time_key x).
Proof.
  apply (@X9_negative_target Toy.host ToyFacts.laws
           Inputs.eclipse_args_negative Toy.span_frame).
  reflexivity.
Defined.

(** *** The split *)

(** X10.  The sizes of the three parts at the edges, for a seed the
    generator accepts and fewer than [2^49] rows.  The test part is not
    empty unless the frame is; the validation part is empty exactly for
    fewer than 10 rows and the training part exactly for fewer than 2.
    The test part has as many rows as the validation part or up to two
    more, and the training part eight times as many as the validation
    part or up to seven more. *)
Theorem X10_split_sizes (H : Host) `{!HostLaws H} (seed : Z) (st : rng H)
    (g : rng H) (df : DataFrame) :
  RandomState H seed = inr st ->
  len df < 2 ^ 49 ->
  exists train valid test,
    Eclipse.main_split H seed g df = ([], inr (train, valid, test)) /\
    Mozilla.main_split H seed g df = ([], inr (train, valid, test)) /\
    (0 < len df -> 0 < len test) /\
    (len valid = 0 <-> len df < 10) /\
    (len train = 0 <-> len df < 2) /\
    len valid <= len test <= len valid + 2 /\
    8 * len valid <= len train <= 8 * len valid + 7.
Proof.
  intros Hseed Hlen.
  destruct (main_split_partition H seed st g df Hseed Hlen)
    as ([[train valid] test] & Hsplit & Hpart).
  exists train, valid, test.
  split; [done|]. split; [by rewrite mozilla_main_split|].
  destruct Hpart as (p & p1 & p2 & p3 & _ & _ & _ & _ & _ & _ & _ & _ & _ &
                     L1 & L2 & L3 & _).
  cbn [fst snd] in L1, L2, L3. rewrite L1, L2, L3.
  pose proof (len_nonneg df) as Hn.
  destruct (split_sizes_small (len df) Hn) as (S1 & S2 & S3).
  destruct (split_sizes_balance (len df) Hn) as (B1 & B2).
  done.
Qed.

Lemma X10_witness :
  exists train valid test,
    Eclipse.main_split Toy.host 3407 0 Toy.span_frame
    = ([], inr (train, valid, test)) /\
    Mozilla.main_split Toy.host 3407 0 Toy.span_frame
    = ([], inr (train, valid, test)) /\
    (0 < len Toy.span_frame -> 0 < len test) /\
    (len valid = 0 <-> len Toy.span_frame < 10) /\
    (len train = 0 <-> len Toy.span_frame < 2) /\
    len valid <= len test <= len valid + 2 /\
    8 * len valid <= len train <= 8 * len valid + 7.
Proof.
  apply (@X10_split_sizes Toy.host ToyFacts.laws 3407 3407 0 Toy.span_frame).
  - reflexivity.
  - vm_compute. reflexivity.
Defined.

(** *** The files *)

(** X11.  [to_title_body_assignee_csv] on any frame, when the directory
    can be made and the file opened: the directory is made before the
    file is opened, the header line is written once and unquoted, then
    one record for every row, in order and fully quoted.  The three
    fields of a record are texts, never null; the assignee is the empty
    string when the frame has no such column.  The count printed is the
    number of rows. *)
Theorem X11_eclipse_test_file (H : Host) (df : DataFrame) (path : pystr) :
  os_makedirs H (dirname H path) = None ->
  os_open_w H path = None ->
  Eclipse.to_title_body_assignee_csv H df path
  = ([ MakeDirs (dirname H path);
       OpenW path "utf-8-sig";
       WriteTo path (lit ("title,body,assignee" ++ String "010" EmptyString));
       WriteTo path
         (df_to_csv H false true ["title"; "body"; "assignee"]
            (map (flat_record H (has_column "assignee" df)) (rows df)));
       Print (lit "Wrote " ++ fmt_int (len df) ++ lit " rows to " ++ path ++
              lit " (unquoted header; QUOTE_ALL data)") ],
     inr tt).
Proof. apply eclipse_csv_trace. Qed.

Lemma X11_witness :
  Eclipse.to_title_body_assignee_csv Toy.host Toy.span_frame
    (lit "out/test_all.csv")
  = ([ MakeDirs (dirname Toy.host (lit "out/test_all.csv"));
       OpenW (lit "out/test_all.csv") "utf-8-sig";
       WriteTo (lit "out/test_all.csv")
         (lit ("title,body,assignee" ++ String "010" EmptyString));
       WriteTo (lit "out/test_all.csv")
         (df_to_csv Toy.host false true ["title"; "body"; "assignee"]
            (map (flat_record Toy.host
                    (has_column "assignee" Toy.span_frame))
                 (rows Toy.span_frame)));
       Print (lit "Wrote " ++ fmt_int (len Toy.span_frame) ++
              lit " rows to " ++ lit "out/test_all.csv" ++
              lit " (unquoted header; QUOTE_ALL data)") ],
     inr tt).
Proof.
  apply (X11_eclipse_test_file Toy.host Toy.span_frame
           (lit "out/test_all.csv")); reflexivity.
Defined.

(** X12.  The test files of the two scripts hold the same records.  For
    the rows at any positions [p] of the enriched frame (as the split
    takes them), both writers serialise, row by row, the trimmed title,
    the trimmed body and the assignee of the in-window row; they differ
    only in the header and the quoting. *)
Theorem X12_same_test_records (H : Host) (df : DataFrame) (p : list nat)
    (path : pystr) :
  os_makedirs H (dirname H path) = None ->
  os_open_w H path = None ->
  Eclipse.to_title_body_assignee_csv H
    (take_frame (Eclipse.add_assignee_column H df) p) path
  = ([ MakeDirs (dirname H path);
       OpenW path "utf-8-sig";
       WriteTo path (lit ("title,body,assignee" ++ String "010" EmptyString));
       WriteTo path
         (df_to_csv H false true ["title"; "body"; "assignee"]
            (map (test_record H df) (take_rows p (rows df))));
       Print (lit "Wrote " ++
              fmt_int (Z.of_nat (length (take_rows p (rows df)))) ++
              lit " rows to " ++ path ++
              lit " (unquoted header; QUOTE_ALL data)") ],
     inr tt) /\
  Mozilla.to_csv_slim H
    (take_frame (Mozilla.add_title_body H (Mozilla.add_assignee H df)) p)
    path
  = ([ MakeDirs (dirname H path);
       OpenW path "utf-8-sig";
       WriteTo path
         (df_to_csv H true false ["title"; "body"; "assignee"]
            (map (test_record H df) (take_rows p (rows df))));
       Print (lit "Wrote " ++
              fmt_int (Z.of_nat (length (take_rows p (rows df)))) ++
              lit " rows to " ++ path) ],
     inr tt).
Proof.
  intros Hmk Hop. split.
  - by apply eclipse_test_records.
  - by apply mozilla_test_records.
Qed.

Lemma X12_witness :
  let H := Toy.host in
  let df := Toy.span_frame in
  let p := [3; 0]%nat in
  let path := lit "out/test_all.csv" in
  Eclipse.to_title_body_assignee_csv H
    (take_frame (Eclipse.add_assignee_column H df) p) path
  = ([ MakeDirs (dirname H path);
       OpenW path "utf-8-sig";
       WriteTo path (lit ("title,body,assignee" ++ String "010" EmptyString));
       WriteTo path
         (df_to_csv H false true ["title"; "body"; "assignee"]
            (map (test_record H df) (take_rows p (rows df))));
       Print (lit "Wrote " ++
              fmt_int (Z.of_nat (length (take_rows p (rows df)))) ++
              lit " rows to " ++ path ++
              lit " (unquoted header; QUOTE_ALL data)") ],
     inr tt) /\
  Mozilla.to_csv_slim H
    (take_frame (Mozilla.add_title_body H (Mozilla.add_assignee H df)) p)
    path
  = ([ MakeDirs (dirname H path);
       OpenW path "utf-8-sig";
       WriteTo path
         (df_to_csv H true false ["title"; "body"; "assignee"]
            (map (test_record H df) (take_rows p (rows df))));
       Print (lit "Wrote " ++
              fmt_int (Z.of_nat (length (take_rows p (rows df)))) ++
              lit " rows to " ++ path) ],
     inr tt).
Proof.
  cbv zeta.
  apply (X12_same_test_records Toy.host Toy.span_frame [3; 0]%nat
           (lit "out/test_all.csv")); reflexivity.
Defined.

(** X13.  The conversation files of the two scripts are the same.  On
    the rows at any positions [p] of its enriched frame, [to_jsonl] of
    the Eclipse script, which derives title and body as it writes, does
    what [to_jsonl] of the Mozilla script does on the frame with the
    derived columns: the same events, the same lines, the same outcome,
    also when the directory cannot be made or the file not opened. *)
Theorem X13_same_conversation_files (H : Host) (df : DataFrame)
    (p : list nat) (path : pystr) :
  Eclipse.to_jsonl H (take_frame (Eclipse.add_assignee_column H df) p) path
    (SYSTEM_PROMPT H) (USER_PROMPT_TEMPLATE H)
  = Mozilla.to_jsonl H
      (take_frame (Mozilla.add_title_body H (Mozilla.add_assignee H df)) p)
      path.
Proof.
  unfold Eclipse.to_jsonl, Mozilla.to_jsonl, len.
  cbn [rows take_frame].
  rewrite rows_add_assignee_column, rows_add_title_body, rows_add_assignee.
  rewrite map_map, !take_rows_map, !length_map.
  erewrite for_each_map_ext; [reflexivity|].
  intros r. cbv beta. rewrite eclipse_jsonl_line.
  rewrite !lookup_insert_ne by done. rewrite lookup_insert_eq.
  cbn [field_text]. symmetry. apply mozilla_write_record.
  - rewrite lookup_insert_ne by done. apply lookup_insert_eq.
  - apply lookup_insert_eq.
  - rewrite !lookup_insert_ne by done. apply lookup_insert_eq.
Qed.

(** X14.  [to_csv_slim] on a frame that lacks one of the columns [title],
    [body] and [assignee] raises [KeyError] once the directory is made
    and before the file is opened: no file is created or truncated. *)
Theorem X14_csv_slim_missing_column (H : Host) (df : DataFrame)
    (path : pystr) :
  os_makedirs H (dirname H path) = None ->
  has_column "title" df && has_column "body" df && has_column "assignee" df
  = false ->
  exists msg,
    Mozilla.to_csv_slim H df path
    = ([MakeDirs (dirname H path)], inl (KeyError msg)) /\
    opened_files [MakeDirs (dirname H path)] = [].
Proof.
  intros Hmk Hc. destruct (to_csv_slim_missing H df path Hmk Hc) as [msg E].
  by exists msg.
Qed.

Lemma X14_witness :
  exists msg,
    Mozilla.to_csv_slim Toy.host Toy.span_frame (lit "out/test_all.csv")
    = ([MakeDirs (dirname Toy.host (lit "out/test_all.csv"))],
       inl (KeyError msg)) /\
    opened_files [MakeDirs (dirname Toy.host (lit "out/test_all.csv"))] = [].
Proof.
  apply (X14_csv_slim_missing_column Toy.host Toy.span_frame
           (lit "out/test_all.csv")); reflexivity.
Defined.



(** *** A run *)

(** X16.  The Eclipse script with a seed the generator refuses: the run
    ends with the generator's exception after the selection, and nothing
    has touched the file system. *)
Theorem X16_eclipse_bad_seed (H : Host) (args : Eclipse.Args) (g : rng H)
    (t : list event) (sel : pystr * pystr * DataFrame) (e : exn) :
  Eclipse.main_select H args = (t, inr sel) ->
  RandomState H (Eclipse.seed args) = inl e ->
  Eclipse.main H args g = (t, inl e) /\ fs_events t = [].
Proof.
  intros Hsel Hseed. split; [by eapply eclipse_bad_seed|].
  pose proof (prints_only_eclipse_select H args) as Hp.
  unfold prints_only in Hp. by rewrite Hsel in Hp.
Qed.

Lemma X16_witness :
  Eclipse.main Toy.host Inputs.eclipse_args_bad_seed 0
  = ((Eclipse.main_select Toy.host Inputs.eclipse_args_bad_seed).1,
     inl (ValueError (lit "Seed must be between 0 and 2**32 - 1"))) /\
  fs_events (Eclipse.main_select Toy.host Inputs.eclipse_args_bad_seed).1
  = [].
Proof.
  apply (X16_eclipse_bad_seed Toy.host Inputs.eclipse_args_bad_seed 0
           (Eclipse.main_select Toy.host Inputs.eclipse_args_bad_seed).1
           (lit "eclipse_my.csv", lit "utf-8",
            match
              (Eclipse.main_select Toy.host Inputs.eclipse_args_bad_seed).2
            with inr s => s.2 | inl _ => mkDF [] [] end)).
  - vm_compute. reflexivity.
  - reflexivity.
Defined.

(** X17.  The same for the Mozilla script. *)
Theorem X17_mozilla_bad_seed (H : Host) (args : Mozilla.Args) (g : rng H)
    (t : list event) (sel : pystr * DataFrame) (e : exn) :
  Mozilla.main_select H args = (t, inr sel) ->
  RandomState H (Mozilla.seed args) = inl e ->
  Mozilla.main H args g = (t, inl e) /\ fs_events t = [].
Proof.
  intros Hsel Hseed. split; [by eapply mozilla_bad_seed|].
  pose proof (prints_only_mozilla_select H args) as Hp.
  unfold prints_only in Hp. by rewrite Hsel in Hp.
Qed.

Lemma X17_witness :
  Mozilla.main Toy.host Inputs.mozilla_args_bad_seed 0
  = ((Mozilla.main_select Toy.host Inputs.mozilla_args_bad_seed).1,
     inl (ValueError (lit "Seed must be between 0 and 2**32 - 1"))) /\
  fs_events (Mozilla.main_select Toy.host Inputs.mozilla_args_bad_seed).1
  = [].
Proof.
  apply (X17_mozilla_bad_seed Toy.host Inputs.mozilla_args_bad_seed 0
           (Mozilla.main_select Toy.host Inputs.mozilla_args_bad_seed).1
           (lit "utf-8",
            match
              (Mozilla.main_select Toy.host Inputs.mozilla_args_bad_seed).2
            with inr s => s.2 | inl _ => mkDF [] [] end)).
  - vm_compute. reflexivity.
  - reflexivity.
Defined.

(** X18.  [read_csv_with_fallback] reads a second time exactly when the
    first read raises [UnicodeDecodeError]: it then prints one warning
    and its outcome is that of the read in latin-1, an exception of that
    read passing through.  Otherwise it prints nothing and its outcome is
    that of the first read, any other exception passing through as it
    is.  The two scripts agree. *)
Theorem X18_fallback_outcome (H : Host) (path encoding : pystr) :
  (pd_read_csv H path encoding <> inl UnicodeDecodeError ->
   Eclipse.read_csv_with_fallback H path encoding
   = ([], match pd_read_csv H path encoding with
          | inr df => inr (df, lit "utf-8")
          | inl e => inl e
          end)) /\
  (pd_read_csv H path encoding = inl UnicodeDecodeError ->
   Eclipse.read_csv_with_fallback H path encoding
   = ([Print (lit "Warning: could not decode " ++ repr_str H path ++
              lit " with " ++ encoding ++ lit ", retrying latin-1")],
      match pd_read_csv H path (lit "latin-1") with
      | inr df => inr (df, lit "latin-1")
      | inl e => inl e
      end)) /\
  Mozilla.read_csv_with_fallback H path encoding
  = Eclipse.read_csv_with_fallback H path encoding.
Proof.
  split; [|split].
  - intros Hne. rewrite read_csv_outcome.
    by destruct (pd_read_csv H path encoding) as [[]|df].
  - intros He. rewrite read_csv_outcome. by rewrite He.
  - apply mozilla_read_csv_with_fallback.
Qed.

(** X19.  The source of the Eclipse script.  A path it returns exists:
    it is the path given, with nothing printed, or, when that does not
    exist, [eclipse_my.csv], with one line that says so.  It raises
    exactly when neither exists, with [FileNotFoundError] and nothing
    printed. *)
Theorem X19_source_fallback (H : Host) (args : Eclipse.Args) :
  (forall t p,
     Eclipse.main_source H args = (t, inr p) ->
     path_exists H p = true /\
     ((p = Eclipse.eclipse_csv args /\ t = []) \/
      (p = lit "eclipse_my.csv" /\
       path_exists H (Eclipse.eclipse_csv args) = false /\
       t = [Print ([8594%N] ++ lit " " ++ Eclipse.eclipse_csv args ++
                   lit " not found; using " ++ lit "eclipse_my.csv")]))) /\
  (forall t e,
     Eclipse.main_source H args = (t, inl e) <->
     path_exists H (Eclipse.eclipse_csv args) = false /\
     path_exists H (lit "eclipse_my.csv") = false /\
     t = [] /\
     e = FileNotFoundError
           (lit "Neither " ++ Eclipse.eclipse_csv args ++
            lit " nor eclipse_my.csv exists.")).
Proof.
  rewrite main_source_cases.
  destruct (path_exists H (Eclipse.eclipse_csv args)) eqn:H1;
    [|destruct (path_exists H (lit "eclipse_my.csv")) eqn:H2].
  - split.
    + intros t p [= <- <-]. split; [done|]. by left.
    + intros t e. split; [done|]. by intros (? & _).
  - split.
    + intros t p [= <- <-]. split; [done|]. by right.
    + intros t e. split; [done|]. by intros (_ & ? & _).
  - split.
    + by intros t p.
    + intros t e. split.
      * by intros [= <- <-].
      * by intros (_ & _ & -> & ->).
Qed.

(** X20.  What the Eclipse script hands on to the split.  Whenever the
    first part of [main] returns: the source path exists and is the one
    given or [eclipse_my.csv]; the encoding label is [utf-8] or
    [latin-1]; the frame has a creation-time column and every row holds
    a timestamp there, within the window of the two dates; for a
    positive target the frame has at most [target] rows, exactly
    [target] unless [--allow_below_target] is set; and nothing has
    touched the file system. *)
Theorem X20_eclipse_selection (H : Host) `{!HostLaws H}
    (args : Eclipse.Args) (t : list event) (csv enc : pystr)
    (df : DataFrame) :
  Eclipse.main_select H args = (t, inr (csv, enc, df)) ->
  path_exists H csv = true /\
  (csv = Eclipse.eclipse_csv args \/ csv = lit "eclipse_my.csv") /\
  (enc = lit "utf-8" \/ enc = lit "latin-1") /\
  has_column "creation_time" df = true /\
  (exists s e,
      pd_Timestamp H (Eclipse.start args ++ lit "T00:00:00Z") = inr s /\
      pd_Timestamp H (Eclipse.end_ args ++ lit "T23:59:59Z") = inr e /\
      forall r, r ∈ rows df ->
        exists ts, col_get r "creation_time" = Stamp ts /\ s <= ts <= e) /\
  (0 < Eclipse.target_exact args -> len df <= Eclipse.target_exact args) /\
  (0 < Eclipse.target_exact args ->
   Eclipse.allow_below_target args = false ->
   len df = Eclipse.target_exact args) /\
  fs_events t = [].
Proof.
  intros Hsel.
  assert (Hfs : fs_events t = []).
  { pose proof (prints_only_eclipse_select H args) as Hp.
    unfold prints_only in Hp. by rewrite Hsel in Hp. }
  unfold Eclipse.main_select in Hsel.
  apply bind_inr in Hsel as (t1 & csv_path & t1' & Hsrc & Hsel & _).
  apply bind_inr in Hsel as (t2 & [] & t2' & _ & Hsel & _).
  apply bind_inr in Hsel as (t3 & [raw enc0] & t3' & Hread & Hsel & _).
  cbn [fst snd] in Hsel.
  apply bind_inr in Hsel as (t4 & df1 & t4' & Hens & Hsel & _).
  apply bind_inr in Hsel as (t5 & df2 & t5' & Hwin & Hsel & _).
  apply bind_inr in Hsel as (t6 & df3 & t6' & Hrec & Hsel & _).
  injection Hsel as _ -> -> ->.
  assert (Hcsv : path_exists H csv = true /\
                 (csv = Eclipse.eclipse_csv args \/ csv = lit "eclipse_my.csv")).
  { rewrite main_source_cases in Hsrc.
    destruct (path_exists H (Eclipse.eclipse_csv args)) eqn:H1.
    - injection Hsrc as _ <-. split; [done|by left].
    - destruct (path_exists H (lit "eclipse_my.csv")) eqn:H2; [|done].
      injection Hsrc as _ <-. split; [done|by right]. }
  destruct Hcsv as [Hex Hcsv].
  split; [done|]. split; [done|]. split.
  { apply read_csv_label in Hread as [[-> _]|[-> _]]; [by left|by right]. }
  apply filter_window_rows in Hwin as (Hc2 & s & e & Hs & He & Hrows).
  pose proof (reconcile_outcome H args df2 t6 (inr df) Hrec)
    as (Hcols & [excluded Hperm] & Hle & Heq).
  split.
  { unfold has_column in *. by rewrite Hcols. }
  split; [|done].
  exists s, e. split; [done|]. split; [done|].
  intros r Hr. apply Hrows. rewrite <- Hperm. apply elem_of_app. by left.
Qed.

Lemma X20_witness :
  let H := Toy.host in
  let args := Toy.eclipse_args in
  let t := Inputs.eclipse_selected.1 in
  let csv := Inputs.eclipse_selected.2.1.1 in
  let enc := Inputs.eclipse_selected.2.1.2 in
  let df := Inputs.eclipse_selected.2.2 in
  path_exists H csv = true /\
  (csv = Eclipse.eclipse_csv args \/ csv = lit "eclipse_my.csv") /\
  (enc = lit "utf-8" \/ enc = lit "latin-1") /\
  has_column "creation_time" df = true /\
  (exists s e,
      pd_Timestamp H (Eclipse.start args ++ lit "T00:00:00Z") = inr s /\
      pd_Timestamp H (Eclipse.end_ args ++ lit "T23:59:59Z") = inr e /\
      forall r, r ∈ rows df ->
        exists ts, col_get r "creation_time" = Stamp ts /\ s <= ts <= e) /\
  (0 < Eclipse.target_exact args -> len df <= Eclipse.target_exact args) /\
  (0 < Eclipse.target_exact args ->
   Eclipse.allow_below_target args = false ->
   len df = Eclipse.target_exact args) /\
  fs_events t = [].
Proof.
  cbv zeta.
  apply (@X20_eclipse_selection Toy.host ToyFacts.laws Toy.eclipse_args
           Inputs.eclipse_selected.1 Inputs.eclipse_selected.2.1.1
           Inputs.eclipse_selected.2.1.2 Inputs.eclipse_selected.2.2).
  vm_compute. reflexivity.
Defined.

(** X21.  What the Mozilla script hands on to the split.  Whenever the
    first part of [main] returns: the source exists; the encoding label
    is [utf-8] or [latin-1]; the frame has the columns of the table read
    and its rows are, in order and untouched, the rows of that table
    whose creation time converts to a timestamp in the span; when the
    expected count is not zero and [--no_strict_count] is not set the
    frame has exactly that many rows; and nothing has touched the file
    system. *)
Theorem X21_mozilla_selection (H : Host) `{!HostLaws H}
    (args : Mozilla.Args) (t : list event) (enc : pystr) (df : DataFrame) :
  Mozilla.main_select H args = (t, inr (enc, df)) ->
  path_exists H (Mozilla.mozilla_csv args) = true /\
  (enc = lit "utf-8" \/ enc = lit "latin-1") /\
  (exists raw s e,
      (pd_read_csv H (Mozilla.mozilla_csv args) (Mozilla.encoding args)
       = inr raw \/
       pd_read_csv H (Mozilla.mozilla_csv args) (lit "latin-1") = inr raw) /\
      has_column "creation_time" raw = true /\
      pd_Timestamp H (Mozilla.start args ++ lit "T00:00:00Z") = inr s /\
      pd_Timestamp H (Mozilla.end_ args ++ lit "T23:59:59Z") = inr e /\
      columns df = columns raw /\
      rows df = map fst (window_spec H s e raw)) /\
  (Mozilla.expect_count args <> 0 ->
   Mozilla.no_strict_count args = false ->
   len df = Mozilla.expect_count args) /\
  fs_events t = [].
Proof.
  intros Hsel.
  assert (Hfs : fs_events t = []).
  { pose proof (prints_only_mozilla_select H args) as Hp.
    unfold prints_only in Hp. by rewrite Hsel in Hp. }
  unfold Mozilla.main_select in Hsel.
  apply bind_inr in Hsel as (t1 & [] & t1' & Hsrc & Hsel & _).
  apply bind_inr in Hsel as (t2 & [] & t2' & _ & Hsel & _).
  apply bind_inr in Hsel as (t3 & [raw enc0] & t3' & Hread & Hsel & _).
  cbn [fst snd] in Hsel.
  apply bind_inr in Hsel as (t4 & df1 & t4' & Hwin & Hsel & _).
  apply bind_inr in Hsel as (t5 & df2 & t5' & Hrec & Hsel & _).
  injection Hsel as _ -> ->.
  split.
  { by destruct (path_exists H (Mozilla.mozilla_csv args)). }
  rewrite mozilla_read_csv_with_fallback in Hread.
  apply read_csv_label in Hread.
  split.
  { destruct Hread as [[-> _]|[-> _]]; [by left|by right]. }
  assert (Hraw : pd_read_csv H (Mozilla.mozilla_csv args)
                   (Mozilla.encoding args) = inr raw \/
                 pd_read_csv H (Mozilla.mozilla_csv args) (lit "latin-1")
                 = inr raw).
  { destruct Hread as [[_ ?]|[_ [_ ?]]]; [by left|by right]. }
  rewrite mozilla_reconcile_cases in Hrec.
  destruct (has_column "creation_time" raw) eqn:Hc.
  2:{ unfold Mozilla.main_window in Hwin. by rewrite Hc in Hwin. }
  destruct (pd_Timestamp H (Mozilla.start args ++ lit "T00:00:00Z"))
    as [e1|s] eqn:Hs.
  { unfold Mozilla.main_window in Hwin. rewrite Hc in Hwin.
    cbn [negb] in Hwin. unfold call in Hwin. by rewrite Hs in Hwin. }
  destruct (pd_Timestamp H (Mozilla.end_ args ++ lit "T23:59:59Z"))
    as [e2|e] eqn:He.
  { unfold Mozilla.main_window in Hwin. rewrite Hc in Hwin.
    cbn [negb] in Hwin. unfold call in Hwin. rewrite Hs in Hwin.
    cbn [bind] in Hwin. by rewrite He in Hwin. }
  destruct (main_window_spec H args raw s e Hc Hs He)
    as (df' & Hw & Hcols & Hrows).
  rewrite Hw in Hwin. injection Hwin as _ <-.
  assert (Hdf : df = df' /\
                (Mozilla.expect_count args <> 0 ->
                 Mozilla.no_strict_count args = false ->
                 len df = Mozilla.expect_count args)).
  { destruct (Z.eqb_spec (Mozilla.expect_count args) 0) as [Hz|Hnz];
      cbn [orb] in Hrec.
    { injection Hrec as _ <-. split; [done|]. intros; lia. }
    destruct (Z.eqb_spec (len df') (Mozilla.expect_count args)) as [Hl|Hl].
    { injection Hrec as _ <-. split; [done|]. by intros. }
    destruct (Mozilla.no_strict_count args); [|done].
    injection Hrec as _ <-. split; [done|]. by intros. }
  destruct Hdf as [-> Hcount].
  split; [|done]. by exists raw, s, e.
Qed.

Lemma X21_witness :
  let H := Toy.host in
  let args := Toy.mozilla_args in
  let t := Inputs.mozilla_selected.1 in
  let enc := Inputs.mozilla_selected.2.1 in
  let df := Inputs.mozilla_selected.2.2 in
  path_exists H (Mozilla.mozilla_csv args) = true /\
  (enc = lit "utf-8" \/ enc = lit "latin-1") /\
  (exists raw s e,
      (pd_read_csv H (Mozilla.mozilla_csv args) (Mozilla.encoding args)
       = inr raw \/
       pd_read_csv H (Mozilla.mozilla_csv args) (lit "latin-1") = inr raw) /\
      has_column "creation_time" raw = true /\
      pd_Timestamp H (Mozilla.start args ++ lit "T00:00:00Z") = inr s /\
      pd_Timestamp H (Mozilla.end_ args ++ lit "T23:59:59Z") = inr e /\
      columns df = columns raw /\
      rows df = map fst (window_spec H s e raw)) /\
  (Mozilla.expect_count args <> 0 ->
   Mozilla.no_strict_count args = false ->
   len df = Mozilla.expect_count args) /\
  fs_events t = [].
Proof.
  cbv zeta.
  apply (@X21_mozilla_selection Toy.host ToyFacts.laws Toy.mozilla_args
           Inputs.mozilla_selected.1 Inputs.mozilla_selected.2.1
           Inputs.mozilla_selected.2.2).
  vm_compute. reflexivity.
Defined.

(** X22.  A run of the Eclipse script comes to its end.  When the first
    part of [main] returns a frame of [n < 2^49] rows, the generator
    accepts the seed, and the output directory can be made and the three
    files opened, [main] returns.  After the selection it opens the
    three files in the order train, valid, test, each once; it writes
    [floor(4n/5)] lines to the first, [floor(n/10)] to the second and
    the header and the records to the third; and it prints the three
    [Wrote] lines, the summary with these counts and the span line with
    the source and the encoding label.  (A write to an open file, and
    the host's [json.dumps] and [str.format], do not fail here.) *)
Theorem X22_eclipse_run (H : Host) `{!HostLaws H} (args : Eclipse.Args)
    (g : rng H) (t : list event) (csv enc : pystr) (df : DataFrame)
    (st : rng H) :
  Eclipse.main_select H args = (t, inr (csv, enc, df)) ->
  RandomState H (Eclipse.seed args) = inr st ->
  len df < 2 ^ 49 ->
  outputs_ok H (Eclipse.out_dir args) ->
  exists t',
    Eclipse.main H args g = (t ++ t', inr tt) /\
    opened_files t' = output_files H (Eclipse.out_dir args) /\
    writes_to t'
    = replicate (Z.to_nat (4 * len df / 5))
        (path_join H (Eclipse.out_dir args) (lit "train_all.jsonl")) ++
      replicate (Z.to_nat (len df / 10))
        (path_join H (Eclipse.out_dir args) (lit "valid_all.jsonl")) ++
      replicate 2 (path_join H (Eclipse.out_dir args) (lit "test_all.csv")) /\
    printed t'
    = [ lit "Wrote " ++ fmt_int (4 * len df / 5) ++ lit " examples to " ++
        path_join H (Eclipse.out_dir args) (lit "train_all.jsonl");
        lit "Wrote " ++ fmt_int (len df / 10) ++ lit " examples to " ++
        path_join H (Eclipse.out_dir args) (lit "valid_all.jsonl");
        lit "Wrote " ++ fmt_int (len df - 4 * len df / 5 - len df / 10) ++
        lit " rows to " ++
        path_join H (Eclipse.out_dir args) (lit "test_all.csv") ++
        lit " (unquoted header; QUOTE_ALL data)";
        lit "SUMMARY: total_in_window=" ++ fmt_int (len df) ++
        lit "  train=" ++ fmt_int (4 * len df / 5) ++
        lit "  valid=" ++ fmt_int (len df / 10) ++
        lit "  test=" ++ fmt_int (len df - 4 * len df / 5 - len df / 10);
        lit "Span: " ++ Eclipse.start args ++ lit " .. " ++
        Eclipse.end_ args ++ lit "  |  Source CSV: " ++ csv ++
        lit " (encoding=" ++ enc ++ lit ")" ].
Proof.
  intros Hsel Hseed Hlen Hok.
  unfold Eclipse.main. rewrite Hsel. cbn [bind fst snd].
  assert (Hlen' : len (Eclipse.add_assignee_column H df) < 2 ^ 49)
    by by rewrite len_add_assignee_column.
  destruct (main_split_partition H _ st g _ Hseed Hlen')
    as (parts & Hsplit & Hpart).
  rewrite Hsplit. cbn [bind app].
  destruct Hpart as (p & p1 & p2 & p3 & _ & _ & _ & _ & _ & _ & _ & _ & _ &
                     L1 & L2 & L3 & _).
  rewrite len_add_assignee_column in L1, L2, L3.
  destruct (eclipse_emit_ok H args csv enc
              (len (Eclipse.add_assignee_column H df))
              parts.1.1 parts.1.2 parts.2 Hok)
    as (t' & Hemit & Ho & Hw & Hp).
  rewrite Hemit. exists t'. split; [done|]. split; [done|].
  rewrite !length_rows_len, L1, L2 in Hw.
  rewrite L1, L2, L3, len_add_assignee_column in Hp.
  done.
Qed.

Lemma X22_witness :
  let H := Toy.host in
  let args := Toy.eclipse_args in
  let t := Inputs.eclipse_selected.1 in
  let csv := Inputs.eclipse_selected.2.1.1 in
  let enc := Inputs.eclipse_selected.2.1.2 in
  let df := Inputs.eclipse_selected.2.2 in
  exists t',
    Eclipse.main H args 0 = (t ++ t', inr tt) /\
    opened_files t' = output_files H (Eclipse.out_dir args) /\
    writes_to t'
    = replicate (Z.to_nat (4 * len df / 5))
        (path_join H (Eclipse.out_dir args) (lit "train_all.jsonl")) ++
      replicate (Z.to_nat (len df / 10))
        (path_join H (Eclipse.out_dir args) (lit "valid_all.jsonl")) ++
      replicate 2 (path_join H (Eclipse.out_dir args) (lit "test_all.csv")) /\
    printed t'
    = [ lit "Wrote " ++ fmt_int (4 * len df / 5) ++ lit " examples to " ++
        path_join H (Eclipse.out_dir args) (lit "train_all.jsonl");
        lit "Wrote " ++ fmt_int (len df / 10) ++ lit " examples to " ++
        path_join H (Eclipse.out_dir args) (lit "valid_all.jsonl");
        lit "Wrote " ++ fmt_int (len df - 4 * len df / 5 - len df / 10) ++
        lit " rows to " ++
        path_join H (Eclipse.out_dir args) (lit "test_all.csv") ++
        lit " (unquoted header; QUOTE_ALL data)";
        lit "SUMMARY: total_in_window=" ++ fmt_int (len df) ++
        lit "  train=" ++ fmt_int (4 * len df / 5) ++
        lit "  valid=" ++ fmt_int (len df / 10) ++
        lit "  test=" ++ fmt_int (len df - 4 * len df / 5 - len df / 10);
        lit "Span: " ++ Eclipse.start args ++ lit " .. " ++
        Eclipse.end_ args ++ lit "  |  Source CSV: " ++ csv ++
        lit " (encoding=" ++ enc ++ lit ")" ].
Proof.
  cbv zeta.
  apply (@X22_eclipse_run Toy.host ToyFacts.laws Toy.eclipse_args 0
           Inputs.eclipse_selected.1 Inputs.eclipse_selected.2.1.1
           Inputs.eclipse_selected.2.1.2 Inputs.eclipse_selected.2.2 3407).
  - vm_compute. reflexivity.
  - reflexivity.
  - vm_compute. reflexivity.
  - split; [reflexivity|]. repeat constructor.
Defined.

(** X23.  A run of the Mozilla script comes to its end, under the same
    conditions.  After the selection it opens the three files in the
    order train, valid, test, each once; it writes [floor(4n/5)] lines
    to the first, [floor(n/10)] to the second and the table to the third
    in one write; and it prints the three [Wrote] lines, the summary
    with these counts, thousands separated, and the span line. *)
Theorem X23_mozilla_run (H : Host) `{!HostLaws H} (args : Mozilla.Args)
    (g : rng H) (t : list event) (enc : pystr) (df : DataFrame)
    (st : rng H) :
  Mozilla.main_select H args = (t, inr (enc, df)) ->
  RandomState H (Mozilla.seed args) = inr st ->
  len df < 2 ^ 49 ->
  outputs_ok H (Mozilla.out_dir args) ->
  exists t',
    Mozilla.main H args g = (t ++ t', inr tt) /\
    opened_files t' = output_files H (Mozilla.out_dir args) /\
    writes_to t'
    = replicate (Z.to_nat (4 * len df / 5))
        (path_join H (Mozilla.out_dir args) (lit "train_all.jsonl")) ++
      replicate (Z.to_nat (len df / 10))
        (path_join H (Mozilla.out_dir args) (lit "valid_all.jsonl")) ++
      [path_join H (Mozilla.out_dir args) (lit "test_all.csv")] /\
    printed t'
    = [ lit "Wrote " ++ fmt_int (4 * len df / 5) ++ lit " examples to " ++
        path_join H (Mozilla.out_dir args) (lit "train_all.jsonl");
        lit "Wrote " ++ fmt_int (len df / 10) ++ lit " examples to " ++
        path_join H (Mozilla.out_dir args) (lit "valid_all.jsonl");
        lit "Wrote " ++ fmt_int (len df - 4 * len df / 5 - len df / 10) ++
        lit " rows to " ++
        path_join H (Mozilla.out_dir args) (lit "test_all.csv");
        lit "SUMMARY: total_in_span=" ++ fmt_thousands (len df) ++
        lit "  train=" ++ fmt_thousands (4 * len df / 5) ++
        lit "  valid=" ++ fmt_thousands (len df / 10) ++
        lit "  test=" ++
        fmt_thousands (len df - 4 * len df / 5 - len df / 10);
        lit "Span: " ++ Mozilla.start args ++ lit " .. " ++
        Mozilla.end_ args ++ lit " | Source: " ++ Mozilla.mozilla_csv args ++
        lit " (encoding=" ++ enc ++ lit ")" ].
Proof.
  intros Hsel Hseed Hlen Hok.
  unfold Mozilla.main. rewrite Hsel. cbn [bind fst snd].
  set (enriched := Mozilla.add_title_body H (Mozilla.add_assignee H df)).
  assert (Hn : len enriched = len df).
  { unfold enriched. by rewrite len_add_title_body, len_add_assignee. }
  assert (Hlen' : len enriched < 2 ^ 49) by by rewrite Hn.
  destruct (main_split_partition H _ st g _ Hseed Hlen')
    as (parts & Hsplit & Hpart).
  rewrite mozilla_main_split, Hsplit. cbn [bind app].
  destruct Hpart as (p & p1 & p2 & p3 & _ & _ & _ & Hparts & _ & _ & _ & _ &
                     _ & L1 & L2 & L3 & _).
  rewrite Hn in L1, L2, L3.
  assert (Hfields : forall q, Forall (fun r => has_fields r = true)
                      (rows (take_frame enriched q))).
  { intros q. cbn [rows take_frame]. apply Forall_take_rows.
    apply has_fields_enriched. }
  assert (Hcols : forall q,
            has_column "title" (take_frame enriched q)
            && has_column "body" (take_frame enriched q)
            && has_column "assignee" (take_frame enriched q) = true).
  { intros q. unfold has_column at 1 2 3. cbn [columns take_frame].
    fold (has_column "title" enriched) (has_column "body" enriched)
      (has_column "assignee" enriched).
    unfold enriched.
    rewrite !has_column_add_title_body, mozilla_add_assignee_eq,
      !has_column_add_assignee_column.
    by destruct (has_column "title" df), (has_column "body" df),
      (has_column "assignee" df). }
  destruct (mozilla_emit_ok H args enc (len enriched)
              parts.1.1 parts.1.2 parts.2 Hok)
    as (t' & Hemit & Ho & Hw & Hp).
  { rewrite Hparts. apply Hfields. }
  { rewrite Hparts. apply Hfields. }
  { rewrite Hparts. apply Hcols. }
  rewrite Hemit. exists t'. split; [done|]. split; [done|].
  rewrite !length_rows_len, L1, L2 in Hw.
  rewrite L1, L2, L3, Hn in Hp.
  done.
Qed.

Lemma X23_witness :
  let H := Toy.host in
  let args := Toy.mozilla_args in
  let t := Inputs.mozilla_selected.1 in
  let enc := Inputs.mozilla_selected.2.1 in
  let df := Inputs.mozilla_selected.2.2 in
  exists t',
    Mozilla.main H args 0 = (t ++ t', inr tt) /\
    opened_files t' = output_files H (Mozilla.out_dir args) /\
    writes_to t'
    = replicate (Z.to_nat (4 * len df / 5))
        (path_join H (Mozilla.out_dir args) (lit "train_all.jsonl")) ++
      replicate (Z.to_nat (len df / 10))
        (path_join H (Mozilla.out_dir args) (lit "valid_all.jsonl")) ++
      [path_join H (Mozilla.out_dir args) (lit "test_all.csv")] /\
    printed t'
    = [ lit "Wrote " ++ fmt_int (4 * len df / 5) ++ lit " examples to " ++
        path_join H (Mozilla.out_dir args) (lit "train_all.jsonl");
        lit "Wrote " ++ fmt_int (len df / 10) ++ lit " examples to " ++
        path_join H (Mozilla.out_dir args) (lit "valid_all.jsonl");
        lit "Wrote " ++ fmt_int (len df - 4 * len df / 5 - len df / 10) ++
        lit " rows to " ++
        path_join H (Mozilla.out_dir args) (lit "test_all.csv");
        lit "SUMMARY: total_in_span=" ++ fmt_thousands (len df) ++
        lit "  train=" ++ fmt_thousands (4 * len df / 5) ++
        lit "  valid=" ++ fmt_thousands (len df / 10) ++
        lit "  test=" ++
        fmt_thousands (len df - 4 * len df / 5 - len df / 10);
        lit "Span: " ++ Mozilla.start args ++ lit " .. " ++
        Mozilla.end_ args ++ lit " | Source: " ++ Mozilla.mozilla_csv args ++
        lit " (encoding=" ++ enc ++ lit ")" ].
Proof.
  cbv zeta.
  apply (@X23_mozilla_run Toy.host ToyFacts.laws Toy.mozilla_args 0
           Inputs.mozilla_selected.1 Inputs.mozilla_selected.2.1
           Inputs.mozilla_selected.2.2 3407).
  - vm_compute. reflexivity.
  - reflexivity.
  - vm_compute. reflexivity.
  - split; [reflexivity|]. repeat constructor.
Defined.

(** X24.  Files already written stay when a later one fails.  When the
    training file is written and the validation file cannot be opened,
    the emitting part of the Eclipse script ends with the exception of
    [open]; the training file has been opened and holds one line for
    each training row, and no other file has been opened. *)
Theorem X24_no_rollback (H : Host) (args : Eclipse.Args) (csv enc : pystr)
    (n : Z) (train val test : DataFrame) (e : exn) :
  os_makedirs H (Eclipse.out_dir args) = None ->
  os_makedirs H
    (dirname H (path_join H (Eclipse.out_dir args) (lit "train_all.jsonl")))
  = None ->
  os_open_w H (path_join H (Eclipse.out_dir args) (lit "train_all.jsonl"))
  = None ->
  os_makedirs H
    (dirname H (path_join H (Eclipse.out_dir args) (lit "valid_all.jsonl")))
  = None ->
  os_open_w H (path_join H (Eclipse.out_dir args) (lit "valid_all.jsonl"))
  = Some e ->
  exists t,
    Eclipse.main_emit H args csv enc n train val test = (t, inl e) /\
    opened_files t
    = [path_join H (Eclipse.out_dir args) (lit "train_all.jsonl")] /\
    writes_to t
    = replicate (length (rows train))
        (path_join H (Eclipse.out_dir args) (lit "train_all.jsonl")).
Proof.
  intros Hout Hd1 Ho1 Hd2 Ho2.
  unfold Eclipse.main_emit.
  rewrite eclipse_to_jsonl_lines by done.
  unfold Eclipse.to_jsonl at 1.
  unfold makedirs, open_w, print, emit, raise. rewrite Hout, Hd2, Ho2.
  set (p1 := path_join H _ (lit "train_all.jsonl")) in *.
  cbn [bind].
  eexists. split; [reflexivity|].
  pose proof (jsonl_trace_read (dirname H p1) p1
                (Eclipse.jsonl_line H (SYSTEM_PROMPT H)
                   (USER_PROMPT_TEMPLATE H))
                (rows train)
                (lit "Wrote " ++ fmt_int (len train) ++
                 lit " examples to " ++ p1)) as (Ho & Hw & Hp).
  cbn zeta in *.
  split.
  - rewrite (opened_files_app [_]), !opened_files_app, Ho. done.
  - rewrite (writes_to_app [_]), !writes_to_app, Hw. cbn.
    by rewrite app_nil_r.
Qed.

Lemma X24_witness :
  exists t,
    Eclipse.main_emit Toy.host Toy.eclipse_args_locked
      (lit "eclipse_my.csv") (lit "utf-8") 4
      Toy.span_frame Toy.span_frame Toy.span_frame
    = (t, inl (OSError (lit "Permission denied: locked/valid_all.jsonl"))) /\
    opened_files t
    = [path_join Toy.host (Eclipse.out_dir Toy.eclipse_args_locked)
         (lit "train_all.jsonl")] /\
    writes_to t
    = replicate (length (rows Toy.span_frame))
        (path_join Toy.host (Eclipse.out_dir Toy.eclipse_args_locked)
           (lit "train_all.jsonl")).
Proof.
  apply (X24_no_rollback Toy.host Toy.eclipse_args_locked
           (lit "eclipse_my.csv") (lit "utf-8") 4
           Toy.span_frame Toy.span_frame Toy.span_frame);
    vm_compute; reflexivity.
Defined.

End Extras.
